(** * lib/commands/toolcontext.c: construction and teardown of the command context

    A shallow embedding of [create_toolcontext], its static helpers
    ([_get_env_vars], [_init_config], [_init_logging], [_process_config],
    [_init_dev_cache], [_init_filter_components], [_init_filters],
    [_init_formats]) and of [destroy_toolcontext] / [_destroy_formats].

    The C code is sequential and talks to many collaborators that live in
    other translation units (configuration parser, device cache, filters,
    format handlers, libc).  Their answers are taken from a [world] record;
    every call the code makes is recorded, in program order, in a trace of
    [event]s.  The mutable objects the code owns (the [struct cmd_context]
    behind the [cmd] pointer and the file-static [_log]) form the [machine]
    state, threaded through a small state-and-trace monad. *)

From Stdlib Require Import ZArith List String Ascii Bool Lia Permutation.
Import ListNotations.
Local Open Scope string_scope.
Local Open Scope list_scope.
Set Warnings "-register-all".

(** ** Configuration tree (config.h) *)

(** [struct config_value]: the [type] tag with the union member it selects.
    The [next] pointer chains the values of one node; a chain is a list. *)
Inductive config_value : Type :=
| CFG_INT (i : Z)
| CFG_FLOAT (r : Z)
| CFG_STRING (str : string).

(** [struct config_node], addressed by its full path (sections joined by the
    separator the callers pass, always '/'). *)
Record config_node : Type := { key : string; v : list config_value }.

Record config_tree : Type := { root : list config_node }.

(** Modelled from the spec: [find_config_node] (config.c is not under src) is
    the lookup of the "hierarchical key/value lookup with typed accessors and
    defaults"; NULL when the path names no node. *)
Fixpoint find_config_node (cn : list config_node) (path : string)
  : option config_node :=
  match cn with
  | [] => None
  | n :: rest => if String.eqb (key n) path then Some n
                 else find_config_node rest path
  end.

(** Modelled from the spec: [find_config_int] (config.c is not under src), the
    typed accessor for integers: the node's first value when it is an integer,
    the caller's default otherwise. *)
Definition find_config_int (cn : list config_node) (path : string) (fail : Z)
  : Z :=
  match find_config_node cn path with
  | Some {| v := CFG_INT i :: _ |} => i
  | _ => fail
  end.

(** Modelled from the spec: [find_config_str] (config.c is not under src), the
    typed accessor for strings.  The default is a [const char *] and may be
    NULL (as for log/file), hence the option. *)
Definition find_config_str (cn : list config_node) (path : string)
           (fail : option string) : option string :=
  match find_config_node cn path with
  | Some {| v := CFG_STRING s :: _ |} => Some s
  | _ => fail
  end.

(** ** libc string helpers *)

(** The LC_CTYPE category of a locale, as far as this file depends on it:
    the table [tolower] maps a byte through.  Which table is in force is
    process state: [setlocale] replaces it. *)
Record locale : Type := { lc_tolower : ascii -> ascii }.

(** The "C" locale, in force when a program starts: A to Z fold to a to z,
    every other byte is left alone. *)
Definition C_locale : locale :=
  {| lc_tolower := fun c =>
       let n := nat_of_ascii c in
       if andb (Nat.leb 65 n) (Nat.leb n 90) then ascii_of_nat (n + 32)
       else c |}.

(** [tolower], under the LC_CTYPE in force. *)
Definition tolower (lc : locale) (c : ascii) : ascii := lc_tolower lc c.

(** [strcasecmp], under the LC_CTYPE in force: the difference of the first
    pair of bytes that differ after folding each with [tolower]; the
    terminating NUL, which [tolower] leaves alone, is read as 0. *)
Fixpoint strcasecmp (lc : locale) (s1 s2 : string) : Z :=
  match s1, s2 with
  | EmptyString, EmptyString => 0
  | EmptyString, String c2 _ => 0 - Z.of_nat (nat_of_ascii (tolower lc c2))
  | String c1 _, EmptyString => Z.of_nat (nat_of_ascii (tolower lc c1))
  | String c1 r1, String c2 r2 =>
      let d := (Z.of_nat (nat_of_ascii (tolower lc c1))
                - Z.of_nat (nat_of_ascii (tolower lc c2)))%Z in
      if Z.eqb d 0 then strcasecmp lc r1 r2 else d
  end.

(** First [n] bytes of a string: what [vsnprintf] leaves in a buffer of
    [n + 1] bytes. *)
Fixpoint truncate (n : nat) (s : string) : string :=
  match n, s with
  | O, _ => EmptyString
  | S _, EmptyString => EmptyString
  | S k, String c r => String c (truncate k r)
  end.

(** Modelled from the spec: [lvm_snprintf] (lvm-string.c is not under src)
    formats into a buffer of [bufsize] bytes and reports a negative value when
    the text "does not fit the fixed-size path buffer"; otherwise the number
    of bytes written.  The first component is the buffer's content after the
    call. *)
Definition lvm_snprintf (bufsize : nat) (text : string) : string * Z :=
  if Nat.ltb (String.length text) bufsize
  then (text, Z.of_nat (String.length text))
  else (truncate (Nat.pred bufsize) text, (-1)%Z).

(** ** Objects built by the collaborators *)

Definition FILE := nat.
Definition dl_handle := nat.

(** [struct format_type] as far as this file reads or writes it.  [library] is
    the handle of the shared object the handler came from, NULL for the
    built-in ones. *)
Record format_type : Type := {
  name : string;
  alias : option string;
  library : option dl_handle
}.

Definition set_library (l : option dl_handle) (f : format_type) : format_type :=
  {| name := name f; alias := alias f; library := l |}.

(** Modelled from the spec: the filter objects (filter.c, filter-regex.c,
    filter-composite.c and filter-persistent.c are not under src).  Each
    constructor records what its [*_create] function was handed; the
    persistent filter also carries its in-memory "mapping from device identity
    to last decision". *)
Inductive dev_filter : Type :=
| type_filter (proc_dir : string) (cn : option config_node)
| regex_filter (patterns : list config_value)
| composite_filter (children : list dev_filter)
| persistent_filter (inner : dev_filter) (file : string)
                    (decisions : list (string * bool)).

Record pool : Type := { chunk_hint : Z }.

Inductive stat_result : Type :=
| stat_ok (st_mtime : Z)
| stat_fail (errno : Z).

Definition ENOENT : Z := 2.

(** ** Build configuration: conditional compilation and the constants of
    defaults.h, limits.h and toolcontext.h, none of which is under src *)
Record build : Type := {
  HAVE_LIBDL : bool;
  LVM1_INTERNAL : bool;
  DEVMAPPER_SUPPORT : bool;
  PATH_MAX : nat;
  sizeof_sys_dir : nat;
  sizeof_dev_dir : nat;
  sizeof_proc_dir : nat;
  DEFAULT_SYS_DIR : string;
  DEFAULT_DEV_DIR : string;
  DEFAULT_PROC_DIR : string;
  DEFAULT_LOG_FACILITY : Z;
  DEFAULT_SYSLOG : Z;
  DEFAULT_LOGLEVEL : Z;
  DEFAULT_VERBOSE : Z;
  DEFAULT_INDENT : Z;
  DEFAULT_MSG_PREFIX : string;
  DEFAULT_CMD_NAME : Z;
  DEFAULT_OVERWRITE : Z;
  DEFAULT_UMASK : Z;
  DEFAULT_ACTIVATION : Z;
  DEFAULT_SUFFIX : Z;
  DEFAULT_UNITS : string;
  DEFAULT_FORMAT : string
}.

(** ** The command context (toolcontext.h) *)

(** [struct config_info].  [fmt] points into the context's format list; the
    pointer is kept as the position of the handler it points to, NULL as
    [None]. *)
Record config_info : Type := {
  debug : Z;
  syslog : Z;
  activation : Z;
  suffix : Z;
  unit_factor : Z;
  unit_type : ascii;
  msg_prefix : string;
  cmd_name : Z;
  test : Z;
  verbose : Z;
  umask : Z;
  fmt : option nat
}.

Definition zero_config_info : config_info :=
  {| debug := 0; syslog := 0; activation := 0; suffix := 0; unit_factor := 0;
     unit_type := zero; msg_prefix := ""; cmd_name := 0; test := 0;
     verbose := 0; umask := 0; fmt := None |}.

Definition set_debug x (s : config_info) :=
  {| debug := x; syslog := syslog s; activation := activation s; suffix := suffix s; unit_factor := unit_factor s; unit_type := unit_type s;
     msg_prefix := msg_prefix s; cmd_name := cmd_name s; test := test s; verbose := verbose s; umask := umask s; fmt := fmt s |}.
Definition set_syslog x (s : config_info) :=
  {| debug := debug s; syslog := x; activation := activation s; suffix := suffix s; unit_factor := unit_factor s; unit_type := unit_type s;
     msg_prefix := msg_prefix s; cmd_name := cmd_name s; test := test s; verbose := verbose s; umask := umask s; fmt := fmt s |}.
Definition set_activation_field x (s : config_info) :=
  {| debug := debug s; syslog := syslog s; activation := x; suffix := suffix s; unit_factor := unit_factor s; unit_type := unit_type s;
     msg_prefix := msg_prefix s; cmd_name := cmd_name s; test := test s; verbose := verbose s; umask := umask s; fmt := fmt s |}.
Definition set_suffix x (s : config_info) :=
  {| debug := debug s; syslog := syslog s; activation := activation s; suffix := x; unit_factor := unit_factor s; unit_type := unit_type s;
     msg_prefix := msg_prefix s; cmd_name := cmd_name s; test := test s; verbose := verbose s; umask := umask s; fmt := fmt s |}.
Definition set_units f t (s : config_info) :=
  {| debug := debug s; syslog := syslog s; activation := activation s; suffix := suffix s; unit_factor := f; unit_type := t;
     msg_prefix := msg_prefix s; cmd_name := cmd_name s; test := test s; verbose := verbose s; umask := umask s; fmt := fmt s |}.
Definition set_msg_prefix x (s : config_info) :=
  {| debug := debug s; syslog := syslog s; activation := activation s; suffix := suffix s; unit_factor := unit_factor s; unit_type := unit_type s;
     msg_prefix := x; cmd_name := cmd_name s; test := test s; verbose := verbose s; umask := umask s; fmt := fmt s |}.
Definition set_cmd_name x (s : config_info) :=
  {| debug := debug s; syslog := syslog s; activation := activation s; suffix := suffix s; unit_factor := unit_factor s; unit_type := unit_type s;
     msg_prefix := msg_prefix s; cmd_name := x; test := test s; verbose := verbose s; umask := umask s; fmt := fmt s |}.
Definition set_test x (s : config_info) :=
  {| debug := debug s; syslog := syslog s; activation := activation s; suffix := suffix s; unit_factor := unit_factor s; unit_type := unit_type s;
     msg_prefix := msg_prefix s; cmd_name := cmd_name s; test := x; verbose := verbose s; umask := umask s; fmt := fmt s |}.
Definition set_verbose x (s : config_info) :=
  {| debug := debug s; syslog := syslog s; activation := activation s; suffix := suffix s; unit_factor := unit_factor s; unit_type := unit_type s;
     msg_prefix := msg_prefix s; cmd_name := cmd_name s; test := test s; verbose := x; umask := umask s; fmt := fmt s |}.
Definition set_umask x (s : config_info) :=
  {| debug := debug s; syslog := syslog s; activation := activation s; suffix := suffix s; unit_factor := unit_factor s; unit_type := unit_type s;
     msg_prefix := msg_prefix s; cmd_name := cmd_name s; test := test s; verbose := verbose s; umask := x; fmt := fmt s |}.
Definition set_fmt x (s : config_info) :=
  {| debug := debug s; syslog := syslog s; activation := activation s; suffix := suffix s; unit_factor := unit_factor s; unit_type := unit_type s;
     msg_prefix := msg_prefix s; cmd_name := cmd_name s; test := test s; verbose := verbose s; umask := umask s; fmt := x |}.

(** [struct cmd_context].  Pointers to objects are options (NULL is [None]);
    [formats] is the intrusive list headed at [cmd->formats], in list order;
    [fmt_backup] points into it like [fmt] above.  [args] is the address of
    the caller's argument table, which this file only stores. *)
Record cmd_context : Type := {
  args : nat;
  formats : list format_type;
  fmt_backup : option nat;
  cf : option config_tree;
  default_settings : config_info;
  current_settings : config_info;
  filter : option dev_filter;
  dump_filter : bool;
  mem : option pool;
  sys_dir : string;
  dev_dir : string;
  proc_dir : string
}.

(** The structure after [memset] has zeroed it and after
    [list_init(&cmd->formats)]. *)
Definition zero_cmd_context : cmd_context :=
  {| args := 0; formats := []; fmt_backup := None; cf := None;
     default_settings := zero_config_info;
     current_settings := zero_config_info;
     filter := None; dump_filter := false; mem := None;
     sys_dir := ""; dev_dir := ""; proc_dir := "" |}.

Definition set_args x (c : cmd_context) :=
  {| args := x; formats := formats c; fmt_backup := fmt_backup c; cf := cf c; default_settings := default_settings c; current_settings := current_settings c;
     filter := filter c; dump_filter := dump_filter c; mem := mem c; sys_dir := sys_dir c; dev_dir := dev_dir c; proc_dir := proc_dir c |}.
Definition set_formats x (c : cmd_context) :=
  {| args := args c; formats := x; fmt_backup := fmt_backup c; cf := cf c; default_settings := default_settings c; current_settings := current_settings c;
     filter := filter c; dump_filter := dump_filter c; mem := mem c; sys_dir := sys_dir c; dev_dir := dev_dir c; proc_dir := proc_dir c |}.
Definition set_fmt_backup x (c : cmd_context) :=
  {| args := args c; formats := formats c; fmt_backup := x; cf := cf c; default_settings := default_settings c; current_settings := current_settings c;
     filter := filter c; dump_filter := dump_filter c; mem := mem c; sys_dir := sys_dir c; dev_dir := dev_dir c; proc_dir := proc_dir c |}.
Definition set_cf x (c : cmd_context) :=
  {| args := args c; formats := formats c; fmt_backup := fmt_backup c; cf := x; default_settings := default_settings c; current_settings := current_settings c;
     filter := filter c; dump_filter := dump_filter c; mem := mem c; sys_dir := sys_dir c; dev_dir := dev_dir c; proc_dir := proc_dir c |}.
Definition set_default_settings x (c : cmd_context) :=
  {| args := args c; formats := formats c; fmt_backup := fmt_backup c; cf := cf c; default_settings := x; current_settings := current_settings c;
     filter := filter c; dump_filter := dump_filter c; mem := mem c; sys_dir := sys_dir c; dev_dir := dev_dir c; proc_dir := proc_dir c |}.
Definition set_current_settings x (c : cmd_context) :=
  {| args := args c; formats := formats c; fmt_backup := fmt_backup c; cf := cf c; default_settings := default_settings c; current_settings := x;
     filter := filter c; dump_filter := dump_filter c; mem := mem c; sys_dir := sys_dir c; dev_dir := dev_dir c; proc_dir := proc_dir c |}.
Definition set_filter x (c : cmd_context) :=
  {| args := args c; formats := formats c; fmt_backup := fmt_backup c; cf := cf c; default_settings := default_settings c; current_settings := current_settings c;
     filter := x; dump_filter := dump_filter c; mem := mem c; sys_dir := sys_dir c; dev_dir := dev_dir c; proc_dir := proc_dir c |}.
Definition set_dump_filter x (c : cmd_context) :=
  {| args := args c; formats := formats c; fmt_backup := fmt_backup c; cf := cf c; default_settings := default_settings c; current_settings := current_settings c;
     filter := filter c; dump_filter := x; mem := mem c; sys_dir := sys_dir c; dev_dir := dev_dir c; proc_dir := proc_dir c |}.
Definition set_mem x (c : cmd_context) :=
  {| args := args c; formats := formats c; fmt_backup := fmt_backup c; cf := cf c; default_settings := default_settings c; current_settings := current_settings c;
     filter := filter c; dump_filter := dump_filter c; mem := x; sys_dir := sys_dir c; dev_dir := dev_dir c; proc_dir := proc_dir c |}.
Definition set_sys_dir x (c : cmd_context) :=
  {| args := args c; formats := formats c; fmt_backup := fmt_backup c; cf := cf c; default_settings := default_settings c; current_settings := current_settings c;
     filter := filter c; dump_filter := dump_filter c; mem := mem c; sys_dir := x; dev_dir := dev_dir c; proc_dir := proc_dir c |}.
Definition set_dev_dir x (c : cmd_context) :=
  {| args := args c; formats := formats c; fmt_backup := fmt_backup c; cf := cf c; default_settings := default_settings c; current_settings := current_settings c;
     filter := filter c; dump_filter := dump_filter c; mem := mem c; sys_dir := sys_dir c; dev_dir := x; proc_dir := proc_dir c |}.
Definition set_proc_dir x (c : cmd_context) :=
  {| args := args c; formats := formats c; fmt_backup := fmt_backup c; cf := cf c; default_settings := default_settings c; current_settings := current_settings c;
     filter := filter c; dump_filter := dump_filter c; mem := mem c; sys_dir := sys_dir c; dev_dir := dev_dir c; proc_dir := x |}.

(** [cmd->cf->root]; the helpers below run only once [_init_config] has set
    [cmd->cf]. *)
Definition cf_root (c : cmd_context) : list config_node :=
  match cf c with
  | Some t => root t
  | None => []
  end.

(** ** The collaborators *)

(** What the functions defined elsewhere answer when this file calls them.
    Each field is named after the function it stands for.  [setlocale] has
    three: whether [setlocale(LC_ALL, "")] succeeds, the locale the
    environment (LC_ALL, LC_CTYPE, LANG) names, which that call installs when
    it succeeds, and the locale in force when [create_toolcontext] is
    entered, which stays in force when the call fails. *)
Record world : Type := {
  w_setlocale : bool;
  w_locale_env : locale;
  w_locale_entry : locale;
  w_getenv : string -> option string;
  w_umask : Z;
  w_stat : string -> stat_result;
  w_fopen : string -> string -> option FILE;
  w_ctime : string;
  w_dlsym : dl_handle -> string -> bool;
  w_dbg_malloc : bool;
  w_pool_create : Z -> bool;
  w_create_dir : string -> bool;
  w_create_config_tree : bool;
  w_read_config_file : string -> option (list config_node);
  w_config_file_timestamp : option config_tree -> Z;
  w_units_to_bytes : string -> Z * ascii;
  w_dev_cache_init : bool;
  w_dev_cache_add_dir : string -> bool;
  w_lvm_type_filter_create : string -> option config_node -> bool;
  w_regex_filter_create : list config_value -> bool;
  w_composite_filter_create : list dev_filter -> bool;
  w_persistent_filter_create : dev_filter -> string -> bool;
  w_persistent_filter_load : string -> option (list (string * bool));
  w_init_lvm1_format : option format_type;
  w_load_shared_library : string -> option dl_handle;
  w_init_format_fn : dl_handle -> option format_type;
  w_create_text_format : option format_type
}.

Inductive log_arg : Type :=
| LStr (s : string)
| LInt (z : Z).

(** One constructor per function called; arguments first, then what the call
    returned when the code looks at it. *)
Inductive event : Type :=
| E_log_error (format : string) (a : list log_arg)
| E_log_verbose (format : string) (a : list log_arg)
| E_log_debug (format : string)
| E_log_sys_error (call file : string)
| E_stack
| E_init_syslog (facility : Z)
| E_fin_syslog
| E_init_debug (level : Z)
| E_init_verbose (level : Z)
| E_init_indent (indent : Z)
| E_init_msg_prefix (prefix : string)
| E_init_cmd_name (status : Z)
| E_init_log (fp : FILE)
| E_fin_log
| E_dump_memory
| E_dm_log_init
| E_dm_set_dev_dir (dir : string)
| E_set_activation (act : Z)
| E_setlocale (ok : bool)
| E_getenv (var : string) (value : option string)
| E_umask (mask old : Z)
| E_stat (path : string) (r : stat_result)
| E_fopen (path mode : string) (fp : option FILE)
| E_fclose (fp : FILE)
| E_time
| E_dlsym (lib : dl_handle) (symbol : string) (found : bool)
| E_dlclose (lib : dl_handle)
| E_dbg_malloc (ok : bool)
| E_dbg_free
| E_pool_create (hint : Z) (ok : bool)
| E_pool_destroy (p : option pool)
| E_create_dir (dir : string) (ok : bool)
| E_create_config_tree (ok : bool)
| E_destroy_config_tree (t : option config_tree)
| E_read_config_file (file : string) (ok : bool)
| E_units_to_bytes (units : string) (factor : Z)
| E_dev_cache_init (ok : bool)
| E_dev_cache_add_dir (dir : string) (ok : bool)
| E_dev_cache_exit
| E_lvm_type_filter_create (ok : bool)
| E_regex_filter_create (ok : bool)
| E_composite_filter_create (ok : bool)
| E_persistent_filter_create (file : string) (ok : bool)
| E_persistent_filter_load (ok : bool)
| E_persistent_filter_dump (f : option dev_filter)
| E_filter_destroy (f : option dev_filter)
| E_label_init
| E_label_exit
| E_cache_destroy
| E_init_lvm1_format (ok : bool)
| E_load_shared_library (path : string) (lib : option dl_handle)
| E_init_format_fn (lib : dl_handle) (ok : bool)
| E_create_text_format (ok : bool)
| E_format_destroy (f : format_type).

(** ** Machine state and the monad *)

(** The object behind the [cmd] pointer and the file-static [_log]. *)
Record machine : Type := { cmd : cmd_context; _log : option FILE }.

(** At process start: no log file; the context does not exist yet. *)
Definition boot : machine := {| cmd := zero_cmd_context; _log := None |}.

Definition M (A : Type) : Type := machine -> A * machine * list event.

(** Value, final state and trace of a run. *)
Definition value {A} (r : A * machine * list event) : A := fst (fst r).
Definition final {A} (r : A * machine * list event) : machine := snd (fst r).
Definition trace {A} (r : A * machine * list event) : list event := snd r.

Definition ret {A} (a : A) : M A := fun m => (a, m, []).

Definition bind {A B} (c : M A) (k : A -> M B) : M B :=
  fun m =>
    let '(a, m1, t1) := c m in
    let '(b, m2, t2) := k a m1 in
    (b, m2, t1 ++ t2).

Declare Scope monad_scope.
Delimit Scope monad_scope with monad.
Notation "x <- c ;; k" := (bind c (fun x => k))
  (at level 61, c at next level, right associativity) : monad_scope.
Notation "' pat <- c ;; k" := (bind c (fun x => match x with pat => k end))
  (at level 61, pat pattern, c at next level, right associativity) : monad_scope.
Notation "c ;; k" := (bind c (fun _ => k))
  (at level 61, right associativity) : monad_scope.
Local Open Scope monad_scope.

Definition emit (e : event) : M unit := fun m => (tt, m, [e]).
Definition get_cmd : M cmd_context := fun m => (cmd m, m, []).
Definition update_cmd (f : cmd_context -> cmd_context) : M unit :=
  fun m => (tt, {| cmd := f (cmd m); _log := _log m |}, []).
Definition update_default_settings (f : config_info -> config_info) : M unit :=
  update_cmd (fun c => set_default_settings (f (default_settings c)) c).
Definition get_log : M (option FILE) := fun m => (_log m, m, []).
Definition set_log (fp : option FILE) : M unit :=
  fun m => (tt, {| cmd := cmd m; _log := fp |}, []).

(** [if (c) s;] with no else branch. *)
Definition when (c : bool) (s : M unit) : M unit := if c then s else ret tt.

(** A string argument of a "%s" conversion or of a callee: the [const char *]
    handed over.  glibc prints a NULL as "(null)"; no call below passes one,
    since every lookup whose result is formatted has a non-NULL default. *)
Definition str_arg (p : option string) : string :=
  match p with
  | Some s => s
  | None => "(null)"
  end.

(** [(mode_t) x] for an [int] x: conversion to a 32-bit unsigned. *)
Definition mode_t (x : Z) : Z := (x mod 2 ^ 32)%Z.

(** [!*s]: the string is empty. *)
Definition is_empty (s : string) : bool :=
  match s with
  | EmptyString => true
  | String _ _ => false
  end.

(** ** The code of toolcontext.c *)

Section Toolcontext.

Variable B : build.
Variable W : world.

(** *** Calls to the collaborators: the event, then the answer *)

Definition log_error (format : string) (a : list log_arg) : M unit :=
  emit (E_log_error format a).
Definition log_verbose (format : string) (a : list log_arg) : M unit :=
  emit (E_log_verbose format a).
Definition log_debug (format : string) : M unit := emit (E_log_debug format).
Definition log_sys_error (call file : string) : M unit :=
  emit (E_log_sys_error call file).
Definition stack : M unit := emit E_stack.

Definition getenv (var : string) : M (option string) :=
  emit (E_getenv var (w_getenv W var)) ;; ret (w_getenv W var).
Definition stat (path : string) : M stat_result :=
  emit (E_stat path (w_stat W path)) ;; ret (w_stat W path).
Definition fopen (path mode : string) : M (option FILE) :=
  emit (E_fopen path mode (w_fopen W path mode)) ;; ret (w_fopen W path mode).
Definition create_dir (dir : string) : M bool :=
  emit (E_create_dir dir (w_create_dir W dir)) ;; ret (w_create_dir W dir).
Definition dev_cache_add_dir (dir : string) : M bool :=
  emit (E_dev_cache_add_dir dir (w_dev_cache_add_dir W dir)) ;;
  ret (w_dev_cache_add_dir W dir).

(** Modelled from the spec: [create_config_tree] (config.c is not under src)
    hands out "an empty in-memory tree", or NULL when it cannot allocate. *)
Definition create_config_tree : M (option config_tree) :=
  emit (E_create_config_tree (w_create_config_tree W)) ;;
  ret (if w_create_config_tree W then Some {| root := [] |} else None).

Definition destroy_config_tree (t : option config_tree) : M unit :=
  emit (E_destroy_config_tree t).

(** [read_config_file(cmd->cf, file)]: fills the tree in place. *)
Definition read_config_file (file : string) : M bool :=
  match w_read_config_file W file with
  | Some nodes =>
      emit (E_read_config_file file true) ;;
      update_cmd (set_cf (Some {| root := nodes |})) ;;
      ret true
  | None => emit (E_read_config_file file false) ;; ret false
  end.

(** *** [_get_env_vars] *)

Definition _get_env_vars : M bool :=
  e <- getenv "LVM_SYSTEM_DIR" ;;
  match e with
  | Some e =>
      let '(buf, n) := lvm_snprintf (sizeof_sys_dir B) e in
      update_cmd (set_sys_dir buf) ;;
      if (n <? 0)%Z then
        log_error "LVM_SYSTEM_DIR environment variable is too long." [] ;;
        ret false
      else ret true
  | None => ret true
  end.

(** *** [_init_logging] *)

Definition _init_logging : M unit :=
  c <- get_cmd ;;
  let cn := cf_root c in
  let open_mode := "a" in
  (* Syslog *)
  let sl := find_config_int cn "log/syslog" (DEFAULT_SYSLOG B) in
  update_default_settings (set_syslog sl) ;;
  when (negb (sl =? 1)%Z) (emit E_fin_syslog) ;;
  when (sl >? 1)%Z (emit (E_init_syslog sl)) ;;
  (* Debug level for log file output *)
  let dl := find_config_int cn "log/level" (DEFAULT_LOGLEVEL B) in
  update_default_settings (set_debug dl) ;;
  emit (E_init_debug dl) ;;
  (* Verbose level for tty output *)
  let vl := find_config_int cn "log/verbose" (DEFAULT_VERBOSE B) in
  update_default_settings (set_verbose vl) ;;
  emit (E_init_verbose vl) ;;
  (* Log message formatting *)
  emit (E_init_indent (find_config_int cn "log/indent" (DEFAULT_INDENT B))) ;;
  let mp := str_arg (find_config_str cn "log/prefix"
                                     (Some (DEFAULT_MSG_PREFIX B))) in
  update_default_settings (set_msg_prefix mp) ;;
  emit (E_init_msg_prefix mp) ;;
  let cnm := find_config_int cn "log/command_names" (DEFAULT_CMD_NAME B) in
  update_default_settings (set_cmd_name cnm) ;;
  emit (E_init_cmd_name cnm) ;;
  (* Test mode *)
  update_default_settings (set_test (find_config_int cn "global/test" 0)) ;;
  (* Settings for logging to file *)
  let open_mode :=
    if negb (find_config_int cn "log/overwrite" (DEFAULT_OVERWRITE B) =? 0)%Z
    then "w" else open_mode in
  let log_file := find_config_str cn "log/file" None in
  match log_file with
  | Some log_file =>
      fp <- fopen log_file open_mode ;;
      set_log fp ;;
      match fp with
      | None => log_error "Couldn't open log file %s" [LStr log_file]
      | Some fp => emit (E_init_log fp)
      end
  | None => ret tt
  end ;;
  emit E_time ;;
  log_verbose "Logging initialised at %s" [LStr (w_ctime W)] ;;
  (* Tell device-mapper about our logging *)
  when (DEVMAPPER_SUPPORT B) (emit E_dm_log_init).

(** *** [_process_config] *)

Definition _process_config : M bool :=
  c <- get_cmd ;;
  let cn := cf_root c in
  (* umask *)
  let um := find_config_int cn "global/umask" (DEFAULT_UMASK B) in
  update_default_settings (set_umask um) ;;
  emit (E_umask (mode_t um) (w_umask W)) ;;
  when (negb (w_umask W =? mode_t um)%Z)
       (log_verbose "Set umask to %04o" [LInt um]) ;;
  (* dev dir *)
  let '(buf, n) :=
    lvm_snprintf (sizeof_dev_dir B)
      (str_arg (find_config_str cn "devices/dir" (Some (DEFAULT_DEV_DIR B)))
       ++ "/") in
  update_cmd (set_dev_dir buf) ;;
  if (n <? 0)%Z then
    log_error "Device directory given in config file too long" [] ;;
    ret false
  else
  when (DEVMAPPER_SUPPORT B) (emit (E_dm_set_dev_dir buf)) ;;
  (* proc dir *)
  let '(buf, n) :=
    lvm_snprintf (sizeof_proc_dir B)
      (str_arg (find_config_str cn "global/proc" (Some (DEFAULT_PROC_DIR B)))) in
  update_cmd (set_proc_dir buf) ;;
  if (n <? 0)%Z then
    log_error "Device directory given in config file too long" [] ;;
    ret false
  else
  (* activation? *)
  let act := find_config_int cn "global/activation" (DEFAULT_ACTIVATION B) in
  update_default_settings (set_activation_field act) ;;
  emit (E_set_activation act) ;;
  update_default_settings
    (set_suffix (find_config_int cn "global/suffix" (DEFAULT_SUFFIX B))) ;;
  let units := str_arg (find_config_str cn "global/units"
                                        (Some (DEFAULT_UNITS B))) in
  let '(factor, type) := w_units_to_bytes W units in
  emit (E_units_to_bytes units factor) ;;
  update_default_settings (set_units factor type) ;;
  if (factor =? 0)%Z then
    log_error "Invalid units specification" [] ;;
    ret false
  else ret true.

(** *** [_init_config]: find and read config file *)

Definition _init_config : M bool :=
  t <- create_config_tree ;;
  update_cmd (set_cf t) ;;
  match t with
  | None => stack ;; ret false
  | Some _ =>
  c <- get_cmd ;;
  (* No config file if LVM_SYSTEM_DIR is empty *)
  if is_empty (sys_dir c) then ret true
  else
  let '(config_file, n) :=
    lvm_snprintf (PATH_MAX B) (sys_dir c ++ "/lvm.conf") in
  if (n <? 0)%Z then
    log_error "LVM_SYSTEM_DIR was too long" [] ;;
    destroy_config_tree (cf c) ;;
    ret false
  else
  (* Is there a config file? *)
  info <- stat config_file ;;
  match info with
  | stat_fail errno =>
      if (errno =? ENOENT)%Z then ret true
      else
        log_sys_error "stat" config_file ;;
        destroy_config_tree (cf c) ;;
        ret false
  | stat_ok _ =>
      ok <- read_config_file config_file ;;
      if negb ok then
        log_error "Failed to load config file %s" [LStr config_file] ;;
        c <- get_cmd ;;
        destroy_config_tree (cf c) ;;
        ret false
      else ret true
  end
  end.

(** *** [_init_dev_cache] *)

(** The loop [for (cv = cn->v; cv; cv = cv->next)]. *)
Fixpoint _init_dev_cache_scan (cv : list config_value) : M bool :=
  match cv with
  | [] => ret true
  | CFG_STRING dir :: next =>
      ok <- dev_cache_add_dir dir ;;
      if negb ok then
        log_error "Failed to add %s to internal device cache" [LStr dir] ;;
        ret false
      else _init_dev_cache_scan next
  | _ :: _ =>
      log_error "Invalid string in config file: devices/scan" [] ;;
      ret false
  end.

Definition _init_dev_cache : M bool :=
  emit (E_dev_cache_init (w_dev_cache_init W)) ;;
  if negb (w_dev_cache_init W) then stack ;; ret false
  else
  c <- get_cmd ;;
  match find_config_node (cf_root c) "devices/scan" with
  | None =>
      ok <- dev_cache_add_dir "/dev" ;;
      if negb ok then
        log_error "Failed to add /dev to internal device cache" [] ;;
        ret false
      else
        log_verbose "device/scan not in config file: Defaulting to /dev" [] ;;
        ret true
  | Some cn => _init_dev_cache_scan (v cn)
  end.

(** *** [_init_filter_components] *)

Definition lvm_type_filter_create (proc : string) (cn : option config_node)
  : M (option dev_filter) :=
  emit (E_lvm_type_filter_create (w_lvm_type_filter_create W proc cn)) ;;
  ret (if w_lvm_type_filter_create W proc cn
       then Some (type_filter proc cn) else None).

Definition regex_filter_create (patterns : list config_value)
  : M (option dev_filter) :=
  emit (E_regex_filter_create (w_regex_filter_create W patterns)) ;;
  ret (if w_regex_filter_create W patterns
       then Some (regex_filter patterns) else None).

Definition composite_filter_create (filters : list dev_filter)
  : M (option dev_filter) :=
  emit (E_composite_filter_create (w_composite_filter_create W filters)) ;;
  ret (if w_composite_filter_create W filters
       then Some (composite_filter filters) else None).

Definition _init_filter_components : M (option dev_filter) :=
  c <- get_cmd ;;
  let cn := find_config_node (cf_root c) "devices/types" in
  f2 <- lvm_type_filter_create (proc_dir c) cn ;;
  match f2 with
  | None => ret None
  | Some f2 =>
  match find_config_node (cf_root c) "devices/filter" with
  | None =>
      log_debug "devices/filter not found in config file: no regex filter installed" ;;
      ret (Some f2)
  | Some cn =>
  f1 <- regex_filter_create (v cn) ;;
  match f1 with
  | None => log_error "Failed to create regex device filter" [] ;; ret None
  | Some f1 =>
  f3 <- composite_filter_create [f1; f2] ;;
  match f3 with
  | None => log_error "Failed to create composite device filter" [] ;; ret None
  | Some f3 => ret (Some f3)
  end
  end
  end
  end.

(** *** [_init_filters] *)

(** Modelled from the spec: [persistent_filter_create] (filter-persistent.c is
    not under src) "wraps inner; fails only on allocation.  Does not itself
    load the cache file": the decision mapping starts empty. *)
Definition persistent_filter_create (f : dev_filter) (file : string)
  : M (option dev_filter) :=
  emit (E_persistent_filter_create file (w_persistent_filter_create W f file)) ;;
  ret (if w_persistent_filter_create W f file
       then Some (persistent_filter f file []) else None).

(** Modelled from the spec: [persistent_filter_load] (filter-persistent.c is
    not under src) "reads the backing file and populates the decision
    mapping"; when it fails "the filter proceeds with an empty (cold) cache".
    The filter object is updated in place; the result is the updated object
    and the status. *)
Definition persistent_filter_load (f : dev_filter) : M (dev_filter * bool) :=
  match f with
  | persistent_filter inner file decisions =>
      match w_persistent_filter_load W file with
      | Some loaded =>
          emit (E_persistent_filter_load true) ;;
          ret (persistent_filter inner file loaded, true)
      | None => emit (E_persistent_filter_load false) ;; ret (f, false)
      end
  | _ => emit (E_persistent_filter_load false) ;; ret (f, false)
  end.

Definition _init_filters : M bool :=
  update_cmd (set_dump_filter false) ;;
  f3 <- _init_filter_components ;;
  match f3 with
  | None => ret false
  | Some f3 =>
  c <- get_cmd ;;
  let '(cache_file, n) := lvm_snprintf (PATH_MAX B) (sys_dir c ++ "/.cache") in
  if (n <? 0)%Z then
    log_error "Persistent cache filename too long ('%s/.cache')."
              [LStr (sys_dir c)] ;;
    ret false
  else
  let lvm_cache :=
    str_arg (find_config_str (cf_root c) "devices/cache" (Some cache_file)) in
  f4 <- persistent_filter_create f3 lvm_cache ;;
  match f4 with
  | None => log_error "Failed to create persistent device filter" [] ;; ret false
  | Some f4 =>
  (* Should we ever dump persistent filter state? *)
  when (negb (find_config_int (cf_root c) "devices/write_cache_state" 1 =? 0)%Z)
       (update_cmd (set_dump_filter true)) ;;
  when (is_empty (sys_dir c)) (update_cmd (set_dump_filter false)) ;;
  st <- stat lvm_cache ;;
  f4 <- match st with
        | stat_ok st_mtime =>
            if (st_mtime >? w_config_file_timestamp W (cf c))%Z
            then
              '(f4, ok) <- persistent_filter_load f4 ;;
              when (negb ok)
                   (log_verbose "Failed to load existing device cache from %s"
                                [LStr lvm_cache]) ;;
              ret f4
            else ret f4
        | stat_fail _ => ret f4
        end ;;
  update_cmd (set_filter (Some f4)) ;;
  ret true
  end
  end.

(** *** [_init_formats] *)

(** Modelled from the spec: [list_add] (list.h is not under src) links the
    element in at the tail, so that "order is insertion order". *)
Definition list_add (elem : format_type) : M unit :=
  update_cmd (fun c => set_formats (formats c ++ [elem]) c).

(** The loop over the values of global/format_libraries. *)
Fixpoint _init_formats_libs (cv : list config_value) : M bool :=
  match cv with
  | [] => ret true
  | CFG_STRING path :: next =>
      emit (E_load_shared_library path (w_load_shared_library W path)) ;;
      match w_load_shared_library W path with
      | None => stack ;; ret false
      | Some lib =>
          emit (E_dlsym lib "init_format" (w_dlsym W lib "init_format")) ;;
          if negb (w_dlsym W lib "init_format") then
            log_error "Shared library %s does not contain format functions"
                      [LStr path] ;;
            emit (E_dlclose lib) ;;
            ret false
          else
            match w_init_format_fn W lib with
            | None => emit (E_init_format_fn lib false) ;; ret false
            | Some fmt =>
                emit (E_init_format_fn lib true) ;;
                list_add (set_library (Some lib) fmt) ;;
                _init_formats_libs next
            end
      end
  | _ :: _ =>
      log_error "Invalid string in config file: global/format_libraries" [] ;;
      ret false
  end.

(** The LC_CTYPE in force once [create_toolcontext] has called
    [setlocale(LC_ALL, "")]: the environment's locale when the call
    succeeded, the locale of the caller when it failed.  Nothing in this file
    changes the locale afterwards, and [_init_formats], which is static, runs
    only after that call. *)
Definition current_locale : locale :=
  if w_setlocale W then w_locale_env W else w_locale_entry W.

(** [!strcasecmp(fmt->name, format) ||
     (fmt->alias && !strcasecmp(fmt->alias, format))], under the LC_CTYPE
    [lc]. *)
Definition format_matches (lc : locale) (f : format_type) (format : string)
  : bool :=
  (strcasecmp lc (name f) format =? 0)%Z
  || match alias f with
     | Some a => (strcasecmp lc a format =? 0)%Z
     | None => false
     end.

(** The [list_iterate] loop: the position, counted from [pos], of the first
    handler that matches. *)
Fixpoint _init_formats_default (lc : locale) (fmts : list format_type)
         (pos : nat) (format : string) : option nat :=
  match fmts with
  | [] => None
  | f :: rest =>
      if format_matches lc f format then Some pos
      else _init_formats_default lc rest (S pos) format
  end.

Definition _init_formats : M bool :=
  emit E_label_init ;;
  ok <- (if LVM1_INTERNAL B then
           emit (E_init_lvm1_format
                   (match w_init_lvm1_format W with Some _ => true | None => false end)) ;;
           match w_init_lvm1_format W with
           | None => ret false
           | Some fmt => list_add (set_library None fmt) ;; ret true
           end
         else ret true) ;;
  if negb ok then ret false
  else
  c <- get_cmd ;;
  ok <- (if HAVE_LIBDL B then
           (* Load any formats in shared libs *)
           match find_config_node (cf_root c) "global/format_libraries" with
           | Some cn => _init_formats_libs (v cn)
           | None => ret true
           end
         else ret true) ;;
  if negb ok then ret false
  else
  match w_create_text_format W with
  | None => emit (E_create_text_format false) ;; ret false
  | Some fmt =>
  emit (E_create_text_format true) ;;
  list_add (set_library None fmt) ;;
  c <- get_cmd ;;
  update_cmd (set_fmt_backup (Some (Nat.pred (List.length (formats c))))) ;;
  let format :=
    str_arg (find_config_str (cf_root c) "global/format"
                             (Some (DEFAULT_FORMAT B))) in
  match _init_formats_default current_locale (formats c) 0 format with
  | Some pos =>
      update_default_settings (set_fmt (Some pos)) ;;
      ret true
  | None =>
      log_error "_init_formats: Default format (%s) not found" [LStr format] ;;
      ret false
  end
  end.

(** *** [create_toolcontext]: entry point *)

(** The code at the label [error]. *)
Definition error : M (option cmd_context) :=
  emit E_dbg_free ;; ret None.

Definition create_toolcontext (the_args : nat) : M (option cmd_context) :=
  emit (E_setlocale (w_setlocale W)) ;;
  when (negb (w_setlocale W)) (log_error "setlocale failed" []) ;;
  emit (E_init_syslog (DEFAULT_LOG_FACILITY B)) ;;
  emit (E_dbg_malloc (w_dbg_malloc W)) ;;
  if negb (w_dbg_malloc W) then
    log_error "Failed to allocate command context" [] ;;
    ret None
  else
  update_cmd (fun _ => set_args the_args zero_cmd_context) ;;
  update_cmd (set_sys_dir (DEFAULT_SYS_DIR B)) ;;
  ok <- _get_env_vars ;;
  if negb ok then error else
  (* Create system directory if it doesn't already exist *)
  c <- get_cmd ;;
  ok <- (if is_empty (sys_dir c) then ret true else create_dir (sys_dir c)) ;;
  if negb ok then error else
  ok <- _init_config ;;
  if negb ok then error else
  _init_logging ;;
  ok <- _process_config ;;
  if negb ok then error else
  ok <- _init_dev_cache ;;
  if negb ok then error else
  ok <- _init_filters ;;
  if negb ok then error else
  emit (E_pool_create (4 * 1024) (w_pool_create W (4 * 1024))) ;;
  update_cmd (set_mem (if w_pool_create W (4 * 1024)
                       then Some {| chunk_hint := 4 * 1024 |} else None)) ;;
  if negb (w_pool_create W (4 * 1024)) then
    log_error "Command memory pool creation failed" [] ;;
    ret None
  else
  ok <- _init_formats ;;
  if negb ok then error else
  update_cmd (fun c => set_current_settings (default_settings c) c) ;;
  c <- get_cmd ;;
  ret (Some c).

(** *** [_destroy_formats] and [destroy_toolcontext] *)

(** The [list_iterate_safe] loop over [formats]; [list_del] unlinks the
    handler before it is destroyed. *)
Fixpoint _destroy_formats (formats : list format_type) : M unit :=
  match formats with
  | [] => ret tt
  | fmt :: tmp =>
      update_cmd (set_formats tmp) ;;
      let lib := library fmt in
      emit (E_format_destroy fmt) ;;
      when (HAVE_LIBDL B)
           (match lib with
            | Some lib => emit (E_dlclose lib)
            | None => ret tt
            end) ;;
      _destroy_formats tmp
  end.

Definition destroy_toolcontext : M unit :=
  c <- get_cmd ;;
  when (dump_filter c) (emit (E_persistent_filter_dump (filter c))) ;;
  emit E_cache_destroy ;;
  emit E_label_exit ;;
  _destroy_formats (formats c) ;;
  emit (E_filter_destroy (filter c)) ;;
  emit (E_pool_destroy (mem c)) ;;
  emit E_dev_cache_exit ;;
  emit (E_destroy_config_tree (cf c)) ;;
  emit E_dbg_free ;;
  emit E_dump_memory ;;
  emit E_fin_log ;;
  emit E_fin_syslog ;;
  fp <- get_log ;;
  match fp with
  | Some fp => emit (E_fclose fp)
  | None => ret tt
  end.

End Toolcontext.

(** ** Concrete builds and worlds used to run the code *)

Definition build_full : build :=
  {| HAVE_LIBDL := true; LVM1_INTERNAL := true; DEVMAPPER_SUPPORT := true;
     PATH_MAX := 64; sizeof_sys_dir := 64; sizeof_dev_dir := 64;
     sizeof_proc_dir := 64;
     DEFAULT_SYS_DIR := "/etc/lvm"; DEFAULT_DEV_DIR := "/dev";
     DEFAULT_PROC_DIR := "/proc"; DEFAULT_LOG_FACILITY := 8;
     DEFAULT_SYSLOG := 1; DEFAULT_LOGLEVEL := 0; DEFAULT_VERBOSE := 0;
     DEFAULT_INDENT := 1; DEFAULT_MSG_PREFIX := "  "; DEFAULT_CMD_NAME := 0;
     DEFAULT_OVERWRITE := 0; DEFAULT_UMASK := 63; DEFAULT_ACTIVATION := 1;
     DEFAULT_SUFFIX := 1; DEFAULT_UNITS := "h"; DEFAULT_FORMAT := "lvm2" |}.

Definition lvm1_format : format_type :=
  {| name := "lvm1"; alias := None; library := None |}.
Definition text_format : format_type :=
  {| name := "lvm2"; alias := Some "text"; library := None |}.
Definition pool_format : format_type :=
  {| name := "pool"; alias := Some "TEXT"; library := None |}.

(** The nodes of an lvm.conf that sets a log file, two scan directories, a
    device filter and one format library. *)
Definition sample_conf : list config_node :=
  [ {| key := "log/file"; v := [CFG_STRING "/var/log/lvm2.log"] |};
    {| key := "log/overwrite"; v := [CFG_INT 1] |};
    {| key := "devices/scan"; v := [CFG_STRING "/dev"; CFG_STRING "/mnt/extra"] |};
    {| key := "devices/filter"; v := [CFG_STRING "a/.*/"] |};
    {| key := "global/format_libraries"; v := [CFG_STRING "libpool.so"] |} ].

(** Every collaborator succeeds; lvm.conf holds [conf]; the cache file is
    newer than the configuration. *)
Definition world_ok (conf : list config_node) : world :=
  {| w_setlocale := true;
     w_locale_env := C_locale;
     w_locale_entry := C_locale;
     w_getenv := fun _ => None;
     w_umask := 18;
     w_stat := fun path =>
       if String.eqb path "/etc/lvm/lvm.conf" then stat_ok 100
       else if String.eqb path "/etc/lvm/.cache" then stat_ok 200
       else stat_fail ENOENT;
     w_fopen := fun _ _ => Some 3;
     w_ctime := "Thu Jan  1 00:00:00 1970";
     w_dlsym := fun _ _ => true;
     w_dbg_malloc := true;
     w_pool_create := fun _ => true;
     w_create_dir := fun _ => true;
     w_create_config_tree := true;
     w_read_config_file := fun _ => Some conf;
     w_config_file_timestamp := fun _ => 100%Z;
     w_units_to_bytes := fun _ => (1%Z, "h"%char);
     w_dev_cache_init := true;
     w_dev_cache_add_dir := fun _ => true;
     w_lvm_type_filter_create := fun _ _ => true;
     w_regex_filter_create := fun _ => true;
     w_composite_filter_create := fun _ => true;
     w_persistent_filter_create := fun _ _ => true;
     w_persistent_filter_load := fun _ => Some [("/dev/sda1", false)];
     w_init_lvm1_format := Some lvm1_format;
     w_load_shared_library := fun _ => Some 7;
     w_init_format_fn := fun _ => Some pool_format;
     w_create_text_format := Some text_format |}.


(** The machine left by a successful construction in that world. *)
Definition machine_ok : machine :=
  final (create_toolcontext build_full (world_ok sample_conf) 0 boot).

(** ** Vocabulary of the specification *)

(** The steps the specification names for the teardown. *)
Inductive teardown_step : Type :=
| dump_cache
| release_dev_cache
| release_format
| destroy_filter
| release_arena
| release_config_tree
| free_context
| close_log_file.

(** The step an event performs.  The device-cache directory index is the one
    [_init_dev_cache] builds with [dev_cache_init] and [dev_cache_add_dir];
    [dev_cache_exit] releases it.  [cache_destroy], [label_exit],
    [dump_memory], [fin_log] and [fin_syslog] are not among the steps the
    specification names; a handler's [dlclose] belongs to the release of
    that handler. *)
Definition teardown_step_of (e : event) : option teardown_step :=
  match e with
  | E_persistent_filter_dump _ => Some dump_cache
  | E_dev_cache_exit => Some release_dev_cache
  | E_format_destroy _ => Some release_format
  | E_filter_destroy _ => Some destroy_filter
  | E_pool_destroy _ => Some release_arena
  | E_destroy_config_tree _ => Some release_config_tree
  | E_dbg_free => Some free_context
  | E_fclose _ => Some close_log_file
  | _ => None
  end.

Fixpoint teardown_steps (t : list event) : list teardown_step :=
  match t with
  | [] => []
  | e :: rest =>
      match teardown_step_of e with
      | Some s => s :: teardown_steps rest
      | None => teardown_steps rest
      end
  end.

(** The order the specification states, for a context with [n] handlers. *)
Definition stated_teardown_order (dump : bool) (n : nat) (log_open : bool)
  : list teardown_step :=
  (if dump then [dump_cache] else [])
  ++ [release_dev_cache]
  ++ repeat release_format n
  ++ [destroy_filter; release_arena; release_config_tree; free_context]
  ++ (if log_open then [close_log_file] else []).

(** The order of the code. *)
Definition teardown_order (dump : bool) (n : nat) (log_open : bool)
  : list teardown_step :=
  (if dump then [dump_cache] else [])
  ++ repeat release_format n
  ++ [destroy_filter; release_arena; release_dev_cache; release_config_tree;
      free_context]
  ++ (if log_open then [close_log_file] else []).

(** The events of releasing the handlers of a list, front to back. *)
Fixpoint formats_release (have_libdl : bool) (fmts : list format_type)
  : list event :=
  match fmts with
  | [] => []
  | f :: rest =>
      E_format_destroy f
      :: match library f with
         | Some lib => if have_libdl then [E_dlclose lib] else []
         | None => []
         end
      ++ formats_release have_libdl rest
  end.

Definition is_some {A} (o : option A) : bool :=
  match o with
  | Some _ => true
  | None => false
  end.


(** A world that differs in the answer of one collaborator. *)
Definition set_w_getenv x (w : world) : world :=
  {| w_setlocale := w_setlocale w;
     w_locale_env := w_locale_env w;
     w_locale_entry := w_locale_entry w;
     w_getenv := x;
     w_umask := w_umask w;
     w_stat := w_stat w;
     w_fopen := w_fopen w;
     w_ctime := w_ctime w;
     w_dlsym := w_dlsym w;
     w_dbg_malloc := w_dbg_malloc w;
     w_pool_create := w_pool_create w;
     w_create_dir := w_create_dir w;
     w_create_config_tree := w_create_config_tree w;
     w_read_config_file := w_read_config_file w;
     w_config_file_timestamp := w_config_file_timestamp w;
     w_units_to_bytes := w_units_to_bytes w;
     w_dev_cache_init := w_dev_cache_init w;
     w_dev_cache_add_dir := w_dev_cache_add_dir w;
     w_lvm_type_filter_create := w_lvm_type_filter_create w;
     w_regex_filter_create := w_regex_filter_create w;
     w_composite_filter_create := w_composite_filter_create w;
     w_persistent_filter_create := w_persistent_filter_create w;
     w_persistent_filter_load := w_persistent_filter_load w;
     w_init_lvm1_format := w_init_lvm1_format w;
     w_load_shared_library := w_load_shared_library w;
     w_init_format_fn := w_init_format_fn w;
     w_create_text_format := w_create_text_format w |}.

Definition set_w_stat x (w : world) : world :=
  {| w_setlocale := w_setlocale w;
     w_locale_env := w_locale_env w;
     w_locale_entry := w_locale_entry w;
     w_getenv := w_getenv w;
     w_umask := w_umask w;
     w_stat := x;
     w_fopen := w_fopen w;
     w_ctime := w_ctime w;
     w_dlsym := w_dlsym w;
     w_dbg_malloc := w_dbg_malloc w;
     w_pool_create := w_pool_create w;
     w_create_dir := w_create_dir w;
     w_create_config_tree := w_create_config_tree w;
     w_read_config_file := w_read_config_file w;
     w_config_file_timestamp := w_config_file_timestamp w;
     w_units_to_bytes := w_units_to_bytes w;
     w_dev_cache_init := w_dev_cache_init w;
     w_dev_cache_add_dir := w_dev_cache_add_dir w;
     w_lvm_type_filter_create := w_lvm_type_filter_create w;
     w_regex_filter_create := w_regex_filter_create w;
     w_composite_filter_create := w_composite_filter_create w;
     w_persistent_filter_create := w_persistent_filter_create w;
     w_persistent_filter_load := w_persistent_filter_load w;
     w_init_lvm1_format := w_init_lvm1_format w;
     w_load_shared_library := w_load_shared_library w;
     w_init_format_fn := w_init_format_fn w;
     w_create_text_format := w_create_text_format w |}.

Definition set_w_fopen x (w : world) : world :=
  {| w_setlocale := w_setlocale w;
     w_locale_env := w_locale_env w;
     w_locale_entry := w_locale_entry w;
     w_getenv := w_getenv w;
     w_umask := w_umask w;
     w_stat := w_stat w;
     w_fopen := x;
     w_ctime := w_ctime w;
     w_dlsym := w_dlsym w;
     w_dbg_malloc := w_dbg_malloc w;
     w_pool_create := w_pool_create w;
     w_create_dir := w_create_dir w;
     w_create_config_tree := w_create_config_tree w;
     w_read_config_file := w_read_config_file w;
     w_config_file_timestamp := w_config_file_timestamp w;
     w_units_to_bytes := w_units_to_bytes w;
     w_dev_cache_init := w_dev_cache_init w;
     w_dev_cache_add_dir := w_dev_cache_add_dir w;
     w_lvm_type_filter_create := w_lvm_type_filter_create w;
     w_regex_filter_create := w_regex_filter_create w;
     w_composite_filter_create := w_composite_filter_create w;
     w_persistent_filter_create := w_persistent_filter_create w;
     w_persistent_filter_load := w_persistent_filter_load w;
     w_init_lvm1_format := w_init_lvm1_format w;
     w_load_shared_library := w_load_shared_library w;
     w_init_format_fn := w_init_format_fn w;
     w_create_text_format := w_create_text_format w |}.

Definition set_w_pool_create x (w : world) : world :=
  {| w_setlocale := w_setlocale w;
     w_locale_env := w_locale_env w;
     w_locale_entry := w_locale_entry w;
     w_getenv := w_getenv w;
     w_umask := w_umask w;
     w_stat := w_stat w;
     w_fopen := w_fopen w;
     w_ctime := w_ctime w;
     w_dlsym := w_dlsym w;
     w_dbg_malloc := w_dbg_malloc w;
     w_pool_create := x;
     w_create_dir := w_create_dir w;
     w_create_config_tree := w_create_config_tree w;
     w_read_config_file := w_read_config_file w;
     w_config_file_timestamp := w_config_file_timestamp w;
     w_units_to_bytes := w_units_to_bytes w;
     w_dev_cache_init := w_dev_cache_init w;
     w_dev_cache_add_dir := w_dev_cache_add_dir w;
     w_lvm_type_filter_create := w_lvm_type_filter_create w;
     w_regex_filter_create := w_regex_filter_create w;
     w_composite_filter_create := w_composite_filter_create w;
     w_persistent_filter_create := w_persistent_filter_create w;
     w_persistent_filter_load := w_persistent_filter_load w;
     w_init_lvm1_format := w_init_lvm1_format w;
     w_load_shared_library := w_load_shared_library w;
     w_init_format_fn := w_init_format_fn w;
     w_create_text_format := w_create_text_format w |}.

Definition set_w_units_to_bytes x (w : world) : world :=
  {| w_setlocale := w_setlocale w;
     w_locale_env := w_locale_env w;
     w_locale_entry := w_locale_entry w;
     w_getenv := w_getenv w;
     w_umask := w_umask w;
     w_stat := w_stat w;
     w_fopen := w_fopen w;
     w_ctime := w_ctime w;
     w_dlsym := w_dlsym w;
     w_dbg_malloc := w_dbg_malloc w;
     w_pool_create := w_pool_create w;
     w_create_dir := w_create_dir w;
     w_create_config_tree := w_create_config_tree w;
     w_read_config_file := w_read_config_file w;
     w_config_file_timestamp := w_config_file_timestamp w;
     w_units_to_bytes := x;
     w_dev_cache_init := w_dev_cache_init w;
     w_dev_cache_add_dir := w_dev_cache_add_dir w;
     w_lvm_type_filter_create := w_lvm_type_filter_create w;
     w_regex_filter_create := w_regex_filter_create w;
     w_composite_filter_create := w_composite_filter_create w;
     w_persistent_filter_create := w_persistent_filter_create w;
     w_persistent_filter_load := w_persistent_filter_load w;
     w_init_lvm1_format := w_init_lvm1_format w;
     w_load_shared_library := w_load_shared_library w;
     w_init_format_fn := w_init_format_fn w;
     w_create_text_format := w_create_text_format w |}.

Definition set_w_dev_cache_init x (w : world) : world :=
  {| w_setlocale := w_setlocale w;
     w_locale_env := w_locale_env w;
     w_locale_entry := w_locale_entry w;
     w_getenv := w_getenv w;
     w_umask := w_umask w;
     w_stat := w_stat w;
     w_fopen := w_fopen w;
     w_ctime := w_ctime w;
     w_dlsym := w_dlsym w;
     w_dbg_malloc := w_dbg_malloc w;
     w_pool_create := w_pool_create w;
     w_create_dir := w_create_dir w;
     w_create_config_tree := w_create_config_tree w;
     w_read_config_file := w_read_config_file w;
     w_config_file_timestamp := w_config_file_timestamp w;
     w_units_to_bytes := w_units_to_bytes w;
     w_dev_cache_init := x;
     w_dev_cache_add_dir := w_dev_cache_add_dir w;
     w_lvm_type_filter_create := w_lvm_type_filter_create w;
     w_regex_filter_create := w_regex_filter_create w;
     w_composite_filter_create := w_composite_filter_create w;
     w_persistent_filter_create := w_persistent_filter_create w;
     w_persistent_filter_load := w_persistent_filter_load w;
     w_init_lvm1_format := w_init_lvm1_format w;
     w_load_shared_library := w_load_shared_library w;
     w_init_format_fn := w_init_format_fn w;
     w_create_text_format := w_create_text_format w |}.

Definition set_w_dev_cache_add_dir x (w : world) : world :=
  {| w_setlocale := w_setlocale w;
     w_locale_env := w_locale_env w;
     w_locale_entry := w_locale_entry w;
     w_getenv := w_getenv w;
     w_umask := w_umask w;
     w_stat := w_stat w;
     w_fopen := w_fopen w;
     w_ctime := w_ctime w;
     w_dlsym := w_dlsym w;
     w_dbg_malloc := w_dbg_malloc w;
     w_pool_create := w_pool_create w;
     w_create_dir := w_create_dir w;
     w_create_config_tree := w_create_config_tree w;
     w_read_config_file := w_read_config_file w;
     w_config_file_timestamp := w_config_file_timestamp w;
     w_units_to_bytes := w_units_to_bytes w;
     w_dev_cache_init := w_dev_cache_init w;
     w_dev_cache_add_dir := x;
     w_lvm_type_filter_create := w_lvm_type_filter_create w;
     w_regex_filter_create := w_regex_filter_create w;
     w_composite_filter_create := w_composite_filter_create w;
     w_persistent_filter_create := w_persistent_filter_create w;
     w_persistent_filter_load := w_persistent_filter_load w;
     w_init_lvm1_format := w_init_lvm1_format w;
     w_load_shared_library := w_load_shared_library w;
     w_init_format_fn := w_init_format_fn w;
     w_create_text_format := w_create_text_format w |}.

Definition set_w_persistent_filter_load x (w : world) : world :=
  {| w_setlocale := w_setlocale w;
     w_locale_env := w_locale_env w;
     w_locale_entry := w_locale_entry w;
     w_getenv := w_getenv w;
     w_umask := w_umask w;
     w_stat := w_stat w;
     w_fopen := w_fopen w;
     w_ctime := w_ctime w;
     w_dlsym := w_dlsym w;
     w_dbg_malloc := w_dbg_malloc w;
     w_pool_create := w_pool_create w;
     w_create_dir := w_create_dir w;
     w_create_config_tree := w_create_config_tree w;
     w_read_config_file := w_read_config_file w;
     w_config_file_timestamp := w_config_file_timestamp w;
     w_units_to_bytes := w_units_to_bytes w;
     w_dev_cache_init := w_dev_cache_init w;
     w_dev_cache_add_dir := w_dev_cache_add_dir w;
     w_lvm_type_filter_create := w_lvm_type_filter_create w;
     w_regex_filter_create := w_regex_filter_create w;
     w_composite_filter_create := w_composite_filter_create w;
     w_persistent_filter_create := w_persistent_filter_create w;
     w_persistent_filter_load := x;
     w_init_lvm1_format := w_init_lvm1_format w;
     w_load_shared_library := w_load_shared_library w;
     w_init_format_fn := w_init_format_fn w;
     w_create_text_format := w_create_text_format w |}.

Definition set_w_create_text_format x (w : world) : world :=
  {| w_setlocale := w_setlocale w;
     w_locale_env := w_locale_env w;
     w_locale_entry := w_locale_entry w;
     w_getenv := w_getenv w;
     w_umask := w_umask w;
     w_stat := w_stat w;
     w_fopen := w_fopen w;
     w_ctime := w_ctime w;
     w_dlsym := w_dlsym w;
     w_dbg_malloc := w_dbg_malloc w;
     w_pool_create := w_pool_create w;
     w_create_dir := w_create_dir w;
     w_create_config_tree := w_create_config_tree w;
     w_read_config_file := w_read_config_file w;
     w_config_file_timestamp := w_config_file_timestamp w;
     w_units_to_bytes := w_units_to_bytes w;
     w_dev_cache_init := w_dev_cache_init w;
     w_dev_cache_add_dir := w_dev_cache_add_dir w;
     w_lvm_type_filter_create := w_lvm_type_filter_create w;
     w_regex_filter_create := w_regex_filter_create w;
     w_composite_filter_create := w_composite_filter_create w;
     w_persistent_filter_create := w_persistent_filter_create w;
     w_persistent_filter_load := w_persistent_filter_load w;
     w_init_lvm1_format := w_init_lvm1_format w;
     w_load_shared_library := w_load_shared_library w;
     w_init_format_fn := w_init_format_fn w;
     w_create_text_format := x |}.

Definition set_w_read_config_file x (w : world) : world :=
  {| w_setlocale := w_setlocale w;
     w_locale_env := w_locale_env w;
     w_locale_entry := w_locale_entry w;
     w_getenv := w_getenv w;
     w_umask := w_umask w;
     w_stat := w_stat w;
     w_fopen := w_fopen w;
     w_ctime := w_ctime w;
     w_dlsym := w_dlsym w;
     w_dbg_malloc := w_dbg_malloc w;
     w_pool_create := w_pool_create w;
     w_create_dir := w_create_dir w;
     w_create_config_tree := w_create_config_tree w;
     w_read_config_file := x;
     w_config_file_timestamp := w_config_file_timestamp w;
     w_units_to_bytes := w_units_to_bytes w;
     w_dev_cache_init := w_dev_cache_init w;
     w_dev_cache_add_dir := w_dev_cache_add_dir w;
     w_lvm_type_filter_create := w_lvm_type_filter_create w;
     w_regex_filter_create := w_regex_filter_create w;
     w_composite_filter_create := w_composite_filter_create w;
     w_persistent_filter_create := w_persistent_filter_create w;
     w_persistent_filter_load := w_persistent_filter_load w;
     w_init_lvm1_format := w_init_lvm1_format w;
     w_load_shared_library := w_load_shared_library w;
     w_init_format_fn := w_init_format_fn w;
     w_create_text_format := w_create_text_format w |}.

(** *** Device-cache initialisation *)

(** The calls of [dev_cache_add_dir] in a trace, in order, each with its
    result. *)
Fixpoint add_dir_calls (t : list event) : list (string * bool) :=
  match t with
  | [] => []
  | E_dev_cache_add_dir dir ok :: rest => (dir, ok) :: add_dir_calls rest
  | _ :: rest => add_dir_calls rest
  end.

(** The directories registered: the calls that succeeded. *)
Definition registered (t : list event) : list string :=
  map fst (List.filter snd (add_dir_calls t)).

(** An entry of devices/scan that the loop accepts: a string whose
    registration succeeds. *)
Definition scan_entry_ok (W : world) (cv : config_value) : bool :=
  match cv with
  | CFG_STRING dir => w_dev_cache_add_dir W dir
  | _ => false
  end.

(** The registrations attempted for a list of entries: in list order, up to
    and including the first that fails, and none from a non-string entry on. *)
Fixpoint scan_calls (W : world) (cv : list config_value) : list (string * bool) :=
  match cv with
  | CFG_STRING dir :: next =>
      (dir, w_dev_cache_add_dir W dir)
      :: (if w_dev_cache_add_dir W dir then scan_calls W next else [])
  | _ => []
  end.

(** The directories a list of entries names. *)
Fixpoint scan_dirs (cv : list config_value) : list string :=
  match cv with
  | [] => []
  | CFG_STRING dir :: next => dir :: scan_dirs next
  | _ :: next => scan_dirs next
  end.

(** C8 as the specification states it. *)
Definition stated_init_dev_cache (W : world) (m : machine) : Prop :=
  let r := _init_dev_cache W m in
  match find_config_node (cf_root (cmd m)) "devices/scan" with
  | None => registered (trace r) = ["/dev"] /\ value r = true
  | Some cn =>
      (value r = true -> registered (trace r) = scan_dirs (v cn))
      /\ (value r = false <->
          exists cv, In cv (v cn) /\ scan_entry_ok W cv = false)
  end.

(** The device cache refuses every directory. *)
Definition world_no_dirs : world :=
  set_w_dev_cache_add_dir (fun _ => false) (world_ok []).


(** *** Filter initialisation *)

(** The events that report a failed construction of a filter layer, or the
    overflow of the cache pathname. *)
Definition filter_construction_failure (e : event) : bool :=
  match e with
  | E_lvm_type_filter_create ok => negb ok
  | E_regex_filter_create ok => negb ok
  | E_composite_filter_create ok => negb ok
  | E_persistent_filter_create _ ok => negb ok
  | E_log_error format _ =>
      String.eqb format "Persistent cache filename too long ('%s/.cache')."
  | _ => false
  end.

(** The events [_init_filter_components] can produce. *)
Definition component_event (e : event) : bool :=
  match e with
  | E_lvm_type_filter_create _ | E_regex_filter_create _
  | E_composite_filter_create _ | E_log_debug _ => true
  | E_log_error format _ =>
      String.eqb format "Failed to create regex device filter"
      || String.eqb format "Failed to create composite device filter"
  | _ => false
  end.

(** The pathname [_init_filters] computes for the cache: devices/cache, by
    default .cache under the system directory. *)
Definition cache_path (c : cmd_context) : string :=
  str_arg (find_config_str (cf_root c) "devices/cache"
                           (Some (sys_dir c ++ "/.cache")%string)).

(** *** The stages of [create_toolcontext] *)

(** The fallible steps of the construction, in program order. *)
Inductive fatal_step : Type :=
| env_override
| directory_creation
| config_load
| settings_processing
| device_cache_init
| filter_construction
| arena_allocation
| format_registry.

(** What [create_toolcontext] does before the first fallible step. *)
Definition create_head (B : build) (W : world) : list event :=
  [E_setlocale (w_setlocale W)]
  ++ (if negb (w_setlocale W) then [E_log_error "setlocale failed" []] else [])
  ++ [E_init_syslog (DEFAULT_LOG_FACILITY B); E_dbg_malloc (w_dbg_malloc W)].

(** The machine once the context is allocated, zeroed and given its default
    system directory. *)
Definition allocated (B : build) (W : world) (a : nat) (m : machine) : machine :=
  {| cmd := set_sys_dir (DEFAULT_SYS_DIR B) (set_args a zero_cmd_context);
     _log := _log m |}.

(** The run of each step from the state its predecessor left. *)
Definition run_env B W a m := _get_env_vars B W (allocated B W a m).
Definition run_dir B W a m :=
  (if is_empty (sys_dir (cmd (final (run_env B W a m)))) then ret true
   else create_dir W (sys_dir (cmd (final (run_env B W a m)))))
    (final (run_env B W a m)).
Definition run_config B W a m := _init_config B W (final (run_dir B W a m)).
Definition run_logging B W a m := _init_logging B W (final (run_config B W a m)).
Definition run_process B W a m :=
  _process_config B W (final (run_logging B W a m)).
Definition run_dev_cache B W a m :=
  _init_dev_cache W (final (run_process B W a m)).
Definition run_filters B W a m :=
  _init_filters B W (final (run_dev_cache B W a m)).
Definition pooled B W a m : machine :=
  {| cmd := set_mem (if w_pool_create W (4 * 1024)
                     then Some {| chunk_hint := 4 * 1024 |} else None)
                    (cmd (final (run_filters B W a m)));
     _log := _log (final (run_filters B W a m)) |}.
Definition run_formats B W a m := _init_formats B W (pooled B W a m).

(** Whether a step succeeded. *)
Definition step_ok B W a m (s : fatal_step) : bool :=
  match s with
  | env_override => value (run_env B W a m)
  | directory_creation => value (run_dir B W a m)
  | config_load => value (run_config B W a m)
  | settings_processing => value (run_process B W a m)
  | device_cache_init => value (run_dev_cache B W a m)
  | filter_construction => value (run_filters B W a m)
  | arena_allocation => w_pool_create W (4 * 1024)
  | format_registry => value (run_formats B W a m)
  end.

Definition steps_before (s : fatal_step) : list fatal_step :=
  match s with
  | env_override => []
  | directory_creation => [env_override]
  | config_load => [env_override; directory_creation]
  | settings_processing => [env_override; directory_creation; config_load]
  | device_cache_init =>
      [env_override; directory_creation; config_load; settings_processing]
  | filter_construction =>
      [env_override; directory_creation; config_load; settings_processing;
       device_cache_init]
  | arena_allocation =>
      [env_override; directory_creation; config_load; settings_processing;
       device_cache_init; filter_construction]
  | format_registry =>
      [env_override; directory_creation; config_load; settings_processing;
       device_cache_init; filter_construction; arena_allocation]
  end.

(** The construction fails at step [s]: the context was allocated, every
    earlier step succeeded and [s] did not. *)
Definition fails_at B W a m (s : fatal_step) : bool :=
  w_dbg_malloc W
  && forallb (step_ok B W a m) (steps_before s)
  && negb (step_ok B W a m s).

(** The events of one step ([_init_logging], which cannot fail, runs right
    before the settings are processed). *)
Definition step_trace B W a m (s : fatal_step) : list event :=
  match s with
  | env_override => trace (run_env B W a m)
  | directory_creation => trace (run_dir B W a m)
  | config_load => trace (run_config B W a m)
  | settings_processing =>
      trace (run_logging B W a m) ++ trace (run_process B W a m)
  | device_cache_init => trace (run_dev_cache B W a m)
  | filter_construction => trace (run_filters B W a m)
  | arena_allocation =>
      [E_pool_create (4 * 1024) (w_pool_create W (4 * 1024))]
  | format_registry => trace (run_formats B W a m)
  end.

(** The events of the construction up to and including step [s]. *)
Definition trace_through B W a m (s : fatal_step) : list event :=
  create_head B W
  ++ List.concat (map (step_trace B W a m) (steps_before s))
  ++ step_trace B W a m s.

(** The context a successful construction returns. *)
Definition constructed B W a m : cmd_context :=
  let c := cmd (final (run_formats B W a m)) in
  set_current_settings (default_settings c) c.

(** The machine [create_toolcontext] hands to [_init_dev_cache] in the world
    whose device cache refuses every directory: [_init_config] has read an
    empty lvm.conf, so [cmd->cf] is a tree without nodes. *)
Definition machine_before_dev_cache : machine :=
  final (run_process build_full world_no_dirs 0 boot).

(** *** Resources acquired and released *)

Inductive resource : Type :=
| the_context
| the_config_tree
| the_dev_cache
| the_filter
| the_arena.

Definition acquires (e : event) : option resource :=
  match e with
  | E_dbg_malloc true => Some the_context
  | E_create_config_tree true => Some the_config_tree
  | E_dev_cache_init true => Some the_dev_cache
  | E_persistent_filter_create _ true => Some the_filter
  | E_pool_create _ true => Some the_arena
  | _ => None
  end.

Definition releases (e : event) : option resource :=
  match e with
  | E_dbg_free => Some the_context
  | E_destroy_config_tree _ => Some the_config_tree
  | E_dev_cache_exit => Some the_dev_cache
  | E_filter_destroy _ => Some the_filter
  | E_pool_destroy _ => Some the_arena
  | _ => None
  end.

Fixpoint collect {A} (f : event -> option A) (t : list event) : list A :=
  match t with
  | [] => []
  | e :: rest =>
      match f e with
      | Some x => x :: collect f rest
      | None => collect f rest
      end
  end.

(** C1 as the specification states it: a failed construction returns no
    context and has released exactly what it had constructed. *)
Definition stated_cleanup B W a m : Prop :=
  forall s, fails_at B W a m s = true ->
    let r := create_toolcontext B W a m in
    value r = None
    /\ forall x, In x (collect acquires (trace r))
                 <-> In x (collect releases (trace r)).

(** The units of global/units do not parse. *)
Definition world_bad_units : world :=
  set_w_units_to_bytes (fun _ => (0%Z, zero)) (world_ok sample_conf).

(** The memory arena cannot be allocated. *)
Definition world_no_pool : world :=
  set_w_pool_create (fun _ => false) (world_ok sample_conf).


(** *** The format registry *)

(** The legacy built-in handler, when compiled in: first in the list, no
    module. *)
Definition legacy_formats (B : build) (W : world) : list format_type :=
  if LVM1_INTERNAL B then
    match w_init_lvm1_format W with
    | Some f => [set_library None f]
    | None => []
    end
  else [].

(** The name of the default format: global/format, or the tool's default. *)
Definition configured_format (B : build) (c : cmd_context) : string :=
  str_arg (find_config_str (cf_root c) "global/format" (Some (DEFAULT_FORMAT B))).


(** *** Logging and settings *)

(** The mode [_init_logging] opens the log file in. *)
Definition open_mode (B : build) (cn : list config_node) : string :=
  if negb (find_config_int cn "log/overwrite" (DEFAULT_OVERWRITE B) =? 0)%Z
  then "w" else "a".

(** The settings [_init_logging] reads from the configuration. *)
Definition logging_settings (B : build) (cn : list config_node)
           (s : config_info) : config_info :=
  set_test (find_config_int cn "global/test" 0)
    (set_cmd_name (find_config_int cn "log/command_names" (DEFAULT_CMD_NAME B))
       (set_msg_prefix
          (str_arg (find_config_str cn "log/prefix"
                                    (Some (DEFAULT_MSG_PREFIX B))))
          (set_verbose (find_config_int cn "log/verbose" (DEFAULT_VERBOSE B))
             (set_debug (find_config_int cn "log/level" (DEFAULT_LOGLEVEL B))
                (set_syslog (find_config_int cn "log/syslog" (DEFAULT_SYSLOG B))
                   s))))).

(** The settings [_process_config] reads from the configuration. *)
Definition process_settings (B : build) (W : world) (cn : list config_node)
           (s : config_info) : config_info :=
  let units := str_arg (find_config_str cn "global/units"
                                        (Some (DEFAULT_UNITS B))) in
  set_units (fst (w_units_to_bytes W units)) (snd (w_units_to_bytes W units))
    (set_suffix (find_config_int cn "global/suffix" (DEFAULT_SUFFIX B))
       (set_activation_field
          (find_config_int cn "global/activation" (DEFAULT_ACTIVATION B))
          (set_umask (find_config_int cn "global/umask" (DEFAULT_UMASK B)) s))).

(** The system directory in effect: the override, or the default. *)
Definition system_dir (B : build) (W : world) : string :=
  match w_getenv W "LVM_SYSTEM_DIR" with
  | Some e => e
  | None => DEFAULT_SYS_DIR B
  end.

(** A computation that reads and writes the context only: runs from machines
    with the same context agree on value, trace and final context. *)
Definition context_only {A} (c : M A) : Prop :=
  forall m1 m2, cmd m1 = cmd m2 ->
    value (c m1) = value (c m2)
    /\ cmd (final (c m1)) = cmd (final (c m2))
    /\ trace (c m1) = trace (c m2).


(** *** Strings *)




(** *** More builds, worlds and machines *)

(** The settings of a context built from an empty configuration tree. *)
Definition built_in_settings (B : build) (W : world) (default_fmt : option nat)
  : config_info :=
  {| debug := DEFAULT_LOGLEVEL B;
     syslog := DEFAULT_SYSLOG B;
     activation := DEFAULT_ACTIVATION B;
     suffix := DEFAULT_SUFFIX B;
     unit_factor := fst (w_units_to_bytes W (DEFAULT_UNITS B));
     unit_type := snd (w_units_to_bytes W (DEFAULT_UNITS B));
     msg_prefix := DEFAULT_MSG_PREFIX B;
     cmd_name := DEFAULT_CMD_NAME B;
     test := 0;
     verbose := DEFAULT_VERBOSE B;
     umask := DEFAULT_UMASK B;
     fmt := default_fmt |}.

(** The environment sets LVM_SYSTEM_DIR to the empty string. *)
Definition world_empty_sys_dir : world :=
  set_w_getenv (fun _ => Some "") (world_ok sample_conf).

(** A context with no system directory whose configuration asks for the
    cache state to be written. *)
Definition machine_write_cache_state : machine :=
  {| cmd := set_cf (Some {| root := [ {| key := "devices/write_cache_state";
                                         v := [CFG_INT 1] |} ] |})
                   zero_cmd_context;
     _log := None |}.


(** A system directory of 61 bytes: it fits a buffer of 64 bytes, and
    neither lvm.conf nor .cache can be appended to it. *)
Definition long_dir : string :=
  "/a/very/long/system/directory/name/that/leaves/no/room/at/all".

Definition world_long_dir : world :=
  set_w_getenv (fun _ => Some long_dir) (world_ok sample_conf).

(** A context whose configuration sets devices/cache to a short path, under
    that long system directory. *)
Definition machine_long_dir : machine :=
  {| cmd := set_sys_dir long_dir
              (set_cf (Some {| root := [ {| key := "devices/cache";
                                            v := [CFG_STRING "/tmp/c"] |} ] |})
                      zero_cmd_context);
     _log := None |}.

(** The log file cannot be opened. *)
Definition world_no_log : world :=
  set_w_fopen (fun _ _ => None) (world_ok sample_conf).

(** The cache file is there and newer than the configuration, and it cannot
    be loaded. *)
Definition world_bad_cache : world :=
  set_w_persistent_filter_load (fun _ => None) (world_ok sample_conf).

(** The machine [_init_filters] starts from in a world. *)
Definition machine_before_filters (W : world) : machine :=
  final (run_dev_cache build_full W 0 boot).

(** ** Vocabulary of the further properties *)
(** The events each fallible step of the construction can produce
    ([_init_logging] counted with the settings processing it precedes). *)
Definition step_event (s : fatal_step) (e : event) : bool :=
  match s, e with
  | env_override, E_getenv var _ => String.eqb var "LVM_SYSTEM_DIR"
  | env_override, E_log_error _ _ => true
  | directory_creation, E_create_dir _ _ => true
  | config_load, (E_create_config_tree _ | E_stack | E_log_error _ _
                 | E_log_sys_error _ _ | E_destroy_config_tree _ | E_stat _ _
                 | E_read_config_file _ _) => true
  | settings_processing,
    (E_fin_syslog | E_init_syslog _ | E_init_debug _ | E_init_verbose _
    | E_init_indent _ | E_init_msg_prefix _ | E_init_cmd_name _ | E_fopen _ _ _
    | E_log_error _ _ | E_init_log _ | E_time | E_log_verbose _ _
    | E_dm_log_init | E_umask _ _ | E_dm_set_dev_dir _ | E_set_activation _
    | E_units_to_bytes _ _) => true
  | device_cache_init, (E_dev_cache_init _ | E_stack | E_dev_cache_add_dir _ _
                       | E_log_error _ _ | E_log_verbose _ _) => true
  | filter_construction,
    (E_lvm_type_filter_create _ | E_regex_filter_create _
    | E_composite_filter_create _ | E_log_debug _ | E_log_error _ _
    | E_persistent_filter_create _ _ | E_stat _ _ | E_persistent_filter_load _
    | E_log_verbose _ _) => true
  | arena_allocation, E_pool_create _ _ => true
  | format_registry,
    (E_label_init | E_init_lvm1_format _ | E_load_shared_library _ _ | E_stack
    | E_dlsym _ _ _ | E_log_error _ _ | E_dlclose _ | E_init_format_fn _ _
    | E_create_text_format _) => true
  | _, _ => false
  end.

(** The events of [create_toolcontext] itself: before the first step, and on
    its way out. *)
Definition head_event (e : event) : bool :=
  match e with
  | E_setlocale _ | E_init_syslog _ | E_dbg_malloc _ | E_dbg_free
  | E_log_error _ _ => true
  | _ => false
  end.

(** The calls only the teardown makes. *)
Definition teardown_event (e : event) : bool :=
  match e with
  | E_persistent_filter_dump _ | E_cache_destroy | E_label_exit
  | E_format_destroy _ | E_filter_destroy _ | E_pool_destroy _
  | E_dev_cache_exit | E_dump_memory | E_fin_log | E_fclose _ => true
  | _ => false
  end.


(** The construction has got as far as step [s]: the context was allocated
    and every earlier step succeeded. *)
Definition reached B W a m (s : fatal_step) : bool :=
  w_dbg_malloc W && forallb (step_ok B W a m) (steps_before s).
(** *** Everything a construction opens and a teardown closes *)

(** The objects this file obtains from its collaborators and has to hand
    back: the context structure, the configuration tree, the log file, the
    device cache, the root of the filter chain, the memory arena, the label
    registry, a format handler and the shared library a handler came from. *)
Inductive handle : Type :=
| H_context
| H_config_tree
| H_log_file (fp : FILE)
| H_dev_cache
| H_filter
| H_arena
| H_label
| H_format
| H_library (lib : dl_handle).

(** The call that obtains an object, when it succeeds. *)
Definition opens (e : event) : option handle :=
  match e with
  | E_dbg_malloc true => Some H_context
  | E_create_config_tree true => Some H_config_tree
  | E_fopen _ _ (Some fp) => Some (H_log_file fp)
  | E_dev_cache_init true => Some H_dev_cache
  | E_persistent_filter_create _ true => Some H_filter
  | E_pool_create _ true => Some H_arena
  | E_label_init => Some H_label
  | E_init_lvm1_format true | E_init_format_fn _ true
  | E_create_text_format true => Some H_format
  | E_load_shared_library _ (Some lib) => Some (H_library lib)
  | _ => None
  end.

(** The call that hands an object back. *)
Definition closes (e : event) : option handle :=
  match e with
  | E_dbg_free => Some H_context
  | E_destroy_config_tree _ => Some H_config_tree
  | E_fclose fp => Some (H_log_file fp)
  | E_dev_cache_exit => Some H_dev_cache
  | E_filter_destroy _ => Some H_filter
  | E_pool_destroy _ => Some H_arena
  | E_label_exit => Some H_label
  | E_format_destroy _ => Some H_format
  | E_dlclose lib => Some (H_library lib)
  | _ => None
  end.

(** What registering a list of handlers opens: for each, the library it came
    from (when it has one), then the handler. *)
Definition handlers_open (fmts : list format_type) : list handle :=
  flat_map (fun f => match library f with
                     | Some lib => [H_library lib; H_format]
                     | None => [H_format]
                     end) fmts.

(** What releasing a list of handlers closes: for each, the handler, then its
    library when the build can load libraries. *)
Definition handlers_close (have_libdl : bool) (fmts : list format_type)
  : list handle :=
  flat_map (fun f => H_format
                     :: match library f with
                        | Some lib => if have_libdl then [H_library lib] else []
                        | None => []
                        end) fmts.

(** The log file [_init_logging] opens from a configuration, if any. *)
Definition log_file_opened (B : build) (W : world) (cn : list config_node)
  : option FILE :=
  match find_config_str cn "log/file" None with
  | Some file => w_fopen W file (open_mode B cn)
  | None => None
  end.

(** *** A second construction in the same process *)

(** The configuration has no log/file key. *)
Definition conf_no_log : list config_node :=
  [ {| key := "devices/scan"; v := [CFG_STRING "/dev"] |} ].

(** The machine after a context with an open log file was torn down. *)
Definition machine_torn_down : machine :=
  final (destroy_toolcontext build_full machine_ok).

(** *** What a construction reads *)

(** The configuration a construction works from: the tree as [_init_config]
    leaves it. *)
Definition configuration B W a m : list config_node :=
  cf_root (cmd (final (run_config B W a m))).

(** The configuration file of the system directory in effect. *)
Definition lvm_conf (B : build) (W : world) : string :=
  system_dir B W ++ "/lvm.conf".

(** The cache file of a construction: devices/cache, by default .cache under
    the system directory in effect. *)
Definition cache_file B W a m : string :=
  str_arg (find_config_str (configuration B W a m) "devices/cache"
                           (Some (system_dir B W ++ "/.cache")%string)).

(** *** Worlds and machines for the configuration file *)

(** There is no lvm.conf: [stat] answers ENOENT for every path. *)
Definition world_no_conf : world :=
  set_w_stat (fun _ => stat_fail ENOENT) (world_ok sample_conf).

(** A context allocated with the default system directory of [build_full]. *)
Definition machine_allocated : machine :=
  allocated build_full (world_ok sample_conf) 0 boot.

(** The directories and the units [_process_config] takes from a
    configuration. *)
Definition configured_dev_dir (B : build) (cn : list config_node) : string :=
  str_arg (find_config_str cn "devices/dir" (Some (DEFAULT_DEV_DIR B))).
Definition configured_proc_dir (B : build) (cn : list config_node) : string :=
  str_arg (find_config_str cn "global/proc" (Some (DEFAULT_PROC_DIR B))).
Definition configured_units (B : build) (cn : list config_node) : string :=
  str_arg (find_config_str cn "global/units" (Some (DEFAULT_UNITS B))).

(** *** The context a construction returns *)

(** The nodes the configuration file contributes under a system directory:
    none when the directory is empty or holds no lvm.conf. *)
Definition config_nodes (W : world) (dir : string) : list config_node :=
  if is_empty dir then []
  else match w_stat W (dir ++ "/lvm.conf"),
             w_read_config_file W (dir ++ "/lvm.conf") with
       | stat_ok _, Some nodes => nodes
       | _, _ => []
       end.

(** The filter [_init_filter_components] builds for a context: the type
    filter alone, or the regex filter of devices/filter in front of it. *)
Definition filter_components (c : cmd_context) : dev_filter :=
  let types :=
    type_filter (proc_dir c) (find_config_node (cf_root c) "devices/types") in
  match find_config_node (cf_root c) "devices/filter" with
  | None => types
  | Some cn => composite_filter [regex_filter (v cn); types]
  end.

(** The decisions the persistent filter of a context starts with: those of
    the cache file when it is newer than the configuration and loads. *)
Definition cache_decisions (W : world) (c : cmd_context)
  : list (string * bool) :=
  match w_stat W (cache_path c) with
  | stat_ok mtime =>
      if (mtime >? w_config_file_timestamp W (cf c))%Z then
        match w_persistent_filter_load W (cache_path c) with
        | Some loaded => loaded
        | None => []
        end
      else []
  | stat_fail _ => []
  end.

(** devices/write_cache_state, on by default. *)
Definition write_cache_state (c : cmd_context) : bool :=
  negb (find_config_int (cf_root c) "devices/write_cache_state" 1 =? 0)%Z.

(** The filter chain [_init_filters] installs. *)
Definition filter_chain (W : world) (c : cmd_context) : dev_filter :=
  persistent_filter (filter_components c) (cache_path c) (cache_decisions W c).

(** The system directory is empty and a file .cache in the root directory is
    newer than the configuration. *)
Definition world_root_cache : world :=
  set_w_stat (fun path => if String.eqb path "/.cache" then stat_ok 200
                          else stat_fail ENOENT)
             world_empty_sys_dir.

(** A world that differs in the answer of [setlocale]. *)
Definition set_w_setlocale x (w : world) : world :=
  {| w_setlocale := x;
     w_locale_env := w_locale_env w;
     w_locale_entry := w_locale_entry w;
     w_getenv := w_getenv w;
     w_umask := w_umask w;
     w_stat := w_stat w;
     w_fopen := w_fopen w;
     w_ctime := w_ctime w;
     w_dlsym := w_dlsym w;
     w_dbg_malloc := w_dbg_malloc w;
     w_pool_create := w_pool_create w;
     w_create_dir := w_create_dir w;
     w_create_config_tree := w_create_config_tree w;
     w_read_config_file := w_read_config_file w;
     w_config_file_timestamp := w_config_file_timestamp w;
     w_units_to_bytes := w_units_to_bytes w;
     w_dev_cache_init := w_dev_cache_init w;
     w_dev_cache_add_dir := w_dev_cache_add_dir w;
     w_lvm_type_filter_create := w_lvm_type_filter_create w;
     w_regex_filter_create := w_regex_filter_create w;
     w_composite_filter_create := w_composite_filter_create w;
     w_persistent_filter_create := w_persistent_filter_create w;
     w_persistent_filter_load := w_persistent_filter_load w;
     w_init_lvm1_format := w_init_lvm1_format w;
     w_load_shared_library := w_load_shared_library w;
     w_init_format_fn := w_init_format_fn w;
     w_create_text_format := w_create_text_format w |}.

(** [setlocale] fails. *)
Definition world_no_locale : world :=
  set_w_setlocale false (world_ok sample_conf).

(** A world that differs in the locale the environment names. *)
Definition set_w_locale_env x (w : world) : world :=
  {| w_setlocale := w_setlocale w;
     w_locale_env := x;
     w_locale_entry := w_locale_entry w;
     w_getenv := w_getenv w;
     w_umask := w_umask w;
     w_stat := w_stat w;
     w_fopen := w_fopen w;
     w_ctime := w_ctime w;
     w_dlsym := w_dlsym w;
     w_dbg_malloc := w_dbg_malloc w;
     w_pool_create := w_pool_create w;
     w_create_dir := w_create_dir w;
     w_create_config_tree := w_create_config_tree w;
     w_read_config_file := w_read_config_file w;
     w_config_file_timestamp := w_config_file_timestamp w;
     w_units_to_bytes := w_units_to_bytes w;
     w_dev_cache_init := w_dev_cache_init w;
     w_dev_cache_add_dir := w_dev_cache_add_dir w;
     w_lvm_type_filter_create := w_lvm_type_filter_create w;
     w_regex_filter_create := w_regex_filter_create w;
     w_composite_filter_create := w_composite_filter_create w;
     w_persistent_filter_create := w_persistent_filter_create w;
     w_persistent_filter_load := w_persistent_filter_load w;
     w_init_lvm1_format := w_init_lvm1_format w;
     w_load_shared_library := w_load_shared_library w;
     w_init_format_fn := w_init_format_fn w;
     w_create_text_format := w_create_text_format w |}.

(** A world that differs in what the init function of a library returns. *)
Definition set_w_init_format_fn x (w : world) : world :=
  {| w_setlocale := w_setlocale w;
     w_locale_env := w_locale_env w;
     w_locale_entry := w_locale_entry w;
     w_getenv := w_getenv w;
     w_umask := w_umask w;
     w_stat := w_stat w;
     w_fopen := w_fopen w;
     w_ctime := w_ctime w;
     w_dlsym := w_dlsym w;
     w_dbg_malloc := w_dbg_malloc w;
     w_pool_create := w_pool_create w;
     w_create_dir := w_create_dir w;
     w_create_config_tree := w_create_config_tree w;
     w_read_config_file := w_read_config_file w;
     w_config_file_timestamp := w_config_file_timestamp w;
     w_units_to_bytes := w_units_to_bytes w;
     w_dev_cache_init := w_dev_cache_init w;
     w_dev_cache_add_dir := w_dev_cache_add_dir w;
     w_lvm_type_filter_create := w_lvm_type_filter_create w;
     w_regex_filter_create := w_regex_filter_create w;
     w_composite_filter_create := w_composite_filter_create w;
     w_persistent_filter_create := w_persistent_filter_create w;
     w_persistent_filter_load := w_persistent_filter_load w;
     w_init_lvm1_format := w_init_lvm1_format w;
     w_load_shared_library := w_load_shared_library w;
     w_init_format_fn := x;
     w_create_text_format := w_create_text_format w |}.

(** An LC_CTYPE that folds I to the dotless i (byte 253) and the dotted
    capital (byte 221) to i, as the Turkish locales over ISO-8859-9 do; every
    other byte folds as in the C locale. *)
Definition dotless_i_locale : locale :=
  {| lc_tolower := fun c =>
       let n := nat_of_ascii c in
       if Nat.eqb n 73 then ascii_of_nat 253
       else if Nat.eqb n 221 then ascii_of_nat 105
       else lc_tolower C_locale c |}.

(** A handler called mirror, and an lvm.conf that loads its library and asks
    for the format MIRROR. *)
Definition mirror_format : format_type :=
  {| name := "mirror"; alias := None; library := None |}.
Definition conf_mirror : list config_node :=
  [ {| key := "global/format_libraries"; v := [CFG_STRING "libmirror.so"] |};
    {| key := "global/format"; v := [CFG_STRING "MIRROR"] |} ].

(** Every collaborator succeeds, the library provides the mirror handler,
    the caller runs in the C locale and the environment names the locale
    with the dotless i. *)
Definition world_dotless_i : world :=
  set_w_locale_env dotless_i_locale
    (set_w_init_format_fn (fun _ => Some mirror_format) (world_ok conf_mirror)).

(** *** What a failed construction leaves behind *)

(** The objects obtained by the steps before [s], still held when the
    construction fails at [s] and returns NULL. *)
Definition held_after_failure (s : fatal_step) : list handle :=
  match s with
  | env_override | directory_creation | config_load => []
  | settings_processing | device_cache_init => [H_config_tree]
  | filter_construction => [H_config_tree; H_dev_cache]
  | arena_allocation => [H_context; H_config_tree; H_dev_cache; H_filter]
  | format_registry =>
      [H_config_tree; H_dev_cache; H_filter; H_arena; H_label]
  end.

(** The value of LVM_SYSTEM_DIR does not fit [sys_dir]. *)
Definition world_long_override : world :=
  set_w_getenv
    (fun _ => Some "/a/system/directory/name/of/sixty-four/bytes/does/not/fit/at/all")
    (world_ok sample_conf).

(** ** tools/args.h: the table of command-line arguments *)

(** The functions that parse the value of an argument (the fourth column);
    NULL for an argument that takes none. *)
Inductive arg_parser : Type :=
| size_arg
| int_arg
| string_arg
| yes_no_arg
| int_arg_with_sign
| metadatatype_arg
| minor_arg
| permission_arg.

(** One [arg(id, short, long, fn)] line: the enumerator, the short option
    ('\0' when there is none), the long option and the parser. *)
Record arg_def : Type := {
  arg_id : string;
  short_arg : ascii;
  long_arg : string;
  arg_fn : option arg_parser
}.

Definition arg (id : string) (short : ascii) (long : string)
           (fn : option arg_parser) : arg_def :=
  {| arg_id := id; short_arg := short; long_arg := long; arg_fn := fn |}.

(** The lines of args.h, in file order. *)
Definition args_h : list arg_def :=
  [ arg "version_ARG" zero "version" None;
    arg "quiet_ARG" zero "quiet" None;
    arg "physicalvolumesize_ARG" zero "setphysicalvolumesize" (Some size_arg);
    arg "ignorelockingfailure_ARG" zero "ignorelockingfailure" None;
    arg "metadatacopies_ARG" zero "metadatacopies" (Some int_arg);
    arg "metadatasize_ARG" zero "metadatasize" (Some size_arg);
    arg "restorefile_ARG" zero "restorefile" (Some string_arg);
    arg "labelsector_ARG" zero "labelsector" (Some int_arg);
    arg "driverloaded_ARG" zero "driverloaded" (Some yes_no_arg);
    arg "resizable_ARG" zero "resizable" (Some yes_no_arg);
    arg "allocation_ARG" zero "allocation" (Some yes_no_arg);
    arg "available_ARG" "a"%char "available" (Some yes_no_arg);
    arg "all_ARG" "a"%char "all" None;
    arg "autobackup_ARG" "A"%char "autobackup" (Some yes_no_arg);
    arg "activevolumegroups_ARG" "A"%char "activevolumegroups" None;
    arg "blockdevice_ARG" "b"%char "blockdevice" None;
    arg "chunksize_ARG" "c"%char "chunksize" (Some size_arg);
    arg "colon_ARG" "c"%char "colon" None;
    arg "contiguous_ARG" "C"%char "contiguous" (Some yes_no_arg);
    arg "debug_ARG" "d"%char "debug" None;
    arg "disk_ARG" "D"%char "disk" None;
    arg "exported_ARG" "e"%char "exported" None;
    arg "physicalextent_ARG" "E"%char "physicalextent" None;
    arg "file_ARG" "f"%char "file" (Some string_arg);
    arg "force_ARG" "f"%char "force" None;
    arg "full_ARG" "f"%char "full" None;
    arg "help_ARG" "h"%char "help" None;
    arg "help2_ARG" "?"%char "" None;
    arg "stripesize_ARG" "I"%char "stripesize" (Some size_arg);
    arg "stripes_ARG" "i"%char "stripes" (Some int_arg);
    arg "iop_version_ARG" "i"%char "iop_version" None;
    arg "logicalvolume_ARG" "l"%char "logicalvolume" (Some int_arg);
    arg "maxlogicalvolumes_ARG" "l"%char "maxlogicalvolumes" (Some int_arg);
    arg "extents_ARG" "l"%char "extents" (Some int_arg_with_sign);
    arg "lvmpartition_ARG" "l"%char "lvmpartition" None;
    arg "list_ARG" "l"%char "list" None;
    arg "size_ARG" "L"%char "size" (Some size_arg);
    arg "logicalextent_ARG" "L"%char "logicalextent" (Some int_arg_with_sign);
    arg "persistent_ARG" "M"%char "persistent" (Some yes_no_arg);
    arg "metadatatype_ARG" "M"%char "metadatatype" (Some metadatatype_arg);
    arg "minor_ARG" "m"%char "minor" (Some minor_arg);
    arg "maps_ARG" "m"%char "maps" None;
    arg "name_ARG" "n"%char "name" (Some string_arg);
    arg "oldpath_ARG" "n"%char "oldpath" None;
    arg "nofsck_ARG" "n"%char "nofsck" None;
    arg "novolumegroup_ARG" "n"%char "novolumegroup" None;
    arg "permission_ARG" "p"%char "permission" (Some permission_arg);
    arg "maxphysicalvolumes_ARG" "p"%char "maxphysicalvolumes" (Some int_arg);
    arg "partial_ARG" "P"%char "partial" None;
    arg "physicalvolume_ARG" "P"%char "physicalvolume" None;
    arg "readahead_ARG" "r"%char "readahead" (Some int_arg);
    arg "reset_ARG" "R"%char "reset" None;
    arg "physicalextentsize_ARG" "s"%char "physicalextentsize" (Some size_arg);
    arg "stdin_ARG" "s"%char "stdin" None;
    arg "snapshot_ARG" "s"%char "snapshot" None;
    arg "short_ARG" "s"%char "short" None;
    arg "test_ARG" "t"%char "test" None;
    arg "uuid_ARG" "u"%char "uuid" None;
    arg "uuidstr_ARG" "u"%char "uuid" (Some string_arg);
    arg "uuidlist_ARG" "U"%char "uuidlist" None;
    arg "verbose_ARG" "v"%char "verbose" None;
    arg "volumegroup_ARG" "V"%char "volumegroup" None;
    arg "allocatable_ARG" "x"%char "allocatable" (Some yes_no_arg);
    arg "resizeable_ARG" "x"%char "resizeable" (Some yes_no_arg);
    arg "yes_ARG" "y"%char "yes" None;
    arg "zero_ARG" "Z"%char "zero" (Some yes_no_arg);
    arg "ARG_COUNT" "-"%char "" None ].

(** The strings of a list are pairwise different. *)
Fixpoint distinct (l : list string) : bool :=
  match l with
  | [] => true
  | s :: rest => negb (existsb (String.eqb s) rest) && distinct rest
  end.

(** The arguments whose long option is [long]. *)
Definition args_named (long : string) : list string :=
  map arg_id (List.filter (fun d => String.eqb (long_arg d) long) args_h).

(** Two lines may share their long option only if it is one of [allowed]. *)
Definition long_options_clash_only_on (allowed : list string) : bool :=
  forallb (fun d1 =>
    forallb (fun d2 =>
      negb (String.eqb (long_arg d1) (long_arg d2))
      || String.eqb (arg_id d1) (arg_id d2)
      || existsb (String.eqb (long_arg d1)) allowed) args_h) args_h.

(** *** The handlers of the format libraries *)

(** The handler one entry of global/format_libraries yields: the entry is a
    string, the library it names loads and has an init_format symbol, and
    that function returns a handler, which then owns the library. *)
Definition library_handler (W : world) (e : config_value)
  : option format_type :=
  match e with
  | CFG_STRING path =>
      match w_load_shared_library W path with
      | Some lib =>
          if w_dlsym W lib "init_format"
          then option_map (set_library (Some lib)) (w_init_format_fn W lib)
          else None
      | None => None
      end
  | _ => None
  end.

(* END OF DEFINITIONS *)

(** * Properties *)

(** ** Running the monad *)

Lemma value_bind {A C} (c : M A) (k : A -> M C) m :
  value (bind c k m) = value (k (value (c m)) (final (c m))).
Proof.
  unfold bind. destruct (c m) as [[x m1] t1]. cbn.
  destruct (k x m1) as [[y m2] t2]. reflexivity.
Qed.

Lemma final_bind {A C} (c : M A) (k : A -> M C) m :
  final (bind c k m) = final (k (value (c m)) (final (c m))).
Proof.
  unfold bind. destruct (c m) as [[x m1] t1]. cbn.
  destruct (k x m1) as [[y m2] t2]. reflexivity.
Qed.

Lemma trace_bind {A C} (c : M A) (k : A -> M C) m :
  trace (bind c k m) = trace (c m) ++ trace (k (value (c m)) (final (c m))).
Proof.
  unfold bind. destruct (c m) as [[x m1] t1]. cbn.
  destruct (k x m1) as [[y m2] t2]. reflexivity.
Qed.

Lemma when_emit_run b e m :
  when b (emit e) m = (tt, m, if b then [e] else []).
Proof. destruct b; reflexivity. Qed.

Lemma when_update_cmd_run b f m :
  when b (update_cmd f) m
  = (tt, {| cmd := if b then f (cmd m) else cmd m; _log := _log m |}, []).
Proof. destruct b, m; reflexivity. Qed.

Lemma value_ret {A} (a : A) m : value (ret a m) = a.
Proof. reflexivity. Qed.
Lemma final_ret {A} (a : A) m : final (ret a m) = m.
Proof. reflexivity. Qed.
Lemma trace_ret {A} (a : A) m : trace (ret a m) = [].
Proof. reflexivity. Qed.

Lemma final_emit e m : final (emit e m) = m.
Proof. reflexivity. Qed.
Lemma trace_emit e m : trace (emit e m) = [e].
Proof. reflexivity. Qed.

Lemma value_get_cmd m : value (get_cmd m) = cmd m.
Proof. reflexivity. Qed.
Lemma final_get_cmd m : final (get_cmd m) = m.
Proof. reflexivity. Qed.
Lemma trace_get_cmd m : trace (get_cmd m) = [].
Proof. reflexivity. Qed.

Lemma final_update_cmd f m :
  final (update_cmd f m) = {| cmd := f (cmd m); _log := _log m |}.
Proof. reflexivity. Qed.
Lemma trace_update_cmd f m : trace (update_cmd f m) = [].
Proof. reflexivity. Qed.

Lemma final_update_default_settings f m :
  final (update_default_settings f m)
  = {| cmd := set_default_settings (f (default_settings (cmd m))) (cmd m);
       _log := _log m |}.
Proof. reflexivity. Qed.
Lemma trace_update_default_settings f m :
  trace (update_default_settings f m) = [].
Proof. reflexivity. Qed.

Lemma value_get_log m : value (get_log m) = _log m.
Proof. reflexivity. Qed.
Lemma final_get_log m : final (get_log m) = m.
Proof. reflexivity. Qed.
Lemma trace_get_log m : trace (get_log m) = [].
Proof. reflexivity. Qed.

Lemma final_set_log fp m : final (set_log fp m) = {| cmd := cmd m; _log := fp |}.
Proof. reflexivity. Qed.
Lemma trace_set_log fp m : trace (set_log fp m) = [].
Proof. reflexivity. Qed.

Lemma trace_when_emit b e m : trace (when b (emit e) m) = if b then [e] else [].
Proof. destruct b; reflexivity. Qed.
Lemma final_when_emit b e m : final (when b (emit e) m) = m.
Proof. destruct b; reflexivity. Qed.

Lemma cmd_mk c l : cmd {| cmd := c; _log := l |} = c.
Proof. reflexivity. Qed.
Lemma log_mk c l : _log {| cmd := c; _log := l |} = l.
Proof. reflexivity. Qed.

Create Rewrite HintDb run.
#[local] Hint Rewrite @value_bind @final_bind @trace_bind
  @value_ret @final_ret @trace_ret final_emit trace_emit
  value_get_cmd final_get_cmd trace_get_cmd
  final_update_cmd trace_update_cmd
  final_update_default_settings trace_update_default_settings
  value_get_log final_get_log trace_get_log final_set_log trace_set_log
  trace_when_emit final_when_emit cmd_mk log_mk : run.

(** Push the projections through the binds and the primitive actions of the
    goal. *)
Ltac run_bind :=
  repeat (progress (unfold log_error, log_verbose, log_debug, log_sys_error,
                      stack, destroy_config_tree;
                    autorewrite with run; cbv beta; cbn [negb app])).

Lemma trace_when_update_cmd b f m : trace (when b (update_cmd f) m) = [].
Proof. destruct b; reflexivity. Qed.
Lemma final_when_update_cmd b f m :
  final (when b (update_cmd f) m)
  = {| cmd := if b then f (cmd m) else cmd m; _log := _log m |}.
Proof. destruct b, m; reflexivity. Qed.
Lemma of_nat_ltb_0 n : (Z.of_nat n <? 0)%Z = false.
Proof. apply Z.ltb_ge. lia. Qed.
Lemma minus_1_ltb_0 : (-1 <? 0)%Z = true.
Proof. reflexivity. Qed.
Lemma sys_dir_set_dump_filter x c : sys_dir (set_dump_filter x c) = sys_dir c.
Proof. reflexivity. Qed.
Lemma cf_root_set_dump_filter x c : cf_root (set_dump_filter x c) = cf_root c.
Proof. reflexivity. Qed.
Lemma cf_set_dump_filter x c : cf (set_dump_filter x c) = cf c.
Proof. reflexivity. Qed.
#[local] Hint Rewrite trace_when_update_cmd final_when_update_cmd
  of_nat_ltb_0 minus_1_ltb_0 sys_dir_set_dump_filter cf_root_set_dump_filter
  cf_set_dump_filter : run.

Lemma cf_root_set_args x c : cf_root (set_args x c) = cf_root c.
Proof. reflexivity. Qed.
Lemma cf_root_set_formats x c : cf_root (set_formats x c) = cf_root c.
Proof. reflexivity. Qed.
Lemma cf_root_set_fmt_backup x c : cf_root (set_fmt_backup x c) = cf_root c.
Proof. reflexivity. Qed.
Lemma cf_root_set_default_settings x c : cf_root (set_default_settings x c) = cf_root c.
Proof. reflexivity. Qed.
Lemma cf_root_set_current_settings x c : cf_root (set_current_settings x c) = cf_root c.
Proof. reflexivity. Qed.
Lemma cf_root_set_filter x c : cf_root (set_filter x c) = cf_root c.
Proof. reflexivity. Qed.
Lemma cf_root_set_mem x c : cf_root (set_mem x c) = cf_root c.
Proof. reflexivity. Qed.
Lemma cf_root_set_sys_dir x c : cf_root (set_sys_dir x c) = cf_root c.
Proof. reflexivity. Qed.
Lemma cf_root_set_dev_dir x c : cf_root (set_dev_dir x c) = cf_root c.
Proof. reflexivity. Qed.
Lemma cf_root_set_proc_dir x c : cf_root (set_proc_dir x c) = cf_root c.
Proof. reflexivity. Qed.
Create Rewrite HintDb cfroot.
#[local] Hint Rewrite cf_root_set_args cf_root_set_formats cf_root_set_fmt_backup cf_root_set_default_settings cf_root_set_current_settings cf_root_set_filter cf_root_set_dump_filter cf_root_set_mem cf_root_set_sys_dir cf_root_set_dev_dir cf_root_set_proc_dir : cfroot.

Lemma length_append (s1 s2 : string) :
  String.length (s1 ++ s2) = String.length s1 + String.length s2.
Proof.
  induction s1 as [|c s1 IH]; cbn; [reflexivity | rewrite IH; reflexivity].
Qed.

(** A scrutinee that is an answer of the world or a pure test, not a run. *)
Ltac atomic x :=
  lazymatch x with
  | context [@value] => fail
  | context [@final] => fail
  | context [@trace] => fail
  | _ => idtac
  end.

(** Symbolic execution in program order: evaluate the primitive actions,
    then split on the answer (or on the call) the run is waiting for. *)
Ltac eval_once :=
  unfold log_error, log_verbose, log_debug, log_sys_error, stack,
    destroy_config_tree;
  rewrite ?when_emit_run, ?when_update_cmd_run, ?of_nat_ltb_0, ?minus_1_ltb_0;
  autorewrite with cfroot;
  cbn [bind ret emit get_cmd update_cmd update_default_settings get_log set_log
       value final trace fst snd negb app cmd _log cf_root
       args formats fmt_backup cf default_settings current_settings filter
       dump_filter mem sys_dir dev_dir proc_dir
       set_args set_formats set_fmt_backup set_cf set_default_settings
       set_current_settings set_filter set_dump_filter set_mem set_sys_dir
       set_dev_dir set_proc_dir].

Ltac eval_run := repeat (progress eval_once).

Ltac eval_hyps :=
  autorewrite with cfroot in *;
  cbn [value final trace fst snd negb app cmd _log cf_root
       args formats fmt_backup cf default_settings current_settings filter
       dump_filter mem sys_dir dev_dir proc_dir
       set_args set_formats set_fmt_backup set_cf set_default_settings
       set_current_settings set_filter set_dump_filter set_mem set_sys_dir
       set_dev_dir set_proc_dir] in *.

(** The term a stuck run is waiting for: the scrutinee at its head. *)
Ltac blocking t :=
  lazymatch t with
  | match ?x with _ => _ end => blocking x
  | ?f ?a =>
      lazymatch f with
      | match ?x with _ => _ end => blocking x
      | _ => t
      end
  | _ => t
  end.

Ltac split_run :=
  match goal with
  | |- ?run = _ -> _ =>
      let y := blocking run in
      lazymatch y with
      | (_, _) => fail
      | bind ?c ?k ?m =>
          change (bind c k m)
            with (let '(a, m1, t1) := c m in
                  let '(b, m2, t2) := k a m1 in (b, m2, t1 ++ t2))
      | _ => first [destruct y as [[? ?] ?] eqn:? | destruct y eqn:?]
      end
  end.

(** Name the result of a run and keep its equation as the goal's premise. *)
Ltac run c :=
  let E := fresh "E" in
  destruct c as [[rv rm] rt] eqn:E;
  cbn [value final trace fst snd];
  revert E.

(** At the end of a path: the result is the triple computed. *)
Ltac ran := let E := fresh "E" in intro E; injection E as <- <- <-.

(** Bring what is known about a call to the triple it was split into. *)
Ltac use_calls :=
  repeat match goal with
         | E : ?call = (_, _, _), H : context [?call] |- _ =>
             lazymatch H with
             | E => fail
             | _ => rewrite E in H
             end
         end;
  eval_hyps.

Ltac exec := repeat (eval_run; split_run); eval_run.

(** ** Teardown *)

Lemma _destroy_formats_trace B fmts m :
  trace (_destroy_formats B fmts m) = formats_release (HAVE_LIBDL B) fmts.
Proof.
  revert m; induction fmts as [|f rest IH]; intro m; [reflexivity|].
  cbn [_destroy_formats formats_release]. run_bind. rewrite IH.
  destruct (library f), (HAVE_LIBDL B); reflexivity.
Qed.

Lemma _destroy_formats_log B fmts m :
  _log (final (_destroy_formats B fmts m)) = _log m.
Proof.
  revert m; induction fmts as [|f rest IH]; intro m; [reflexivity|].
  cbn [_destroy_formats]. run_bind. rewrite IH.
  destruct (library f), (HAVE_LIBDL B); reflexivity.
Qed.

Lemma teardown_steps_app t1 t2 :
  teardown_steps (t1 ++ t2) = teardown_steps t1 ++ teardown_steps t2.
Proof.
  induction t1 as [|e t1 IH]; [reflexivity|].
  cbn [app teardown_steps]. destruct (teardown_step_of e); rewrite IH; reflexivity.
Qed.

Lemma teardown_steps_formats_release b fmts :
  teardown_steps (formats_release b fmts) = repeat release_format (List.length fmts).
Proof.
  induction fmts as [|f rest IH]; [reflexivity|].
  cbn [formats_release List.length repeat teardown_steps teardown_step_of].
  rewrite teardown_steps_app, IH.
  destruct (library f), b; reflexivity.
Qed.

Lemma destroy_toolcontext_trace (B : build) (m : machine) :
  trace (destroy_toolcontext B m)
  = (if dump_filter (cmd m) then [E_persistent_filter_dump (filter (cmd m))]
     else [])
    ++ [E_cache_destroy; E_label_exit]
    ++ formats_release (HAVE_LIBDL B) (formats (cmd m))
    ++ [E_filter_destroy (filter (cmd m)); E_pool_destroy (mem (cmd m));
        E_dev_cache_exit; E_destroy_config_tree (cf (cmd m)); E_dbg_free;
        E_dump_memory; E_fin_log; E_fin_syslog]
    ++ match _log m with
       | Some fp => [E_fclose fp]
       | None => []
       end.
Proof.
  unfold destroy_toolcontext. run_bind.
  rewrite _destroy_formats_trace, _destroy_formats_log.
  destruct (_log m); destruct (dump_filter (cmd m)); cbn [app];
    rewrite <- ?app_assoc; reflexivity.
Qed.

(** C2, as the code has it: [destroy_toolcontext] dumps the persistent filter
    cache first when the dump flag is set; then calls [cache_destroy] and
    [label_exit]; then releases each format handler, front to back, each
    followed by the [dlclose] of the module it owns; then destroys the filter
    chain root; then the memory arena; then the device-cache directory index
    ([dev_cache_exit]); then the configuration tree; then frees the context;
    then [dump_memory], [fin_log], [fin_syslog]; and finally closes the log
    file when one is open.  In the specification's steps: the device cache is
    released after the arena and before the configuration tree. *)
Theorem destroy_toolcontext_order (B : build) (m : machine) :
  let c := cmd m in
  trace (destroy_toolcontext B m)
  = (if dump_filter c then [E_persistent_filter_dump (filter c)] else [])
    ++ [E_cache_destroy; E_label_exit]
    ++ formats_release (HAVE_LIBDL B) (formats c)
    ++ [E_filter_destroy (filter c); E_pool_destroy (mem c); E_dev_cache_exit;
        E_destroy_config_tree (cf c); E_dbg_free;
        E_dump_memory; E_fin_log; E_fin_syslog]
    ++ match _log m with
       | Some fp => [E_fclose fp]
       | None => []
       end
  /\ teardown_steps (trace (destroy_toolcontext B m))
     = teardown_order (dump_filter c) (List.length (formats c)) (is_some (_log m)).
Proof.
  intro c. subst c. split; [apply destroy_toolcontext_trace|].
  rewrite destroy_toolcontext_trace. unfold teardown_order.
  rewrite !teardown_steps_app, teardown_steps_formats_release.
  destruct (dump_filter (cmd m)), (_log m); reflexivity.
Qed.

(** C2 as stated fails: after a successful construction the device-cache
    directory index is not released second, before the format handlers, but
    after the memory arena. *)
Lemma destroy_toolcontext_stated_order_fails :
  teardown_steps (trace (destroy_toolcontext build_full machine_ok))
  <> stated_teardown_order (dump_filter (cmd machine_ok))
                           (List.length (formats (cmd machine_ok)))
                           (is_some (_log machine_ok)).
Proof. vm_compute. discriminate. Qed.

(** ** Device-cache initialisation *)

Lemma _init_dev_cache_scan_final W cv m :
  final (_init_dev_cache_scan W cv m) = m.
Proof.
  revert m; induction cv as [|[i|r|dir] next IH]; intro m; try reflexivity.
  cbn [_init_dev_cache_scan]. unfold dev_cache_add_dir. run_bind.
  destruct (w_dev_cache_add_dir W dir); run_bind; [apply IH|reflexivity].
Qed.

Lemma _init_dev_cache_final W m : final (_init_dev_cache W m) = m.
Proof.
  unfold _init_dev_cache. run_bind.
  destruct (w_dev_cache_init W); run_bind; [|reflexivity].
  destruct (find_config_node (cf_root (cmd m)) "devices/scan").
  - apply _init_dev_cache_scan_final.
  - unfold dev_cache_add_dir. run_bind.
    destruct (w_dev_cache_add_dir W "/dev"); reflexivity.
Qed.

Lemma _init_dev_cache_scan_spec W cv m :
  let r := _init_dev_cache_scan W cv m in
  add_dir_calls (trace r) = scan_calls W cv
  /\ value r = forallb (scan_entry_ok W) cv.
Proof.
  revert m; induction cv as [|[i|r|dir] next IH]; intro m;
    try (split; reflexivity).
  cbn [_init_dev_cache_scan scan_calls forallb scan_entry_ok].
  unfold dev_cache_add_dir. run_bind.
  destruct (w_dev_cache_add_dir W dir); run_bind; [|split; reflexivity].
  destruct (IH m) as [Hc Hv]. cbn [add_dir_calls andb].
  rewrite Hc, Hv. split; reflexivity.
Qed.

Lemma scan_calls_registered W cv :
  forallb (scan_entry_ok W) cv = true ->
  map fst (List.filter snd (scan_calls W cv)) = scan_dirs cv.
Proof.
  induction cv as [|[i|r|dir] next IH]; cbn; try discriminate; [reflexivity|].
  destruct (w_dev_cache_add_dir W dir); cbn; [|discriminate].
  intro H. rewrite (IH H). reflexivity.
Qed.

(** C8, as the code has it: when [dev_cache_init] fails the step fails and
    registers nothing.  Otherwise, with devices/scan absent, the only
    registration attempted is /dev and the step succeeds exactly when that
    registration does; with devices/scan present, the entries are registered
    in list order up to the first entry that is not a string or whose
    registration fails, the step fails if and only if there is such an entry,
    and on success the directories registered are the listed ones, in list
    order. *)
Theorem _init_dev_cache_spec (W : world) (m : machine) :
  let r := _init_dev_cache W m in
  if w_dev_cache_init W then
    match find_config_node (cf_root (cmd m)) "devices/scan" with
    | None =>
        add_dir_calls (trace r) = [("/dev", w_dev_cache_add_dir W "/dev")]
        /\ value r = w_dev_cache_add_dir W "/dev"
    | Some cn =>
        add_dir_calls (trace r) = scan_calls W (v cn)
        /\ (value r = false <->
            exists cv, In cv (v cn) /\ scan_entry_ok W cv = false)
        /\ (value r = true -> registered (trace r) = scan_dirs (v cn))
    end
  else value r = false /\ add_dir_calls (trace r) = [].
Proof.
  intro r. subst r. unfold _init_dev_cache. run_bind.
  destruct (w_dev_cache_init W); run_bind; [|split; reflexivity].
  cbn [add_dir_calls].
  destruct (find_config_node (cf_root (cmd m)) "devices/scan") as [cn|].
  - destruct (_init_dev_cache_scan_spec W (v cn) m) as [Hc Hv].
    cbn zeta in Hc, Hv. split; [exact Hc|]. split.
    + rewrite Hv. split.
      * intro H. apply not_true_iff_false in H.
        rewrite forallb_forall in H.
        destruct (existsb (fun cv => negb (scan_entry_ok W cv)) (v cn)) eqn:E.
        -- apply existsb_exists in E. destruct E as [cv [Hin Hn]].
           exists cv. split; [exact Hin|].
           destruct (scan_entry_ok W cv); [discriminate|reflexivity].
        -- exfalso. apply H. intros cv Hin.
           destruct (scan_entry_ok W cv) eqn:Ecv; [reflexivity|].
           assert (X : existsb (fun cv => negb (scan_entry_ok W cv)) (v cn) = true).
           { apply existsb_exists. exists cv. rewrite Ecv. split; [exact Hin|reflexivity]. }
           rewrite X in E. discriminate.
      * intros [cv [Hin Hbad]]. apply not_true_iff_false. intro H.
        rewrite forallb_forall in H. rewrite (H cv Hin) in Hbad. discriminate.
    + intro H. unfold registered. cbn [add_dir_calls]. rewrite Hc.
      apply scan_calls_registered. rewrite <- Hv. exact H.
  - unfold dev_cache_add_dir. run_bind.
    destruct (w_dev_cache_add_dir W "/dev"); split; reflexivity.
Qed.

(** C8 as stated fails.  [create_toolcontext] reaches [_init_dev_cache] with
    the configuration tree of an empty lvm.conf, which has no devices/scan;
    the device cache refuses /dev; the step does not succeed. *)
Lemma stated_init_dev_cache_fails :
  cf (cmd machine_before_dev_cache) = Some {| root := [] |}
  /\ forallb (step_ok build_full world_no_dirs 0 boot)
             (steps_before device_cache_init) = true
  /\ ~ stated_init_dev_cache world_no_dirs machine_before_dev_cache.
Proof.
  split; [reflexivity|]. split; [reflexivity|].
  unfold stated_init_dev_cache. vm_compute. intros [H _]. discriminate.
Qed.

(** ** Filter initialisation *)

Lemma _init_filter_components_final W m :
  final (_init_filter_components W m) = m.
Proof.
  run (_init_filter_components W m).
  unfold _init_filter_components, lvm_type_filter_create, regex_filter_create,
    composite_filter_create.
  exec; ran; reflexivity.
Qed.

Lemma _init_filter_components_failure W m :
  let r := _init_filter_components W m in
  existsb filter_construction_failure (trace r) = negb (is_some (value r)).
Proof.
  intro r. subst r. run (_init_filter_components W m).
  unfold _init_filter_components, lvm_type_filter_create, regex_filter_create,
    composite_filter_create.
  exec; ran; reflexivity.
Qed.

Lemma _init_filter_components_events W m :
  forallb component_event (trace (_init_filter_components W m)) = true.
Proof.
  run (_init_filter_components W m).
  unfold _init_filter_components, lvm_type_filter_create, regex_filter_create,
    composite_filter_create.
  exec; ran; reflexivity.
Qed.

Lemma _init_filter_components_In W m e :
  In e (trace (_init_filter_components W m)) -> component_event e = true.
Proof.
  intro H. pose proof (_init_filter_components_events W m) as F.
  rewrite forallb_forall in F. exact (F e H).
Qed.

(** Case analysis of a membership in a trace of [_init_filters]. *)
Ltac in_inv H :=
  repeat match type of H with
         | In _ (_ ++ _) => apply in_app_or in H; destruct H as [H|H]
         | In _ (_ :: _) => destruct H as [H|H]
         | In _ [] => destruct H
         | In _ ?t =>
             match goal with
             | Fe : forallb component_event t = true |- _ =>
                 rewrite forallb_forall in Fe; apply Fe in H; discriminate H
             end
         | _ = _ => first [discriminate H | inversion H; subst; clear H]
         end.

Ltac gtb_facts :=
  repeat match goal with
         | H : (_ >? _)%Z = true |- _ =>
             rewrite Z.gtb_ltb in H; apply Z.ltb_lt in H
         | H : (_ >? _)%Z = false |- _ =>
             rewrite Z.gtb_ltb in H; apply Z.ltb_ge in H
         end.

(** Every path through [_init_filters], the component stage kept abstract:
    [o] is the filter it built, [tc] its trace. *)
Ltac filters_cases B W m :=
  pose proof (_init_filter_components_final W
                {| cmd := set_dump_filter false (cmd m); _log := _log m |}) as Fm;
  pose proof (_init_filter_components_failure W
                {| cmd := set_dump_filter false (cmd m); _log := _log m |}) as F;
  pose proof (_init_filter_components_events W
                {| cmd := set_dump_filter false (cmd m); _log := _log m |}) as Fe;
  cbn zeta in F;
  run (_init_filters B W m);
  unfold _init_filters, persistent_filter_create, persistent_filter_load, stat,
    lvm_snprintf;
  exec; use_calls; subst; ran; eval_hyps.

(** C7: [_init_filters] returns failure exactly when its trace reports a
    failed construction of a filter layer (type, regex, composite or
    persistent) or the overflow of the cache pathname, and that overflow is
    reported only when the pathname does not fit PATH_MAX bytes.  A failed
    [persistent_filter_load] is not among these: the failure is logged, the
    function returns success and the persistent filter is installed with an
    empty decision mapping. *)
Theorem _init_filters_fatal_only_on_construction (B : build) (W : world)
        (m : machine) :
  let r := _init_filters B W m in
  let c := cmd m in
  (value r = false <-> existsb filter_construction_failure (trace r) = true)
  /\ ((exists a, In (E_log_error
                      "Persistent cache filename too long ('%s/.cache')." a)
                   (trace r))
      -> PATH_MAX B <= String.length (sys_dir c ++ "/.cache"))
  /\ (In (E_persistent_filter_load false) (trace r) ->
      value r = true
      /\ In (E_log_verbose "Failed to load existing device cache from %s"
                           [LStr (cache_path c)]) (trace r)
      /\ exists inner,
          filter (cmd (final r))
          = Some (persistent_filter inner (cache_path c) [])).
Proof.
  intros r c. subst r c. unfold cache_path.
  filters_cases B W m.
  all: rewrite ?existsb_app, ?F;
    cbn [existsb filter_construction_failure negb is_some orb
         String.eqb Ascii.eqb Bool.eqb andb].
  all: (split; [split; intro; congruence|]).
  all: split; [intros [a H]; in_inv H; try (apply Nat.ltb_ge; assumption)|].
  all: intro H; in_inv H.
  all: split; [reflexivity|]; split;
    [rewrite !in_app_iff; right; cbn; tauto | eexists; reflexivity].
Qed.

(** C3: in every run of [_init_filters], [persistent_filter_load] is called
    if and only if the [stat] of the cache backing file succeeded with a
    modification time strictly greater than the configuration's timestamp.
    When no such [stat] result is strictly newer, the load is never called and
    a successful run installs the persistent filter with an empty decision
    mapping, whatever the file holds. *)
Theorem persistent_filter_load_iff_cache_newer (B : build) (W : world)
        (m : machine) :
  let r := _init_filters B W m in
  let c := cmd m in
  let ts := w_config_file_timestamp W (cf c) in
  ((exists ok, In (E_persistent_filter_load ok) (trace r))
   <-> (exists mtime, In (E_stat (cache_path c) (stat_ok mtime)) (trace r)
                      /\ (ts < mtime)%Z))
  /\ ((forall mtime, In (E_stat (cache_path c) (stat_ok mtime)) (trace r)
                     -> (mtime <= ts)%Z) ->
      (forall ok, ~ In (E_persistent_filter_load ok) (trace r))
      /\ (value r = true ->
          exists inner,
            filter (cmd (final r))
            = Some (persistent_filter inner (cache_path c) []))).
Proof.
  intros r c ts. subst r c ts. unfold cache_path.
  filters_cases B W m; gtb_facts.
  all: split;
    [ split;
      [ intros [ok H]; in_inv H;
        try (eexists; split; [rewrite in_app_iff; right; cbn; tauto | assumption])
      | intros [mt [H L]]; in_inv H; try lia;
        try (eexists; rewrite in_app_iff; right; cbn; tauto) ]
    | ].
  all: intro A;
    try (match goal with
         | S : (_ < ?st)%Z |- _ =>
             assert (st <= w_config_file_timestamp W (cf (cmd m)))%Z
               by (apply A; rewrite in_app_iff; right; cbn; tauto); lia
         end).
  all: split;
    [ intros ok H; in_inv H
    | intro V; try discriminate V; eexists; reflexivity ].
Qed.

Lemma _init_filters_fatal_only_on_construction_witness :
  In (E_persistent_filter_load false)
     (trace (_init_filters build_full world_bad_cache
               (machine_before_filters world_bad_cache)))
  /\ value (_init_filters build_full world_bad_cache
              (machine_before_filters world_bad_cache)) = true.
Proof.
  assert (I : In (E_persistent_filter_load false)
                 (trace (_init_filters build_full world_bad_cache
                           (machine_before_filters world_bad_cache))))
    by (vm_compute; tauto).
  split; [exact I|].
  destruct (_init_filters_fatal_only_on_construction
              build_full world_bad_cache
              (machine_before_filters world_bad_cache)) as [_ [_ N]].
  exact (proj1 (N I)).
Defined.

Lemma persistent_filter_load_iff_cache_newer_witness :
  exists ok,
    In (E_persistent_filter_load ok)
       (trace (_init_filters build_full (world_ok sample_conf)
                 (machine_before_filters (world_ok sample_conf)))).
Proof.
  apply (proj1 (persistent_filter_load_iff_cache_newer
                  build_full (world_ok sample_conf)
                  (machine_before_filters (world_ok sample_conf)))).
  exists 200%Z. split; [vm_compute; tauto | vm_compute; reflexivity].
Defined.

Lemma _init_filters_overflow (B : build) (W : world) (m : machine) :
  PATH_MAX B <= String.length (sys_dir (cmd m)) + 7 ->
  value (_init_filters B W m) = false
  /\ (forall file ok,
        ~ In (E_persistent_filter_create file ok) (trace (_init_filters B W m))).
Proof.
  intros L.
  assert (L' : PATH_MAX B <= String.length (sys_dir (cmd m) ++ "/.cache")).
  { rewrite length_append. cbn [String.length]. exact L. }
  apply Nat.ltb_ge in L'.
  filters_cases B W m; try congruence.
  all: split; [reflexivity|]; intros file ok H; in_inv H.
Qed.

Lemma _init_filters_empty_sys_dir (B : build) (W : world) (m : machine) :
  sys_dir (cmd m) = "" ->
  dump_filter (cmd (final (_init_filters B W m))) = false.
Proof.
  intro E.
  filters_cases B W m; try reflexivity.
  all: rewrite E in *; try discriminate; reflexivity.
Qed.

(** ** The stages of the construction *)

Section Stages.

Variables (B : build) (W : world) (a : nat) (m : machine).


Ltac use_value :=
  repeat match goal with
         | H : value ?x = _ |- context [value ?x] => rewrite H
         | H : w_dbg_malloc W = _ |- context [w_dbg_malloc W] => rewrite H
         end.

Ltac stage :=
  first
    [ progress change (_get_env_vars B W _) with (run_env B W a m)
    | progress change ((if is_empty _ then ret true else create_dir W _) _)
        with (run_dir B W a m)
    | progress change (_init_config B W _) with (run_config B W a m)
    | progress change (_init_logging B W _) with (run_logging B W a m)
    | progress change (_process_config B W _) with (run_process B W a m)
    | progress change (_init_dev_cache W _) with (run_dev_cache B W a m)
    | progress change (_init_filters B W _) with (run_filters B W a m)
    | match goal with
      | P : w_pool_create W _ = _ |- _ =>
          progress (rewrite P); run_bind;
          try match goal with
              | |- context [_init_formats B W ?x] =>
                  replace x with (pooled B W a m)
                    by (unfold pooled; rewrite P; reflexivity);
                  change (_init_formats B W (pooled B W a m))
                    with (run_formats B W a m)
              end
      end ];
  use_value; run_bind.

Ltac split_ands :=
  repeat match goal with
         | H : (_ && _)%bool = true |- _ => apply andb_prop in H; destruct H
         | H : negb _ = true |- _ => apply negb_true_iff in H
         end.

Lemma create_toolcontext_fails (s : fatal_step) :
  fails_at B W a m s = true ->
  value (create_toolcontext B W a m) = None
  /\ trace (create_toolcontext B W a m)
     = trace_through B W a m s
       ++ match s with
          | arena_allocation =>
              [E_log_error "Command memory pool creation failed" []]
          | _ => [E_dbg_free]
          end.
Proof.
  intro H. unfold fails_at in H.
  destruct s; cbn [steps_before forallb step_ok] in H; split_ands;
    unfold create_toolcontext; run_bind; use_value; run_bind;
    repeat stage; unfold error; run_bind.
  all: split; [reflexivity|].
  all: unfold trace_through, create_head;
    cbn [steps_before map List.concat step_trace app];
    use_value; rewrite <- ?app_assoc; cbn [app].
  all: try match goal with
           | P : w_pool_create W _ = _ |- _ => rewrite P
           end; reflexivity.
Qed.

Lemma create_toolcontext_no_context :
  w_dbg_malloc W = false -> value (create_toolcontext B W a m) = None.
Proof.
  intro H. unfold create_toolcontext. run_bind. rewrite H. reflexivity.
Qed.

Lemma create_toolcontext_succeeds :
  w_dbg_malloc W = true ->
  (forall s, step_ok B W a m s = true) ->
  value (create_toolcontext B W a m) = Some (constructed B W a m)
  /\ trace (create_toolcontext B W a m) = trace_through B W a m format_registry
  /\ _log (final (create_toolcontext B W a m)) = _log (final (run_formats B W a m))
  /\ cmd (final (create_toolcontext B W a m)) = constructed B W a m.
Proof.
  intros H A.
  pose proof (A env_override). pose proof (A directory_creation).
  pose proof (A config_load). pose proof (A settings_processing).
  pose proof (A device_cache_init). pose proof (A filter_construction).
  pose proof (A arena_allocation). pose proof (A format_registry).
  clear A. cbn [step_ok] in *.
  unfold create_toolcontext; run_bind; use_value; run_bind;
    repeat stage.
  split; [reflexivity|]. split; [|split; reflexivity].
  unfold trace_through, create_head;
    cbn [steps_before map List.concat step_trace app];
    use_value; rewrite <- ?app_assoc; cbn [app].
  match goal with P : w_pool_create W _ = _ |- _ => rewrite P end.
  rewrite ?app_nil_r. reflexivity.
Qed.

Lemma create_toolcontext_inv c :
  value (create_toolcontext B W a m) = Some c ->
  w_dbg_malloc W = true
  /\ (forall s, step_ok B W a m s = true)
  /\ c = constructed B W a m.
Proof.
  intro V.
  destruct (w_dbg_malloc W) eqn:Hm;
    [|rewrite (create_toolcontext_no_context Hm) in V; discriminate].
  assert (F : forall s, fails_at B W a m s = false).
  { intro s. destruct (fails_at B W a m s) eqn:E; [|reflexivity].
    destruct (create_toolcontext_fails s E) as [N _].
    rewrite N in V. discriminate. }
  assert (A : forall s, step_ok B W a m s = true).
  { assert (A1 := F env_override). assert (A2 := F directory_creation).
    assert (A3 := F config_load). assert (A4 := F settings_processing).
    assert (A5 := F device_cache_init). assert (A6 := F filter_construction).
    assert (A7 := F arena_allocation). assert (A8 := F format_registry).
    unfold fails_at in *. rewrite Hm in *.
    cbn [steps_before forallb andb] in *.
    destruct (step_ok B W a m env_override) eqn:S0; [|discriminate].
    destruct (step_ok B W a m directory_creation) eqn:S1; [|discriminate].
    destruct (step_ok B W a m config_load) eqn:S2; [|discriminate].
    destruct (step_ok B W a m settings_processing) eqn:S3; [|discriminate].
    destruct (step_ok B W a m device_cache_init) eqn:S4; [|discriminate].
    destruct (step_ok B W a m filter_construction) eqn:S5; [|discriminate].
    destruct (step_ok B W a m arena_allocation) eqn:S6; [|discriminate].
    destruct (step_ok B W a m format_registry) eqn:S7; [|discriminate].
    intros []; assumption. }
  split; [reflexivity|]. split; [exact A|].
  destruct (create_toolcontext_succeeds Hm A) as [S _].
  rewrite S in V. injection V as <-. reflexivity.
Qed.

End Stages.


(** ** Failure paths of the construction *)

(** C1, as the code has it: whichever fatal step fails, [create_toolcontext]
    returns NULL; and when the failing step is the environment override, the
    directory creation, the configuration load, the settings processing, the
    device-cache initialisation, the filter construction or the format
    registry, the run consists of the construction up to and including that
    step followed by the code at the common [error] label, which frees the
    context structure and releases nothing else. *)
Theorem create_toolcontext_error_paths (B : build) (W : world) (a : nat)
        (m : machine) (s : fatal_step) :
  fails_at B W a m s = true ->
  let r := create_toolcontext B W a m in
  value r = None
  /\ (s <> arena_allocation ->
      trace r = trace_through B W a m s ++ [E_dbg_free]).
Proof.
  intros F r. destruct (create_toolcontext_fails B W a m s F) as [V T].
  split; [exact V|]. intro N. subst r. rewrite T.
  destruct s; try reflexivity. contradiction.
Qed.

Lemma create_toolcontext_error_paths_witness :
  fails_at build_full world_bad_units 0 boot settings_processing = true
  /\ value (create_toolcontext build_full world_bad_units 0 boot) = None
  /\ (settings_processing <> arena_allocation ->
      trace (create_toolcontext build_full world_bad_units 0 boot)
      = trace_through build_full world_bad_units 0 boot settings_processing
        ++ [E_dbg_free]).
Proof.
  split; [reflexivity|].
  apply (create_toolcontext_error_paths build_full world_bad_units 0 boot
           settings_processing).
  reflexivity.
Defined.

(** C1 as stated fails: when the units specification is invalid the
    construction fails in the settings step, after the configuration tree was
    created, and the cleanup releases the context only. *)
Lemma stated_cleanup_fails :
  ~ stated_cleanup build_full world_bad_units 0 boot.
Proof.
  intro H. destruct (H settings_processing eq_refl) as [_ R].
  destruct (R the_config_tree) as [R1 _].
  assert (I : In the_config_tree
                 (collect releases
                    (trace (create_toolcontext build_full world_bad_units 0 boot)))).
  { apply R1. vm_compute. tauto. }
  vm_compute in I. destruct I as [I|[]]. discriminate I.
Qed.

(** When the arena cannot be allocated the function returns NULL right away:
    the [error] label is not reached and nothing at all is released, the
    context included. *)
Example create_toolcontext_arena_failure :
  fails_at build_full world_no_pool 0 boot arena_allocation = true
  /\ value (create_toolcontext build_full world_no_pool 0 boot) = None
  /\ collect releases (trace (create_toolcontext build_full world_no_pool 0 boot))
     = [].
Proof. vm_compute. repeat split. Qed.

(** ** What each step changes in the context *)

Lemma create_dir_final W d m : final (create_dir W d m) = m.
Proof. reflexivity. Qed.

Lemma _get_env_vars_frame B W m :
  let c' := cmd (final (_get_env_vars B W m)) in
  cf c' = cf (cmd m) /\ default_settings c' = default_settings (cmd m)
  /\ formats c' = formats (cmd m).
Proof.
  run (_get_env_vars B W m).
  unfold _get_env_vars, getenv, lvm_snprintf. exec; ran; repeat split; reflexivity.
Qed.

Lemma _get_env_vars_sys_dir B W m :
  value (_get_env_vars B W m) = true ->
  sys_dir (cmd (final (_get_env_vars B W m)))
  = match w_getenv W "LVM_SYSTEM_DIR" with
    | Some e => e
    | None => sys_dir (cmd m)
    end.
Proof.
  run (_get_env_vars B W m).
  unfold _get_env_vars, getenv, lvm_snprintf.
  exec; ran; intro; try discriminate; reflexivity.
Qed.

Lemma _init_config_frame B W m :
  let c' := cmd (final (_init_config B W m)) in
  sys_dir c' = sys_dir (cmd m) /\ default_settings c' = default_settings (cmd m)
  /\ formats c' = formats (cmd m).
Proof.
  run (_init_config B W m).
  unfold _init_config, create_config_tree, stat, read_config_file, lvm_snprintf.
  exec; ran; repeat split; reflexivity.
Qed.

Lemma _init_logging_frame B W m :
  let c' := cmd (final (_init_logging B W m)) in
  sys_dir c' = sys_dir (cmd m) /\ cf c' = cf (cmd m)
  /\ formats c' = formats (cmd m).
Proof.
  run (_init_logging B W m).
  unfold _init_logging, fopen. exec; ran; repeat split; reflexivity.
Qed.

Lemma _process_config_frame B W m :
  let c' := cmd (final (_process_config B W m)) in
  sys_dir c' = sys_dir (cmd m) /\ cf c' = cf (cmd m)
  /\ formats c' = formats (cmd m).
Proof.
  run (_process_config B W m).
  unfold _process_config, lvm_snprintf. exec; ran; repeat split; reflexivity.
Qed.

Lemma set_formats_eta c : set_formats (formats c) c = c.
Proof. destruct c; reflexivity. Qed.

Lemma _init_formats_libs_effect W cv m :
  let r := _init_formats_libs W cv m in
  exists dyn,
    cmd (final r) = set_formats (formats (cmd m) ++ dyn) (cmd m)
    /\ Forall (fun f => is_some (library f) = true) dyn
    /\ _log (final r) = _log m.
Proof.
  revert m; induction cv as [|[i|x|path] next IH]; intro m; cbn zeta.
  - exists []. rewrite app_nil_r, set_formats_eta. repeat split. constructor.
  - exists []. rewrite app_nil_r, set_formats_eta. repeat split. constructor.
  - exists []. rewrite app_nil_r, set_formats_eta. repeat split. constructor.
  - pose proof (fun f => IH {| cmd := set_formats (formats (cmd m) ++ [f]) (cmd m);
                               _log := _log m |}) as IH'.
    run (_init_formats_libs W (CFG_STRING path :: next) m).
    cbn [_init_formats_libs]. unfold list_add.
    exec; ran.
    all: try (exists []; rewrite app_nil_r, set_formats_eta; repeat split;
              constructor).
    destruct (IH' (set_library (Some d) f)) as [dyn [E [F L]]].
    cbn zeta in E, L. use_calls.
    exists (set_library (Some d) f :: dyn). split; [|split].
    + rewrite E, <- app_assoc. reflexivity.
    + constructor; [reflexivity|exact F].
    + exact L.
Qed.

Lemma pred_length_snoc {A} (l : list A) x :
  Nat.pred (List.length (l ++ [x])) = List.length l.
Proof. rewrite length_app. cbn. rewrite Nat.add_1_r. reflexivity. Qed.

Lemma _init_formats_effect B W m :
  value (_init_formats B W m) = true ->
  exists dyn txt pos,
    w_create_text_format W = Some txt
    /\ Forall (fun f => is_some (library f) = true) dyn
    /\ cmd (final (_init_formats B W m))
       = set_default_settings
           (set_fmt (Some pos) (default_settings (cmd m)))
           (set_fmt_backup
              (Some (List.length (formats (cmd m) ++ legacy_formats B W ++ dyn)))
              (set_formats
                 (formats (cmd m) ++ legacy_formats B W ++ dyn
                  ++ [set_library None txt])
                 (cmd m)))
    /\ _init_formats_default (current_locale W)
         (formats (cmd m) ++ legacy_formats B W ++ dyn ++ [set_library None txt])
         0 (configured_format B (cmd m)) = Some pos
    /\ _log (final (_init_formats B W m)) = _log m.
Proof.
  run (_init_formats B W m).
  unfold _init_formats, list_add, legacy_formats, configured_format.
  exec.
  all: ran; intro V; try discriminate V.
  all: try match goal with
           | H : _init_formats_libs ?w ?cv ?m' = _ |- _ =>
               destruct (_init_formats_libs_effect w cv m') as [dyn [E1 [F1 L1]]];
               cbn zeta in E1, L1; use_calls; rewrite ?E1, ?L1 in *;
               exists dyn
           | _ => exists []
           end.
  all: match goal with
       | H : w_create_text_format _ = Some ?t,
         H' : _init_formats_default _ _ _ _ = Some ?n |- _ => exists t, n
       end.
  all: eval_hyps; eval_run.
  all: rewrite ?pred_length_snoc, <- ?app_assoc in *; cbn [app] in *;
    rewrite ?app_nil_r.
  all: repeat split; try assumption; try constructor.
Qed.

(** ** Logging *)

Ltac in_cases H :=
  repeat match type of H with
         | In _ (_ ++ _) => apply in_app_or in H; destruct H as [H|H]
         | In _ (_ :: _) => destruct H as [H|H]
         | In _ (if ?b then _ else _) => destruct b
         | In _ [] => destruct H
         | _ = _ => first [discriminate H | inversion H; subst; clear H]
         end.

Lemma _init_logging_log_file_aux (B : build) (W : world) (m : machine) :
  let cn := cf_root (cmd m) in
  let r := _init_logging B W m in
  let mode := open_mode B cn in
  match find_config_str cn "log/file" None with
  | Some file =>
      (forall p md fp, In (E_fopen p md fp) (trace r)
                       <-> (p = file /\ md = mode /\ fp = w_fopen W file mode))
      /\ _log (final r) = w_fopen W file mode
      /\ match w_fopen W file mode with
         | Some fp => In (E_init_log fp) (trace r)
         | None =>
             In (E_log_error "Couldn't open log file %s" [LStr file]) (trace r)
             /\ (forall fp, ~ In (E_init_log fp) (trace r))
         end
  | None =>
      (forall p md fp, ~ In (E_fopen p md fp) (trace r))
      /\ _log (final r) = _log m
  end
  /\ In (E_log_verbose "Logging initialised at %s" [LStr (w_ctime W)]) (trace r).
Proof.
  intros cn r mode. subst cn r mode. unfold open_mode.
  run (_init_logging B W m).
  unfold _init_logging, fopen. exec.
  all: ran.
  all: split; [| rewrite !in_app_iff; cbn [In]; tauto].
  all: try match goal with H : w_fopen _ _ _ = _ |- _ => rewrite H end.
  all: repeat match goal with
              | |- _ /\ _ => split
              | |- _ <-> _ => split
              | |- ~ _ => intro
              | |- forall _, _ => intro
              end.
  all: try match goal with
           | H : _ /\ _ /\ _ |- _ => destruct H as [-> [-> ->]]
           end.
  all: try match goal with H : In _ _ |- _ => in_cases H end.
  all: try reflexivity.
  all: rewrite !in_app_iff; cbn [In]; tauto.
Qed.

Lemma _init_logging_cmd B W m :
  cmd (final (_init_logging B W m))
  = set_default_settings
      (logging_settings B (cf_root (cmd m)) (default_settings (cmd m)))
      (cmd m).
Proof.
  run (_init_logging B W m).
  unfold _init_logging, fopen. exec; ran; reflexivity.
Qed.

Lemma _process_config_settings B W m :
  value (_process_config B W m) = true ->
  default_settings (cmd (final (_process_config B W m)))
  = process_settings B W (cf_root (cmd m)) (default_settings (cmd m))
  /\ dump_filter (cmd (final (_process_config B W m))) = dump_filter (cmd m).
Proof.
  run (_process_config B W m).
  unfold _process_config, lvm_snprintf, process_settings. exec; ran;
    intro V; try discriminate V.
  split; reflexivity.
Qed.

Lemma _init_config_empty_sys_dir B W m :
  sys_dir (cmd m) = "" ->
  trace (_init_config B W m)
  = E_create_config_tree (w_create_config_tree W)
    :: (if w_create_config_tree W then [] else [E_stack])
  /\ value (_init_config B W m) = w_create_config_tree W
  /\ (value (_init_config B W m) = true ->
      cf (cmd (final (_init_config B W m))) = Some {| root := [] |}).
Proof.
  intro S. run (_init_config B W m).
  unfold _init_config, create_config_tree. exec; ran.
  all: eval_hyps; try (rewrite S in *; discriminate).
  all: split; [reflexivity|]; split;
    [reflexivity | intro V; try discriminate V; reflexivity].
Qed.

Lemma _init_config_long_sys_dir B W m :
  sys_dir (cmd m) <> "" ->
  PATH_MAX B <= String.length (sys_dir (cmd m)) + 9 ->
  value (_init_config B W m) = false.
Proof.
  intros N L.
  assert (L' : PATH_MAX B <= String.length (sys_dir (cmd m) ++ "/lvm.conf")).
  { rewrite length_append. cbn [String.length]. exact L. }
  apply Nat.ltb_ge in L'.
  run (_init_config B W m).
  unfold _init_config, create_config_tree, stat, read_config_file, lvm_snprintf.
  destruct (sys_dir (cmd m)) eqn:S; [contradiction|]. rewrite <- S in *.
  exec; ran; try reflexivity; try congruence.
  all: rewrite S in *; discriminate.
Qed.

Lemma _init_filters_frame B W m :
  let c' := cmd (final (_init_filters B W m)) in
  sys_dir c' = sys_dir (cmd m) /\ cf c' = cf (cmd m)
  /\ formats c' = formats (cmd m)
  /\ default_settings c' = default_settings (cmd m).
Proof.
  cbn zeta. filters_cases B W m;
    repeat match goal with
           | |- context [if ?b then _ else _] => destruct b
           end;
    repeat split; reflexivity.
Qed.

Lemma _get_env_vars_dump B W m :
  dump_filter (cmd (final (_get_env_vars B W m))) = dump_filter (cmd m).
Proof.
  run (_get_env_vars B W m).
  unfold _get_env_vars, getenv, lvm_snprintf. exec; ran; reflexivity.
Qed.

Lemma _init_config_dump B W m :
  dump_filter (cmd (final (_init_config B W m))) = dump_filter (cmd m).
Proof.
  run (_init_config B W m).
  unfold _init_config, create_config_tree, stat, read_config_file, lvm_snprintf.
  exec; ran; reflexivity.
Qed.

Section StageFacts.

Variables (B : build) (W : world) (a : nat) (m : machine).

Lemma run_dir_final : final (run_dir B W a m) = final (run_env B W a m).
Proof.
  unfold run_dir. destruct (is_empty _); reflexivity.
Qed.

Lemma sys_dir_run_env :
  value (run_env B W a m) = true ->
  sys_dir (cmd (final (run_env B W a m))) = system_dir B W.
Proof. intro V. unfold run_env. rewrite _get_env_vars_sys_dir by exact V. reflexivity. Qed.

Lemma sys_dir_run_config :
  value (run_env B W a m) = true ->
  sys_dir (cmd (final (run_config B W a m))) = system_dir B W.
Proof.
  intro V. unfold run_config.
  destruct (_init_config_frame B W (final (run_dir B W a m))) as [S _].
  cbn zeta in S. rewrite S, run_dir_final. apply sys_dir_run_env, V.
Qed.

Lemma sys_dir_run_dev_cache :
  value (run_env B W a m) = true ->
  sys_dir (cmd (final (run_dev_cache B W a m))) = system_dir B W.
Proof.
  intro V. unfold run_dev_cache. rewrite _init_dev_cache_final.
  unfold run_process.
  destruct (_process_config_frame B W (final (run_logging B W a m))) as [S _].
  cbn zeta in S. rewrite S. unfold run_logging.
  destruct (_init_logging_frame B W (final (run_config B W a m))) as [S' _].
  cbn zeta in S'. rewrite S'. apply sys_dir_run_config, V.
Qed.

Lemma create_toolcontext_long_sys_dir :
  PATH_MAX B <= String.length (system_dir B W) + 7 ->
  value (create_toolcontext B W a m) = None.
Proof.
  intro L. destruct (value (create_toolcontext B W a m)) as [c|] eqn:V;
    [exfalso|reflexivity].
  destruct (create_toolcontext_inv B W a m c V) as [_ [A _]].
  pose proof (A env_override) as V1. pose proof (A config_load) as V3.
  pose proof (A filter_construction) as V6. cbn [step_ok] in V1, V3, V6.
  destruct (system_dir B W) as [|ch rest] eqn:S.
  - destruct (_init_filters_overflow B W (final (run_dev_cache B W a m))) as [F _].
    { rewrite (sys_dir_run_dev_cache V1). fold (system_dir B W). rewrite S. exact L. }
    unfold run_filters in V6. rewrite F in V6. discriminate.
  - assert (F : value (run_config B W a m) = false).
    { unfold run_config. apply _init_config_long_sys_dir.
      - rewrite run_dir_final, (sys_dir_run_env V1). fold (system_dir B W). rewrite S. discriminate.
      - rewrite run_dir_final, (sys_dir_run_env V1). fold (system_dir B W). rewrite S.
        lia. }
    rewrite F in V3. discriminate.
Qed.

End StageFacts.

(** ** Steps that depend on the context only *)

Lemma context_only_ret {A} (a : A) : context_only (ret a).
Proof. intros m1 m2 H. repeat split; assumption. Qed.

Lemma context_only_emit e : context_only (emit e).
Proof. intros m1 m2 H. repeat split; assumption. Qed.

Lemma context_only_get_cmd : context_only get_cmd.
Proof. intros m1 m2 H. repeat split; assumption. Qed.

Lemma context_only_update_cmd f : context_only (update_cmd f).
Proof. intros m1 m2 H. cbn. rewrite H. repeat split. Qed.

Lemma context_only_bind {A C} (c : M A) (k : A -> M C) :
  context_only c -> (forall a, context_only (k a)) -> context_only (bind c k).
Proof.
  intros Hc Hk m1 m2 H.
  rewrite !value_bind, !final_bind, !trace_bind.
  destruct (Hc m1 m2 H) as [V [F T]].
  rewrite V, T.
  destruct (Hk (value (c m2)) (final (c m1)) (final (c m2)) F) as [V' [F' T']].
  rewrite V', F', T'. repeat split.
Qed.

Create HintDb context_only.

Ltac context_only_tac :=
  repeat match goal with
         | |- context_only (bind _ _) => apply context_only_bind; [|intro]
         | |- context_only (ret _) => apply context_only_ret
         | |- context_only (emit _) => apply context_only_emit
         | |- context_only get_cmd => apply context_only_get_cmd
         | |- context_only (update_cmd _) => apply context_only_update_cmd
         | |- context_only (update_default_settings _) =>
             apply context_only_update_cmd
         | |- context_only (when ?b _) => unfold when
         | |- context_only (if ?b then _ else _) => destruct b
         | |- context_only (match ?x with _ => _ end) => destruct x
         | |- context_only _ => solve [auto with context_only]
         | |- context_only ?c =>
             progress unfold log_error, log_verbose, log_debug, log_sys_error,
               stack, destroy_config_tree, dev_cache_add_dir,
               lvm_type_filter_create, regex_filter_create,
               composite_filter_create, persistent_filter_create,
               persistent_filter_load, stat, list_add
         end.

Lemma context_only__process_config B W : context_only (_process_config B W).
Proof. unfold _process_config. context_only_tac. Qed.

Lemma context_only__init_dev_cache_scan W cv :
  context_only (_init_dev_cache_scan W cv).
Proof.
  induction cv as [|[i|r|dir] next IH]; cbn [_init_dev_cache_scan];
    context_only_tac; try exact IH.
Qed.
#[local] Hint Resolve context_only__init_dev_cache_scan : context_only.

Lemma context_only__init_dev_cache W : context_only (_init_dev_cache W).
Proof. unfold _init_dev_cache. context_only_tac. Qed.

Lemma context_only__init_filter_components W :
  context_only (_init_filter_components W).
Proof. unfold _init_filter_components. context_only_tac. Qed.
#[local] Hint Resolve context_only__init_filter_components : context_only.

Lemma context_only__init_filters B W : context_only (_init_filters B W).
Proof. unfold _init_filters. context_only_tac. Qed.

Lemma context_only__init_formats_libs W cv :
  context_only (_init_formats_libs W cv).
Proof.
  induction cv as [|[i|r|path] next IH]; cbn [_init_formats_libs];
    context_only_tac; try exact IH.
Qed.
#[local] Hint Resolve context_only__init_formats_libs : context_only.

Lemma context_only__init_formats B W : context_only (_init_formats B W).
Proof. unfold _init_formats. context_only_tac. Qed.



(** ** Format selection *)





Lemma _init_formats_default_first lc fmts pos0 format pos :
  _init_formats_default lc fmts pos0 format = Some pos <->
  exists i f,
    pos = pos0 + i
    /\ nth_error fmts i = Some f
    /\ format_matches lc f format = true
    /\ forall j g, j < i -> nth_error fmts j = Some g ->
                   format_matches lc g format = false.
Proof.
  revert pos0; induction fmts as [|f rest IH]; intro pos0;
    cbn [_init_formats_default].
  - split; [discriminate|]. intros [i [g [_ [H _]]]]. destruct i; discriminate.
  - destruct (format_matches lc f format) eqn:E.
    + split.
      * intro H. injection H as <-. exists 0, f.
        repeat split; try lia; auto; intros j g L; lia.
      * intros [i [g [-> [N [M F]]]]]. destruct i as [|i]; [f_equal; lia|].
        specialize (F 0 f (Nat.lt_0_succ i) eq_refl). congruence.
    + rewrite IH. split.
      * intros [i [g [-> [N [M F]]]]]. exists (S i), g.
        repeat split; try lia; auto.
        intros [|j] h L H; [cbn in H; congruence|].
        apply (F j h); [lia|exact H].
      * intros [i [g [-> [N [M F]]]]]. destruct i as [|i].
        -- cbn in N. congruence.
        -- exists i, g. repeat split; try lia; auto.
           intros j h L H. apply (F (S j) h); [lia|exact H].
Qed.


Section Summary.

Variables (B : build) (W : world) (a : nat) (m : machine).

Lemma run_config_facts :
  let c3 := cmd (final (run_config B W a m)) in
  formats c3 = [] /\ default_settings c3 = zero_config_info.
Proof.
  cbn zeta. unfold run_config.
  destruct (_init_config_frame B W (final (run_dir B W a m))) as [_ [D F]].
  cbn zeta in D, F. rewrite D, F, run_dir_final. unfold run_env.
  destruct (_get_env_vars_frame B W (allocated B W a m)) as [_ [D' F']].
  cbn zeta in D', F'. rewrite D', F'. split; reflexivity.
Qed.

Lemma run_filters_facts :
  value (run_env B W a m) = true ->
  value (run_process B W a m) = true ->
  let c3 := cmd (final (run_config B W a m)) in
  let c7 := cmd (final (run_filters B W a m)) in
  formats c7 = []
  /\ sys_dir c7 = system_dir B W
  /\ cf c7 = cf c3
  /\ default_settings c7
     = process_settings B W (cf_root c3)
         (logging_settings B (cf_root c3) zero_config_info).
Proof.
  intros V1 V4. cbn zeta.
  destruct run_config_facts as [F3 D3]. cbn zeta in F3, D3.
  unfold run_filters.
  destruct (_init_filters_frame B W (final (run_dev_cache B W a m)))
    as [S7 [C7 [F7 D7]]].
  cbn zeta in S7, C7, F7, D7. rewrite S7, C7, F7, D7.
  rewrite (sys_dir_run_dev_cache B W a m V1).
  unfold run_dev_cache. rewrite _init_dev_cache_final.
  destruct (_process_config_frame B W (final (run_logging B W a m)))
    as [_ [C5 F5]].
  cbn zeta in C5, F5.
  destruct (_process_config_settings B W (final (run_logging B W a m)) V4)
    as [D5 _].
  fold (run_process B W a m) in C5, F5, D5. rewrite C5, F5, D5.
  unfold run_logging. rewrite _init_logging_cmd.
  unfold cf_root. cbn [cf formats default_settings set_default_settings].
  fold (cf_root (cmd (final (run_config B W a m)))).
  rewrite F3, D3. repeat split; reflexivity.
Qed.

Lemma create_toolcontext_result c :
  value (create_toolcontext B W a m) = Some c ->
  exists dyn txt pos,
    w_create_text_format W = Some txt
    /\ Forall (fun f => is_some (library f) = true) dyn
    /\ formats c = legacy_formats B W ++ dyn ++ [set_library None txt]
    /\ fmt_backup c = Some (List.length (legacy_formats B W ++ dyn))
    /\ _init_formats_default (current_locale W) (formats c) 0
         (configured_format B c) = Some pos
    /\ sys_dir c = system_dir B W
    /\ cf c = cf (cmd (final (run_config B W a m)))
    /\ dump_filter c = dump_filter (cmd (final (run_filters B W a m)))
    /\ default_settings c
       = set_fmt (Some pos)
           (process_settings B W (cf_root c)
              (logging_settings B (cf_root c) zero_config_info))
    /\ current_settings c = default_settings c.
Proof.
  intro V. destruct (create_toolcontext_inv B W a m c V) as [_ [A ->]].
  pose proof (A env_override) as V1. pose proof (A settings_processing) as V4.
  pose proof (A format_registry) as V8. cbn [step_ok] in V1, V4, V8.
  destruct (run_filters_facts V1 V4) as [F7 [S7 [C7 D7]]]. cbn zeta in *.
  unfold constructed, run_formats in *.
  destruct (_init_formats_effect B W (pooled B W a m) V8)
    as [dyn [txt [pos [T [L [E [P _]]]]]]].
  exists dyn, txt, pos.
  rewrite E. unfold configured_format, cf_root in *. unfold pooled in *.
  cbn [cmd formats fmt_backup cf default_settings current_settings dump_filter
       sys_dir set_formats set_fmt_backup set_default_settings
       set_current_settings set_mem] in *.
  rewrite F7 in *. cbn [app] in *. rewrite C7 in P. rewrite S7, C7, D7.
  repeat split; assumption.
Qed.

End Summary.

Section FopenIndependence.

Variables (B : build) (W : world) (a : nat) (m : machine).
Variable f : string -> string -> option FILE.

Lemma run_config_fopen : run_config B (set_w_fopen f W) a m = run_config B W a m.
Proof. reflexivity. Qed.

Lemma run_logging_fopen :
  cmd (final (run_logging B (set_w_fopen f W) a m)) = cmd (final (run_logging B W a m)).
Proof.
  unfold run_logging. rewrite !_init_logging_cmd, run_config_fopen. reflexivity.
Qed.

Lemma run_process_fopen :
  value (run_process B (set_w_fopen f W) a m) = value (run_process B W a m)
  /\ cmd (final (run_process B (set_w_fopen f W) a m)) = cmd (final (run_process B W a m)).
Proof.
  destruct (context_only__process_config B W _ _ run_logging_fopen) as [V [C _]].
  split; [exact V|exact C].
Qed.

Lemma run_dev_cache_fopen :
  value (run_dev_cache B (set_w_fopen f W) a m) = value (run_dev_cache B W a m)
  /\ cmd (final (run_dev_cache B (set_w_fopen f W) a m)) = cmd (final (run_dev_cache B W a m)).
Proof.
  destruct run_process_fopen as [_ C0].
  destruct (context_only__init_dev_cache W _ _ C0) as [V [C _]].
  split; [exact V|exact C].
Qed.

Lemma run_filters_fopen :
  value (run_filters B (set_w_fopen f W) a m) = value (run_filters B W a m)
  /\ cmd (final (run_filters B (set_w_fopen f W) a m)) = cmd (final (run_filters B W a m)).
Proof.
  destruct run_dev_cache_fopen as [_ C0].
  destruct (context_only__init_filters B W _ _ C0) as [V [C _]].
  split; [exact V|exact C].
Qed.

Lemma run_formats_fopen :
  value (run_formats B (set_w_fopen f W) a m) = value (run_formats B W a m)
  /\ cmd (final (run_formats B (set_w_fopen f W) a m)) = cmd (final (run_formats B W a m)).
Proof.
  destruct run_filters_fopen as [_ C0].
  assert (P : cmd (pooled B (set_w_fopen f W) a m) = cmd (pooled B W a m)).
  { unfold pooled. cbn [cmd]. rewrite C0. reflexivity. }
  destruct (context_only__init_formats B W _ _ P) as [V [C _]].
  split; [exact V|exact C].
Qed.

Lemma step_ok_fopen s : step_ok B (set_w_fopen f W) a m s = step_ok B W a m s.
Proof.
  destruct s; cbn [step_ok].
  - reflexivity.
  - reflexivity.
  - reflexivity.
  - apply run_process_fopen.
  - apply run_dev_cache_fopen.
  - apply run_filters_fopen.
  - reflexivity.
  - apply run_formats_fopen.
Qed.

Lemma create_toolcontext_fopen :
  value (create_toolcontext B (set_w_fopen f W) a m) = value (create_toolcontext B W a m).
Proof.
  assert (C : constructed B (set_w_fopen f W) a m = constructed B W a m).
  { unfold constructed. destruct run_formats_fopen as [_ ->]. reflexivity. }
  destruct (value (create_toolcontext B W a m)) as [c|] eqn:V.
  - destruct (create_toolcontext_inv B W a m c V) as [M [A ->]].
    destruct (create_toolcontext_succeeds B (set_w_fopen f W) a m) as [S _].
    + exact M.
    + intro s. rewrite step_ok_fopen. apply A.
    + rewrite S, C. reflexivity.
  - destruct (value (create_toolcontext B (set_w_fopen f W) a m)) as [c'|] eqn:V';
      [exfalso|reflexivity].
    destruct (create_toolcontext_inv B (set_w_fopen f W) a m c' V') as [M [A _]].
    destruct (create_toolcontext_succeeds B W a m) as [S _].
    + exact M.
    + intro s. rewrite <- step_ok_fopen. apply A.
    + rewrite S in V. discriminate.
Qed.

End FopenIndependence.

Lemma formats_release_no_dump b fmts x :
  ~ In (E_persistent_filter_dump x) (formats_release b fmts).
Proof.
  induction fmts as [|f rest IH]; cbn [formats_release]; [intros []|].
  intros [H|H]; [discriminate|].
  apply in_app_or in H. destruct H as [H|H]; [|exact (IH H)].
  destruct (library f), b; cbn in H; try tauto.
  destruct H as [H|[]]. discriminate.
Qed.

(** C4: with an empty system directory, [_init_config] creates the empty tree
    and neither looks for nor reads a configuration file, and [_init_filters]
    leaves the dump flag off whatever devices/write_cache_state says.  When
    the environment sets LVM_SYSTEM_DIR to the empty string, a context that
    is constructed has an empty system directory and an empty configuration
    tree, its settings are the built-in defaults, the dump flag is off and
    [destroy_toolcontext] does not dump the persistent filter cache. *)
Theorem empty_system_dir_disables_config_and_dump
        (B : build) (W : world) (a : nat) (m : machine) :
  (forall m', sys_dir (cmd m') = "" ->
     trace (_init_config B W m')
     = E_create_config_tree (w_create_config_tree W)
       :: (if w_create_config_tree W then [] else [E_stack])
     /\ (value (_init_config B W m') = true ->
         cf (cmd (final (_init_config B W m'))) = Some {| root := [] |})
     /\ dump_filter (cmd (final (_init_filters B W m'))) = false)
  /\ (w_getenv W "LVM_SYSTEM_DIR" = Some "" ->
      forall c, value (create_toolcontext B W a m) = Some c ->
        trace (run_config B W a m) = [E_create_config_tree true]
        /\ sys_dir c = ""
        /\ cf c = Some {| root := [] |}
        /\ default_settings c = built_in_settings B W (fmt (default_settings c))
        /\ current_settings c = default_settings c
        /\ dump_filter c = false
        /\ forall x, ~ In (E_persistent_filter_dump x)
                          (trace (destroy_toolcontext B
                                    (final (create_toolcontext B W a m))))).
Proof.
  split.
  - intros m' S.
    destruct (_init_config_empty_sys_dir B W m' S) as [T [_ C]].
    split; [exact T|]. split; [exact C|].
    apply _init_filters_empty_sys_dir, S.
  - intros G c V.
    assert (SD : system_dir B W = "") by (unfold system_dir; rewrite G; reflexivity).
    destruct (create_toolcontext_inv B W a m c V) as [M [A EC]].
    pose proof (A env_override) as V1. pose proof (A config_load) as V3.
    cbn [step_ok] in V1, V3.
    assert (S2 : sys_dir (cmd (final (run_dir B W a m))) = "").
    { rewrite run_dir_final, (sys_dir_run_env B W a m V1). exact SD. }
    destruct (_init_config_empty_sys_dir B W _ S2) as [T [VC C]].
    fold (run_config B W a m) in T, VC, C.
    rewrite V3 in VC. rewrite <- VC in T. specialize (C V3).
    assert (S6 : sys_dir (cmd (final (run_dev_cache B W a m))) = "").
    { rewrite (sys_dir_run_dev_cache B W a m V1). exact SD. }
    pose proof (_init_filters_empty_sys_dir B W _ S6) as D.
    fold (run_filters B W a m) in D.
    destruct (create_toolcontext_result B W a m c V)
      as [dyn [txt [pos [_ [_ [_ [_ [_ [Sc [Cc [Dc [DS CS]]]]]]]]]]]].
    assert (R : cf_root c = []) by (unfold cf_root; rewrite Cc, C; reflexivity).
    rewrite R in DS.
    split; [exact T|]. split; [congruence|]. split; [congruence|].
    split; [rewrite DS; reflexivity|]. split; [exact CS|].
    split; [congruence|].
    intros x H. rewrite destroy_toolcontext_trace in H.
    destruct (create_toolcontext_succeeds B W a m M A) as [_ [_ [_ FC]]].
    rewrite FC, <- EC in H. rewrite Dc, D in H.
    cbn [app] in H. destruct H as [H|[H|H]]; try discriminate.
    apply in_app_or in H. destruct H as [H|H].
    + exact (formats_release_no_dump _ _ _ H).
    + do 8 (destruct H as [H|H]; [discriminate|]).
      destruct (_log _); cbn in H; [destruct H as [H|[]]; discriminate|tauto].
Qed.

Lemma empty_system_dir_witness :
  dump_filter
    (cmd (final (_init_filters build_full world_empty_sys_dir
                   machine_write_cache_state))) = false
  /\ exists c,
      value (create_toolcontext build_full world_empty_sys_dir 0 boot) = Some c
      /\ cf c = Some {| root := [] |} /\ dump_filter c = false.
Proof.
  destruct (empty_system_dir_disables_config_and_dump
              build_full world_empty_sys_dir 0 boot) as [A C].
  split.
  - apply (A machine_write_cache_state). reflexivity.
  - destruct (value (create_toolcontext build_full world_empty_sys_dir 0 boot))
      as [c|] eqn:V.
    + exists c. destruct (C eq_refl c eq_refl) as [_ [_ [H1 [_ [_ [H2 _]]]]]].
      repeat split; assumption.
    + vm_compute in V. discriminate V.
Defined.



Lemma legacy_formats_no_module B W :
  Forall (fun f => library f = None) (legacy_formats B W).
Proof.
  unfold legacy_formats.
  destruct (LVM1_INTERNAL B); [|constructor].
  destruct (w_init_lvm1_format W); repeat constructor.
Qed.

(** C6: in every constructed context the format list is the legacy built-in
    handler (when compiled in), then the handlers loaded from shared
    libraries, then the text format last; the text format owns no module (its
    library handle is NULL), unlike every dynamically loaded handler; and the
    backup format points at it. *)
Theorem text_format_is_last_and_backup (B : build) (W : world) (a : nat)
        (m : machine) (c : cmd_context) :
  value (create_toolcontext B W a m) = Some c ->
  exists dyn txt,
    w_create_text_format W = Some txt
    /\ formats c = legacy_formats B W ++ dyn ++ [set_library None txt]
    /\ Forall (fun f => library f = None) (legacy_formats B W)
    /\ Forall (fun f => is_some (library f) = true) dyn
    /\ library (set_library None txt) = None
    /\ fmt_backup c = Some (List.length (formats c) - 1)
    /\ nth_error (formats c) (List.length (formats c) - 1)
       = Some (set_library None txt).
Proof.
  intro V.
  destruct (create_toolcontext_result B W a m c V)
    as [dyn [txt [pos [T [L [F [K _]]]]]]].
  exists dyn, txt.
  assert (N : List.length (formats c) - 1
              = List.length (legacy_formats B W ++ dyn)).
  { rewrite F, app_assoc, length_app. cbn [List.length]. lia. }
  split; [exact T|]. split; [exact F|].
  split; [apply legacy_formats_no_module|]. split; [exact L|].
  split; [reflexivity|]. split; [rewrite N; exact K|].
  rewrite N, F, app_assoc, nth_error_app2 by lia.
  rewrite Nat.sub_diag. reflexivity.
Qed.

Lemma text_format_is_last_and_backup_witness :
  exists c dyn,
    value (create_toolcontext build_full (world_ok sample_conf) 0 boot) = Some c
    /\ formats c
       = legacy_formats build_full (world_ok sample_conf) ++ dyn ++ [text_format]
    /\ fmt_backup c = Some 2.
Proof.
  destruct (value (create_toolcontext build_full (world_ok sample_conf) 0 boot))
    as [c|] eqn:V.
  - destruct (text_format_is_last_and_backup
                build_full (world_ok sample_conf) 0 boot c V)
      as [dyn [txt [T [F [_ [_ [_ [K _]]]]]]]].
    exists c, dyn. injection T as <-.
    split; [reflexivity|]. split; [exact F|].
    rewrite K. vm_compute in V. injection V as <-. reflexivity.
  - vm_compute in V. discriminate V.
Defined.

(** C9: [_init_filters] formats the default cache pathname before it looks up
    devices/cache: with a system directory too long for .cache to be appended
    within PATH_MAX bytes it fails without creating the persistent filter,
    whatever the configuration says; and a construction whose system
    directory is that long returns no context. *)
Theorem cache_path_overflow_is_fatal (B : build) (W : world) (a : nat)
        (m m' : machine) :
  (PATH_MAX B <= String.length (sys_dir (cmd m')) + 7 ->
   value (_init_filters B W m') = false
   /\ forall file ok,
       ~ In (E_persistent_filter_create file ok) (trace (_init_filters B W m')))
  /\ (PATH_MAX B <= String.length (system_dir B W) + 7 ->
      value (create_toolcontext B W a m) = None).
Proof.
  split.
  - apply _init_filters_overflow.
  - apply create_toolcontext_long_sys_dir.
Qed.

Lemma cache_path_overflow_is_fatal_witness :
  find_config_str (cf_root (cmd machine_long_dir)) "devices/cache" None
  = Some "/tmp/c"
  /\ value (_init_filters build_full (world_ok sample_conf) machine_long_dir)
     = false
  /\ value (create_toolcontext build_full world_long_dir 0 boot) = None.
Proof.
  destruct (cache_path_overflow_is_fatal
              build_full world_long_dir 0 boot machine_long_dir) as [_ C].
  destruct (cache_path_overflow_is_fatal
              build_full (world_ok sample_conf) 0 boot machine_long_dir)
    as [S _].
  split; [reflexivity|]. split.
  - apply S. vm_compute. lia.
  - apply C. vm_compute. lia.
Defined.

(** C10: when log/file is set, [_init_logging] opens that file exactly once, in
    mode w when log/overwrite (read with its default) is non-zero and in mode
    a otherwise.  When the open fails the error is logged, no log file is
    installed and the function carries on to its end; the context it leaves,
    and whether [create_toolcontext] returns a context, do not depend on what
    [fopen] answers. *)
Theorem log_file_open_mode (B : build) (W : world) (a : nat) (m : machine) :
  let cn := cf_root (cmd m) in
  let r := _init_logging B W m in
  let mode := open_mode B cn in
  (match find_config_str cn "log/file" None with
   | Some file =>
       (forall p md fp, In (E_fopen p md fp) (trace r)
                        <-> (p = file /\ md = mode /\ fp = w_fopen W file mode))
       /\ _log (final r) = w_fopen W file mode
       /\ match w_fopen W file mode with
          | Some fp => In (E_init_log fp) (trace r)
          | None =>
              In (E_log_error "Couldn't open log file %s" [LStr file]) (trace r)
              /\ (forall fp, ~ In (E_init_log fp) (trace r))
          end
   | None =>
       (forall p md fp, ~ In (E_fopen p md fp) (trace r))
       /\ _log (final r) = _log m
   end)
  /\ (mode = "w" <->
      find_config_int cn "log/overwrite" (DEFAULT_OVERWRITE B) <> 0%Z)
  /\ (mode = "a" <->
      find_config_int cn "log/overwrite" (DEFAULT_OVERWRITE B) = 0%Z)
  /\ In (E_log_verbose "Logging initialised at %s" [LStr (w_ctime W)]) (trace r)
  /\ (forall f, cmd (final (_init_logging B (set_w_fopen f W) m)) = cmd (final r))
  /\ (forall f, value (create_toolcontext B (set_w_fopen f W) a m)
                = value (create_toolcontext B W a m)).
Proof.
  intros cn r mode.
  destruct (_init_logging_log_file_aux B W m) as [L T].
  split; [exact L|].
  split; [|split; [|split; [exact T|split]]].
  - subst mode. unfold open_mode. fold cn.
    destruct (Z.eqb_spec (find_config_int cn "log/overwrite" (DEFAULT_OVERWRITE B)) 0)
      as [E|E]; cbn [negb]; split; intro H; congruence.
  - subst mode. unfold open_mode. fold cn.
    destruct (Z.eqb_spec (find_config_int cn "log/overwrite" (DEFAULT_OVERWRITE B)) 0)
      as [E|E]; cbn [negb]; split; intro H; congruence.
  - intro f. subst r. rewrite !_init_logging_cmd. reflexivity.
  - intro f. apply create_toolcontext_fopen.
Qed.

Lemma log_file_open_mode_witness :
  In (E_fopen "/var/log/lvm2.log" "w" None)
     (trace (create_toolcontext build_full world_no_log 0 boot))
  /\ In (E_log_error "Couldn't open log file %s" [LStr "/var/log/lvm2.log"])
        (trace (create_toolcontext build_full world_no_log 0 boot))
  /\ is_some (value (create_toolcontext build_full world_no_log 0 boot)) = true
  /\ value (create_toolcontext build_full world_no_log 0 boot)
     = value (create_toolcontext build_full (world_ok sample_conf) 0 boot).
Proof.
  destruct (log_file_open_mode build_full (world_ok sample_conf) 0 boot)
    as [_ [_ [_ [_ [_ F]]]]].
  split; [vm_compute; tauto|]. split; [vm_compute; tauto|].
  split; [vm_compute; reflexivity|].
  exact (F (fun _ _ => None)).
Defined.

(** * Further properties of the construction and the teardown *)

Lemma create_toolcontext_cases B W a m :
  w_dbg_malloc W = false
  \/ (exists s, fails_at B W a m s = true)
  \/ (w_dbg_malloc W = true /\ forall s, step_ok B W a m s = true).
Proof.
  destruct (w_dbg_malloc W) eqn:Hm; [right|left; reflexivity].
  unfold fails_at. rewrite Hm.
  destruct (step_ok B W a m env_override) eqn:S0;
    [|left; exists env_override; cbn [steps_before forallb];
      rewrite S0; reflexivity].
  destruct (step_ok B W a m directory_creation) eqn:S1;
    [|left; exists directory_creation; cbn [steps_before forallb];
      rewrite S0, S1; reflexivity].
  destruct (step_ok B W a m config_load) eqn:S2;
    [|left; exists config_load; cbn [steps_before forallb];
      rewrite S0, S1, S2; reflexivity].
  destruct (step_ok B W a m settings_processing) eqn:S3;
    [|left; exists settings_processing; cbn [steps_before forallb];
      rewrite S0, S1, S2, S3; reflexivity].
  destruct (step_ok B W a m device_cache_init) eqn:S4;
    [|left; exists device_cache_init; cbn [steps_before forallb];
      rewrite S0, S1, S2, S3, S4; reflexivity].
  destruct (step_ok B W a m filter_construction) eqn:S5;
    [|left; exists filter_construction; cbn [steps_before forallb];
      rewrite S0, S1, S2, S3, S4, S5; reflexivity].
  destruct (step_ok B W a m arena_allocation) eqn:S6;
    [|left; exists arena_allocation; cbn [steps_before forallb];
      rewrite S0, S1, S2, S3, S4, S5, S6; reflexivity].
  destruct (step_ok B W a m format_registry) eqn:S7;
    [|left; exists format_registry; cbn [steps_before forallb];
      rewrite S0, S1, S2, S3, S4, S5, S6, S7; reflexivity].
  right. split; [reflexivity|]. intros []; assumption.
Qed.

Lemma create_toolcontext_unallocated B W a m :
  w_dbg_malloc W = false ->
  create_toolcontext B W a m
  = (None, m,
     create_head B W ++ [E_log_error "Failed to allocate command context" []]).
Proof.
  intro H. run (create_toolcontext B W a m).
  unfold create_toolcontext, create_head. rewrite H.
  exec; ran; destruct (w_setlocale W); reflexivity.
Qed.

Lemma _get_env_vars_events B W m :
  forallb (step_event env_override) (trace (_get_env_vars B W m)) = true.
Proof.
  run (_get_env_vars B W m). unfold _get_env_vars, getenv, lvm_snprintf.
  exec; ran; reflexivity.
Qed.

Lemma _init_config_events B W m :
  forallb (step_event config_load) (trace (_init_config B W m)) = true.
Proof.
  run (_init_config B W m).
  unfold _init_config, create_config_tree, stat, read_config_file, lvm_snprintf.
  exec; ran; reflexivity.
Qed.

Lemma _init_logging_events B W m :
  forallb (step_event settings_processing) (trace (_init_logging B W m)) = true.
Proof.
  run (_init_logging B W m). unfold _init_logging, fopen.
  exec; ran; repeat match goal with |- context [if ?b then _ else _] => destruct b end; reflexivity.
Qed.

Lemma _process_config_events B W m :
  forallb (step_event settings_processing) (trace (_process_config B W m)) = true.
Proof.
  run (_process_config B W m). unfold _process_config, lvm_snprintf.
  exec; ran; repeat match goal with |- context [if ?b then _ else _] => destruct b end; reflexivity.
Qed.

Lemma _init_dev_cache_scan_events W cv m :
  forallb (step_event device_cache_init) (trace (_init_dev_cache_scan W cv m)) = true.
Proof.
  revert m. induction cv as [|c cv IH]; intro m; [reflexivity|].
  destruct c; cbn [_init_dev_cache_scan]; [reflexivity|reflexivity|].
  unfold dev_cache_add_dir. run_bind.
  destruct (w_dev_cache_add_dir W str); run_bind; cbn [forallb step_event andb];
    [apply IH|reflexivity].
Qed.

Lemma _init_dev_cache_events W m :
  forallb (step_event device_cache_init) (trace (_init_dev_cache W m)) = true.
Proof.
  unfold _init_dev_cache. run_bind.
  destruct (w_dev_cache_init W); run_bind; [|reflexivity].
  cbn [forallb step_event andb].
  destruct (find_config_node (cf_root (cmd m)) "devices/scan") as [cn|].
  - apply _init_dev_cache_scan_events.
  - unfold dev_cache_add_dir. run_bind.
    destruct (w_dev_cache_add_dir W "/dev"); reflexivity.
Qed.

Lemma forallb_weaken {A} (p q : A -> bool) l :
  (forall x, p x = true -> q x = true) ->
  forallb p l = true -> forallb q l = true.
Proof.
  intros I H. rewrite forallb_forall in *. auto.
Qed.

Lemma component_event_step e :
  component_event e = true -> step_event filter_construction e = true.
Proof. destruct e; cbn; congruence. Qed.

Lemma _init_filters_events B W m :
  forallb (step_event filter_construction) (trace (_init_filters B W m)) = true.
Proof.
  filters_cases B W m.
  all: rewrite ?forallb_app;
    rewrite (forallb_weaken _ _ _ component_event_step Fe); reflexivity.
Qed.

Lemma _init_formats_libs_events W cv m :
  forallb (step_event format_registry) (trace (_init_formats_libs W cv m)) = true.
Proof.
  revert m. induction cv as [|c cv IH]; intro m; [reflexivity|].
  destruct c; cbn [_init_formats_libs]; [reflexivity|reflexivity|].
  run_bind. destruct (w_load_shared_library W str) as [lib|]; run_bind;
    [|reflexivity].
  destruct (w_dlsym W lib "init_format"); run_bind; [|reflexivity].
  destruct (w_init_format_fn W lib); run_bind; [|reflexivity].
  unfold list_add. run_bind. cbn [forallb step_event andb]. apply IH.
Qed.

Lemma _init_formats_events B W m :
  forallb (step_event format_registry) (trace (_init_formats B W m)) = true.
Proof.
  run (_init_formats B W m). unfold _init_formats, list_add.
  exec; ran; cbn [forallb step_event andb]; rewrite ?forallb_app;
    cbn [forallb step_event andb]; rewrite ?andb_true_r;
    try reflexivity.
  all: match goal with
       | E : _init_formats_libs ?W ?cv ?m = (_, _, ?t) |- _ =>
           pose proof (_init_formats_libs_events W cv m) as F;
           rewrite E in F; cbn [trace snd] in F; rewrite F
       end; reflexivity.
Qed.

Lemma step_trace_events B W a m s :
  forallb (step_event s) (step_trace B W a m s) = true.
Proof.
  destruct s; cbn [step_trace].
  - apply _get_env_vars_events.
  - unfold run_dir.
    destruct (is_empty (sys_dir (cmd (final (run_env B W a m)))));
      reflexivity.
  - apply _init_config_events.
  - rewrite forallb_app. unfold run_logging, run_process.
    rewrite _init_logging_events, _process_config_events. reflexivity.
  - apply _init_dev_cache_events.
  - apply _init_filters_events.
  - reflexivity.
  - apply _init_formats_events.
Qed.

Lemma head_event_create_head B W e :
  In e (create_head B W) -> head_event e = true.
Proof.
  unfold create_head. intro H.
  destruct (w_setlocale W); cbn in H;
    repeat (destruct H as [<-|H]; [reflexivity|]); destruct H.
Qed.

Lemma reached_before B W a m s s' :
  In s' (steps_before s) ->
  forallb (step_ok B W a m) (steps_before s) = true ->
  forallb (step_ok B W a m) (steps_before s') = true.
Proof.
  intros I F. destruct s; cbn [steps_before In] in I;
    repeat (destruct I as [<-|I]; [|idtac]); try destruct I;
    cbn [steps_before forallb] in F |- *;
    repeat match goal with
           | H : (_ && _)%bool = true |- _ => apply andb_prop in H; destruct H
           end;
    repeat match goal with
           | H : ?x = true |- context [?x] => rewrite H
           end; reflexivity.
Qed.

(** Where an event of a construction comes from: the function itself, or a
    step the run has reached. *)
Lemma create_toolcontext_event B W a m e :
  In e (trace (create_toolcontext B W a m)) ->
  head_event e = true
  \/ exists s, reached B W a m s = true
               /\ In e (step_trace B W a m s) /\ step_event s e = true.
Proof.
  assert (St : forall s, reached B W a m s = true ->
                         In e (step_trace B W a m s) ->
                         exists s, reached B W a m s = true
                                   /\ In e (step_trace B W a m s)
                                   /\ step_event s e = true).
  { intros s R H. exists s. split; [exact R|]. split; [exact H|].
    pose proof (step_trace_events B W a m s) as F.
    rewrite forallb_forall in F. exact (F e H). }
  assert (Th : forall s, reached B W a m s = true ->
             In e (trace_through B W a m s) ->
             head_event e = true
             \/ exists s, reached B W a m s = true
                          /\ In e (step_trace B W a m s)
                          /\ step_event s e = true).
  { intros s R H. unfold trace_through in H.
    apply in_app_or in H. destruct H as [H|H];
      [left; exact (head_event_create_head _ _ _ H)|].
    apply in_app_or in H. destruct H as [H|H]; right.
    - apply in_concat in H. destruct H as [t [Ht He]].
      apply in_map_iff in Ht. destruct Ht as [s' [<- I]].
      apply (St s'); [|exact He].
      unfold reached in *. apply andb_prop in R. destruct R as [-> R].
      exact (reached_before _ _ _ _ _ _ I R).
    - exact (St s R H). }
  intro H.
  destruct (create_toolcontext_cases B W a m) as [Hm|[[s F]|[Hm A]]].
  - rewrite (create_toolcontext_unallocated B W a m Hm) in H. cbn [trace snd] in H.
    apply in_app_or in H. destruct H as [H|[<-|[]]];
      [left; exact (head_event_create_head _ _ _ H)|left; reflexivity].
  - destruct (create_toolcontext_fails B W a m s F) as [_ T]. rewrite T in H.
    assert (R : reached B W a m s = true).
    { unfold fails_at in F. apply andb_prop in F. destruct F as [F _].
      exact F. }
    apply in_app_or in H. destruct H as [H|H]; [exact (Th s R H)|].
    left. destruct s; destruct H as [<-|[]]; reflexivity.
  - destruct (create_toolcontext_succeeds B W a m Hm A) as [_ [T _]].
    rewrite T in H. apply (Th format_registry); [|exact H].
    unfold reached. rewrite Hm. cbn [steps_before forallb].
    rewrite !A. reflexivity.
Qed.

(** X1: no path through [create_toolcontext], failing or not, makes a call of
    the teardown: it never dumps or destroys a filter, destroys a format
    handler, the memory arena or the device cache, closes a file, or calls
    [label_exit], [cache_destroy], [fin_log] or [dump_memory]. *)
Theorem create_toolcontext_never_tears_down (B : build) (W : world) (a : nat)
        (m : machine) :
  Forall (fun e => teardown_event e = false)
         (trace (create_toolcontext B W a m)).
Proof.
  apply Forall_forall. intros e H.
  destruct (create_toolcontext_event B W a m e H) as [Hh|[s [_ [_ Hs]]]].
  - destruct e; try discriminate Hh; reflexivity.
  - destruct s, e; try discriminate Hs; reflexivity.
Qed.

(** ** Objects opened and closed *)

Lemma collect_app {A} (f : event -> option A) t1 t2 :
  collect f (t1 ++ t2) = collect f t1 ++ collect f t2.
Proof.
  induction t1 as [|e t1 IH]; [reflexivity|].
  cbn [app collect]. destruct (f e); cbn [app]; rewrite IH; reflexivity.
Qed.

Lemma collect_none {A} (f : event -> option A) (p : event -> bool) t :
  forallb p t = true -> (forall e, p e = true -> f e = None) ->
  collect f t = [].
Proof.
  intros F N. induction t as [|e t IH]; [reflexivity|].
  cbn [forallb] in F. apply andb_prop in F. destruct F as [Fe Ft].
  cbn [collect]. rewrite (N e Fe). exact (IH Ft).
Qed.

Lemma collect_In {A} (f : event -> option A) t x :
  In x (collect f t) <-> exists e, In e t /\ f e = Some x.
Proof.
  induction t as [|e t IH]; cbn [collect].
  - split; [intros []|intros [e [[] _]]].
  - destruct (f e) as [y|] eqn:E; cbn [In]; rewrite ?IH; split.
    + intros [<-|[e' [I F]]]; [exists e; auto|exists e'; auto].
    + intros [e' [[<-|I] F]]; [left; congruence|right; exists e'; auto].
    + intros [e' [I F]]. exists e'; auto.
    + intros [e' [[<-|I] F]]; [congruence|exists e'; auto].
Qed.

Lemma _get_env_vars_handles B W m :
  collect opens (trace (_get_env_vars B W m)) = []
  /\ collect closes (trace (_get_env_vars B W m)) = [].
Proof.
  split; apply (collect_none _ _ _ (_get_env_vars_events B W m));
    intros []; cbn; congruence.
Qed.

Lemma _init_config_handles B W m :
  let r := _init_config B W m in
  collect opens (trace r)
  = (if w_create_config_tree W then [H_config_tree] else [])
  /\ collect closes (trace r)
     = (if value r then []
        else if w_create_config_tree W then [H_config_tree] else []).
Proof.
  intro r. subst r. run (_init_config B W m).
  unfold _init_config, create_config_tree, stat, read_config_file, lvm_snprintf.
  exec; ran; split; reflexivity.
Qed.

Lemma _init_logging_handles B W m :
  let r := _init_logging B W m in
  collect opens (trace r)
  = match log_file_opened B W (cf_root (cmd m)) with
    | Some fp => [H_log_file fp]
    | None => []
    end
  /\ collect closes (trace r) = []
  /\ _log (final r)
     = match find_config_str (cf_root (cmd m)) "log/file" None with
       | Some _ => log_file_opened B W (cf_root (cmd m))
       | None => _log m
       end.
Proof.
  intro r. subst r. unfold log_file_opened, open_mode.
  run (_init_logging B W m). unfold _init_logging, fopen.
  exec; ran; use_calls;
    repeat match goal with
           | H : ?x = _ |- context [?x] => rewrite H
           end;
    repeat match goal with
           | |- context [if ?b then _ else _] => destruct b
           end;
    repeat split; reflexivity.
Qed.

Lemma _process_config_handles B W m :
  collect opens (trace (_process_config B W m)) = []
  /\ collect closes (trace (_process_config B W m)) = [].
Proof.
  run (_process_config B W m). unfold _process_config, lvm_snprintf.
  exec; ran;
    repeat match goal with
           | |- context [if ?b then _ else _] => destruct b
           end;
    split; reflexivity.
Qed.

Lemma _init_dev_cache_scan_handles W cv m :
  collect opens (trace (_init_dev_cache_scan W cv m)) = []
  /\ collect closes (trace (_init_dev_cache_scan W cv m)) = [].
Proof.
  revert m. induction cv as [|c cv IH]; intro m; [split; reflexivity|].
  destruct c; cbn [_init_dev_cache_scan]; [split; reflexivity..|].
  unfold dev_cache_add_dir. run_bind.
  destruct (w_dev_cache_add_dir W str); run_bind; cbn [collect opens closes];
    [apply IH|split; reflexivity].
Qed.

Lemma _init_dev_cache_handles W m :
  collect opens (trace (_init_dev_cache W m))
  = (if w_dev_cache_init W then [H_dev_cache] else [])
  /\ collect closes (trace (_init_dev_cache W m)) = [].
Proof.
  unfold _init_dev_cache. run_bind.
  destruct (w_dev_cache_init W); run_bind; [|split; reflexivity].
  cbn [collect opens closes].
  destruct (find_config_node (cf_root (cmd m)) "devices/scan") as [cn|].
  - destruct (_init_dev_cache_scan_handles W (v cn) m) as [-> ->].
    split; reflexivity.
  - unfold dev_cache_add_dir. run_bind.
    destruct (w_dev_cache_add_dir W "/dev"); split; reflexivity.
Qed.

Lemma component_event_handles e :
  component_event e = true -> opens e = None /\ closes e = None.
Proof. destruct e; cbn; intro; try discriminate; split; reflexivity. Qed.

Lemma _init_filters_handles B W m :
  let r := _init_filters B W m in
  collect opens (trace r) = (if value r then [H_filter] else [])
  /\ collect closes (trace r) = [].
Proof.
  intro r. subst r. filters_cases B W m.
  all: rewrite ?collect_app;
    rewrite (collect_none opens _ _ Fe (fun e H => proj1 (component_event_handles e H)));
    rewrite (collect_none closes _ _ Fe (fun e H => proj2 (component_event_handles e H)));
    split; reflexivity.
Qed.

Lemma _init_formats_libs_handles W cv m :
  let r := _init_formats_libs W cv m in
  value r = true ->
  exists dyn,
    formats (cmd (final r)) = formats (cmd m) ++ dyn
    /\ Forall (fun f => is_some (library f) = true) dyn
    /\ collect opens (trace r) = handlers_open dyn
    /\ collect closes (trace r) = [].
Proof.
  revert m; induction cv as [|[i|x|path] next IH]; intro m; cbn zeta.
  - intros _. exists []. cbn. rewrite app_nil_r. repeat split. constructor.
  - intro V. discriminate V.
  - intro V. discriminate V.
  - pose proof (fun f => IH {| cmd := set_formats (formats (cmd m) ++ [f]) (cmd m);
                               _log := _log m |}) as IH'.
    run (_init_formats_libs W (CFG_STRING path :: next) m).
    cbn [_init_formats_libs]. unfold list_add.
    exec; ran; intro V; try discriminate V.
    destruct (IH' (set_library (Some d) f)) as [dyn [E [F [O C]]]].
    { match goal with
      | H : _init_formats_libs _ _ _ = _ |- _ => rewrite H
      end. exact V. }
    cbn zeta in E, O, C. use_calls.
    exists (set_library (Some d) f :: dyn). repeat split.
    + rewrite E, <- app_assoc. reflexivity.
    + constructor; [reflexivity|exact F].
    + cbn [collect opens handlers_open flat_map set_library library app].
      fold (handlers_open dyn). rewrite <- O. reflexivity.
    + cbn [collect closes]. exact C.
Qed.

Lemma _init_formats_handles B W m :
  value (_init_formats B W m) = true ->
  exists dyn txt,
    w_create_text_format W = Some txt
    /\ formats (cmd (final (_init_formats B W m)))
       = formats (cmd m) ++ legacy_formats B W ++ dyn ++ [set_library None txt]
    /\ Forall (fun f => is_some (library f) = true) dyn
    /\ (HAVE_LIBDL B = false -> dyn = [])
    /\ collect opens (trace (_init_formats B W m))
       = H_label :: handlers_open (legacy_formats B W) ++ handlers_open dyn
                 ++ [H_format]
    /\ collect closes (trace (_init_formats B W m)) = [].
Proof.
  run (_init_formats B W m).
  unfold _init_formats, list_add, legacy_formats.
  exec.
  all: ran; intro V; try discriminate V.
  all: try match goal with
           | H : _init_formats_libs ?w ?cv ?m' = _ |- _ =>
               let V' := fresh "V" in
               assert (V' : value (_init_formats_libs w cv m') = true)
                 by (rewrite H; cbn [value fst];
                     match goal with
                     | N : negb ?b = false |- ?b = true =>
                         destruct b; [reflexivity|discriminate N]
                     end);
               destruct (_init_formats_libs_handles w cv m' V')
                 as [dyn [E1 [F1 [O1 C1]]]];
               cbn zeta in E1, O1, C1; use_calls; exists dyn
           | _ => exists []
           end.
  all: match goal with
       | H : w_create_text_format _ = Some ?t |- _ => exists t
       end.
  all: eval_hyps; eval_run.
  all: rewrite ?collect_app; cbn [collect opens closes app];
    rewrite ?collect_app; cbn [collect opens closes app handlers_open flat_map
                                 set_library library];
    rewrite ?E1, ?O1, ?C1; rewrite <- ?app_assoc; cbn [app];
    rewrite ?app_nil_r.
  all: repeat split; try assumption; try constructor; try reflexivity;
    try (intro; congruence).
Qed.

Lemma _get_env_vars_log B W m : _log (final (_get_env_vars B W m)) = _log m.
Proof.
  run (_get_env_vars B W m). unfold _get_env_vars, getenv, lvm_snprintf.
  exec; ran; reflexivity.
Qed.

Lemma _init_config_log B W m : _log (final (_init_config B W m)) = _log m.
Proof.
  run (_init_config B W m).
  unfold _init_config, create_config_tree, stat, read_config_file, lvm_snprintf.
  exec; ran; reflexivity.
Qed.

Lemma _process_config_log B W m : _log (final (_process_config B W m)) = _log m.
Proof.
  run (_process_config B W m). unfold _process_config, lvm_snprintf.
  exec; ran; reflexivity.
Qed.

Lemma _init_filters_log B W m : _log (final (_init_filters B W m)) = _log m.
Proof. filters_cases B W m; rewrite ?Fm; reflexivity. Qed.

Lemma _init_formats_log B W m : _log (final (_init_formats B W m)) = _log m.
Proof.
  run (_init_formats B W m). unfold _init_formats, list_add.
  exec; ran; try reflexivity.
  all: match goal with
       | H : _init_formats_libs ?w ?cv ?m' = _ |- _ =>
           destruct (_init_formats_libs_effect w cv m') as [dyn [_ [_ L]]];
           cbn zeta in L; rewrite H in L; exact L
       end.
Qed.

Section Handles.

Variables (B : build) (W : world) (a : nat) (m : machine).

Lemma run_dir_handles :
  collect opens (trace (run_dir B W a m)) = []
  /\ collect closes (trace (run_dir B W a m)) = [].
Proof.
  unfold run_dir.
  destruct (is_empty (sys_dir (cmd (final (run_env B W a m)))));
    split; reflexivity.
Qed.

Lemma run_dir_log : _log (final (run_dir B W a m)) = _log m.
Proof.
  rewrite run_dir_final. unfold run_env. rewrite _get_env_vars_log. reflexivity.
Qed.

(** The static [_log] once the construction is through [_init_logging]:
    the file opened for log/file; what it was before when the key is not
    set. *)
Lemma run_logging_log :
  _log (final (run_logging B W a m))
  = match find_config_str (cf_root (cmd (final (run_config B W a m))))
                          "log/file" None with
    | Some _ => log_file_opened B W (cf_root (cmd (final (run_config B W a m))))
    | None => _log m
    end.
Proof.
  unfold run_logging.
  destruct (_init_logging_handles B W (final (run_config B W a m)))
    as [_ [_ L]].
  cbn zeta in L. rewrite L. unfold run_config at 3.
  rewrite _init_config_log, run_dir_log. reflexivity.
Qed.

Lemma run_formats_log :
  _log (final (run_formats B W a m)) = _log (final (run_logging B W a m)).
Proof.
  unfold run_formats. rewrite _init_formats_log. unfold pooled. cbn [_log].
  unfold run_filters. rewrite _init_filters_log.
  unfold run_dev_cache. rewrite _init_dev_cache_final.
  unfold run_process. rewrite _process_config_log. reflexivity.
Qed.

End Handles.

Lemma handlers_close_app b l1 l2 :
  handlers_close b (l1 ++ l2) = handlers_close b l1 ++ handlers_close b l2.
Proof. apply flat_map_app. Qed.

Lemma handlers_built_in b l :
  Forall (fun f => library f = None) l ->
  handlers_open l = handlers_close b l.
Proof.
  induction 1 as [|f l N _ IH]; [reflexivity|].
  cbn [handlers_open handlers_close flat_map]. rewrite N.
  fold (handlers_open l). fold (handlers_close b l). rewrite IH. reflexivity.
Qed.

Lemma handlers_loaded l :
  Permutation (handlers_open l) (handlers_close true l).
Proof.
  induction l as [|f l IH]; [constructor|].
  cbn [handlers_open handlers_close flat_map].
  fold (handlers_open l). fold (handlers_close true l).
  destruct (library f) as [lib|]; cbn [app].
  - etransitivity; [apply perm_swap|]. do 2 apply perm_skip. exact IH.
  - apply perm_skip. exact IH.
Qed.

Lemma closes_formats_release b fmts :
  collect closes (formats_release b fmts) = handlers_close b fmts
  /\ collect opens (formats_release b fmts) = [].
Proof.
  induction fmts as [|f l [IHc IHo]]; [split; reflexivity|].
  cbn [formats_release handlers_close flat_map collect closes opens].
  fold (handlers_close b l). rewrite !collect_app, IHc, IHo.
  destruct (library f), b; split; reflexivity.
Qed.

Lemma perm_frame {A} (x y z w l fo fc : list A) :
  Permutation (x ++ y) (z ++ w) -> Permutation fo fc ->
  Permutation (x ++ l ++ y ++ fo) (z ++ fc ++ w ++ l).
Proof.
  intros P Q.
  transitivity ((x ++ y) ++ fo ++ l).
  - rewrite <- app_assoc. apply Permutation_app_head.
    etransitivity; [apply Permutation_app_comm|].
    rewrite <- !app_assoc. reflexivity.
  - transitivity ((z ++ w) ++ fc ++ l).
    + apply Permutation_app; [exact P|].
      apply Permutation_app_tail. exact Q.
    + rewrite <- app_assoc. apply Permutation_app_head.
      apply Permutation_app_swap_app.
Qed.

Section RoundTrip.

Variables (B : build) (W : world) (a : nat) (m : machine).

(** What a successful construction has opened, in program order. *)
Lemma create_toolcontext_opens c :
  let r := create_toolcontext B W a m in
  value r = Some c ->
  exists dyn txt,
    formats c = legacy_formats B W ++ dyn ++ [set_library None txt]
    /\ (HAVE_LIBDL B = false -> dyn = [])
    /\ collect opens (trace r)
       = [H_context; H_config_tree]
         ++ match log_file_opened B W (cf_root c) with
            | Some fp => [H_log_file fp]
            | None => []
            end
         ++ [H_dev_cache; H_filter; H_arena; H_label]
         ++ handlers_open (legacy_formats B W) ++ handlers_open dyn
         ++ [H_format]
    /\ collect closes (trace r) = []
    /\ _log (final r)
       = match find_config_str (cf_root c) "log/file" None with
         | Some _ => log_file_opened B W (cf_root c)
         | None => _log m
         end.
Proof.
  intros r V. subst r.
  destruct (create_toolcontext_inv B W a m c V) as [Hm [A EC]].
  destruct (create_toolcontext_succeeds B W a m Hm A) as [_ [T [L FC]]].
  destruct (create_toolcontext_result B W a m c V)
    as [_ [_ [_ [_ [_ [_ [_ [_ [_ [Cc _]]]]]]]]]].
  assert (R : cf_root c = cf_root (cmd (final (run_config B W a m))))
    by (unfold cf_root; rewrite Cc; reflexivity).
  pose proof (A config_load) as V3. pose proof (A device_cache_init) as V5.
  pose proof (A filter_construction) as V6.
  pose proof (A arena_allocation) as V7. pose proof (A format_registry) as V8.
  cbn [step_ok] in V3, V5, V6, V7, V8.
  destruct (_init_formats_handles B W (pooled B W a m) V8)
    as [dyn [txt [_ [F [_ [D [O C]]]]]]].
  fold (run_formats B W a m) in F, O, C.
  assert (F0 : formats (cmd (pooled B W a m)) = []).
  { unfold pooled. cbn [cmd formats set_mem].
    exact (proj1 (run_filters_facts B W a m (A env_override)
                    (A settings_processing))). }
  rewrite F0 in F. cbn [app] in F.
  exists dyn, txt. split; [|split; [exact D|]].
  { rewrite EC. unfold constructed. cbn [formats set_current_settings].
    exact F. }
  rewrite T, L, run_formats_log, run_logging_log, R.
  unfold trace_through, create_head.
  cbn [steps_before map List.concat step_trace].
  rewrite !collect_app, O, C.
  destruct (_get_env_vars_handles B W (allocated B W a m)) as [O1 C1].
  fold (run_env B W a m) in O1, C1.
  destruct (run_dir_handles B W a m) as [O2 C2].
  destruct (_init_config_handles B W (final (run_dir B W a m))) as [O3 C3].
  fold (run_config B W a m) in O3, C3. cbn zeta in O3, C3.
  rewrite V3 in C3.
  assert (T3 : w_create_config_tree W = true).
  { destruct (w_create_config_tree W) eqn:E; [reflexivity|].
    unfold run_config, _init_config, create_config_tree in V3.
    rewrite E in V3. discriminate V3. }
  rewrite T3 in O3.
  destruct (_init_logging_handles B W (final (run_config B W a m)))
    as [O4 [C4 _]].
  fold (run_logging B W a m) in O4, C4. cbn zeta in O4, C4.
  destruct (_process_config_handles B W (final (run_logging B W a m)))
    as [O4' C4'].
  fold (run_process B W a m) in O4', C4'.
  destruct (_init_dev_cache_handles W (final (run_process B W a m)))
    as [O5 C5].
  fold (run_dev_cache B W a m) in O5, C5.
  assert (T5 : w_dev_cache_init W = true).
  { destruct (w_dev_cache_init W) eqn:E; [reflexivity|].
    unfold run_dev_cache, _init_dev_cache in V5.
    rewrite E in V5. discriminate V5. }
  rewrite T5 in O5.
  destruct (_init_filters_handles B W (final (run_dev_cache B W a m)))
    as [O6 C6].
  fold (run_filters B W a m) in O6, C6. cbn zeta in O6, C6.
  rewrite V6 in O6.
  rewrite O1, O2, O3, O4, O4', O5, O6, C1, C2, C3, C4, C4', C5, C6.
  rewrite Hm, V7.
  destruct (w_setlocale W); cbn [negb app collect opens closes];
    rewrite ?app_nil_r, <- ?app_assoc; cbn [app]; repeat split; reflexivity.
Qed.

(** What the teardown of a context closes, in program order. *)
Lemma destroy_toolcontext_closes m' :
  collect closes (trace (destroy_toolcontext B m'))
  = [H_label]
    ++ handlers_close (HAVE_LIBDL B) (formats (cmd m'))
    ++ [H_filter; H_arena; H_dev_cache; H_config_tree; H_context]
    ++ match _log m' with
       | Some fp => [H_log_file fp]
       | None => []
       end
  /\ collect opens (trace (destroy_toolcontext B m')) = [].
Proof.
  rewrite destroy_toolcontext_trace, !collect_app.
  destruct (closes_formats_release (HAVE_LIBDL B) (formats (cmd m')))
    as [-> ->].
  destruct (dump_filter (cmd m')), (_log m'); split; reflexivity.
Qed.

End RoundTrip.

(** X2: a successful construction followed by the teardown hands back every
    object the construction obtained, each exactly once: the construction
    itself closes nothing, the teardown opens nothing, and what the teardown
    closes is a rearrangement of what the construction opened.  This is for a
    process whose static log pointer is not set when the construction
    starts. *)
Theorem create_then_destroy_is_balanced (B : build) (W : world) (a : nat)
        (m : machine) (c : cmd_context) :
  _log m = None ->
  value (create_toolcontext B W a m) = Some c ->
  let built := final (create_toolcontext B W a m) in
  collect closes (trace (create_toolcontext B W a m)) = []
  /\ collect opens (trace (destroy_toolcontext B built)) = []
  /\ Permutation (collect opens (trace (create_toolcontext B W a m)))
                 (collect closes (trace (destroy_toolcontext B built))).
Proof.
  intros L0 V built.
  destruct (create_toolcontext_opens B W a m c V)
    as [dyn [txt [F [D [O [C L]]]]]].
  destruct (destroy_toolcontext_closes B built) as [DC DO].
  split; [exact C|]. split; [exact DO|].
  rewrite O, DC.
  assert (FC : cmd built = c).
  { unfold built.
    destruct (create_toolcontext_inv B W a m c V) as [Hm [A EC]].
    destruct (create_toolcontext_succeeds B W a m Hm A) as [_ [_ [_ E]]].
    rewrite E, EC. reflexivity. }
  assert (LB : _log built = log_file_opened B W (cf_root c)).
  { unfold built. rewrite L, L0. unfold log_file_opened.
    destruct (find_config_str (cf_root c) "log/file" None); reflexivity. }
  rewrite FC, LB, F.
  set (lg := match log_file_opened B W (cf_root c) with
             | Some fp => [H_log_file fp]
             | None => []
             end).
  rewrite !handlers_close_app.
  change (handlers_close (HAVE_LIBDL B) [set_library None txt])
    with [H_format].
  replace ([H_dev_cache; H_filter; H_arena; H_label]
           ++ handlers_open (legacy_formats B W) ++ handlers_open dyn
           ++ [H_format])
    with ([H_dev_cache; H_filter; H_arena; H_label]
          ++ (handlers_open (legacy_formats B W) ++ handlers_open dyn
              ++ [H_format])) by reflexivity.
  replace ((handlers_close (HAVE_LIBDL B) (legacy_formats B W)
            ++ handlers_close (HAVE_LIBDL B) dyn ++ [H_format])
           ++ [H_filter; H_arena; H_dev_cache; H_config_tree; H_context]
           ++ lg)
    with ((handlers_close (HAVE_LIBDL B) (legacy_formats B W)
           ++ handlers_close (HAVE_LIBDL B) dyn ++ [H_format])
          ++ [H_filter; H_arena; H_dev_cache; H_config_tree; H_context]
          ++ lg) by reflexivity.
  apply perm_frame.
  - cbn [app].
    apply (Permutation_cons_app [H_label; H_filter; H_arena; H_dev_cache;
                                   H_config_tree] []).
    apply (Permutation_cons_app [H_label; H_filter; H_arena; H_dev_cache] []).
    apply (Permutation_cons_app [H_label; H_filter; H_arena] []).
    apply (Permutation_cons_app [H_label] [H_arena]).
    apply perm_swap.
  - apply Permutation_app.
    + rewrite (handlers_built_in (HAVE_LIBDL B) _ (legacy_formats_no_module B W)).
      reflexivity.
    + apply Permutation_app_tail.
      destruct (HAVE_LIBDL B) eqn:E.
      * apply handlers_loaded.
      * rewrite (D eq_refl). constructor.
Qed.

Lemma create_then_destroy_is_balanced_witness :
  Permutation
    (collect opens (trace (create_toolcontext build_full (world_ok sample_conf) 0 boot)))
    (collect closes (trace (destroy_toolcontext build_full machine_ok))).
Proof.
  destruct (value (create_toolcontext build_full (world_ok sample_conf) 0 boot))
    as [c|] eqn:V; [|vm_compute in V; discriminate V].
  exact (proj2 (proj2 (create_then_destroy_is_balanced
                         build_full (world_ok sample_conf) 0 boot c
                         eq_refl V))).
Defined.

(** ** The static log pointer *)

Lemma destroy_toolcontext_log B m :
  _log (final (destroy_toolcontext B m)) = _log m.
Proof.
  unfold destroy_toolcontext. run_bind.
  rewrite _destroy_formats_log.
  destruct (_log m) eqn:E; run_bind; rewrite _destroy_formats_log; exact E.
Qed.

Lemma _process_config_no_fopen B W m p md f :
  ~ In (E_fopen p md f) (trace (_process_config B W m)).
Proof.
  run (_process_config B W m). unfold _process_config, lvm_snprintf.
  exec; ran; intro H; in_cases H.
Qed.

(** X3: [destroy_toolcontext] closes the log file and leaves the static [_log]
    pointing at it.  A context constructed afterwards from a configuration
    without log/file keeps that pointer, opens no file, and its teardown
    closes the same stream a second time. *)
Theorem stale_log_file_is_closed_again (B : build) (W : world) (a : nat)
        (m : machine) (fp : FILE) (c : cmd_context) :
  _log m = Some fp ->
  let m1 := final (destroy_toolcontext B m) in
  let r := create_toolcontext B W a m1 in
  value r = Some c ->
  find_config_str (cf_root c) "log/file" None = None ->
  In (E_fclose fp) (trace (destroy_toolcontext B m))
  /\ _log m1 = Some fp
  /\ (forall p md f, ~ In (E_fopen p md f) (trace r))
  /\ _log (final r) = Some fp
  /\ In (E_fclose fp) (trace (destroy_toolcontext B (final r))).
Proof.
  intros L m1 r V N.
  assert (L1 : _log m1 = Some fp)
    by (unfold m1; rewrite destroy_toolcontext_log; exact L).
  assert (Cl : forall m', _log m' = Some fp ->
                          In (E_fclose fp) (trace (destroy_toolcontext B m'))).
  { intros m' L'. rewrite destroy_toolcontext_trace, L'.
    rewrite !in_app_iff. do 4 right. left. reflexivity. }
  destruct (create_toolcontext_opens B W a m1 c V)
    as [_ [_ [_ [_ [_ [_ Lf]]]]]].
  fold r in Lf. rewrite N, L1 in Lf.
  split; [exact (Cl m L)|]. split; [exact L1|]. split; [|split].
  - intros p md f H.
    destruct (create_toolcontext_event B W a m1 _ H) as [Hh|[s [_ [Hs Hv]]]];
      [discriminate Hh|].
    destruct s; try discriminate Hv.
    cbn [step_trace] in Hs. apply in_app_or in Hs. destruct Hs as [Hs|Hs].
    + destruct (create_toolcontext_result B W a m1 c V)
        as [_ [_ [_ [_ [_ [_ [_ [_ [_ [Cc _]]]]]]]]]].
      assert (R : cf_root c = cf_root (cmd (final (run_config B W a m1))))
        by (unfold cf_root; rewrite Cc; reflexivity).
      pose proof (_init_logging_log_file_aux B W (final (run_config B W a m1)))
        as [A _].
      cbn zeta in A. rewrite <- R, N in A. destruct A as [A _].
      exact (A p md f Hs).
    + exact (_process_config_no_fopen B W _ p md f Hs).
  - exact Lf.
  - exact (Cl _ Lf).
Qed.

(** ** What a construction reads *)

Lemma _get_env_vars_getenv B W m var v :
  In (E_getenv var v) (trace (_get_env_vars B W m)) ->
  var = "LVM_SYSTEM_DIR" /\ v = w_getenv W var.
Proof.
  run (_get_env_vars B W m). unfold _get_env_vars, getenv, lvm_snprintf.
  exec; ran; intro H; in_cases H; split; congruence.
Qed.

Lemma _init_config_files B W m :
  let file := (sys_dir (cmd m) ++ "/lvm.conf")%string in
  (forall p st, In (E_stat p st) (trace (_init_config B W m)) ->
                p = file /\ st = w_stat W file)
  /\ (forall p ok, In (E_read_config_file p ok) (trace (_init_config B W m)) ->
                   p = file /\ exists t, w_stat W file = stat_ok t).
Proof.
  intro file. subst file. run (_init_config B W m).
  unfold _init_config, create_config_tree, stat, read_config_file, lvm_snprintf.
  exec; ran; split; intros p x H; in_cases H; split; try congruence; eauto.
Qed.

Lemma _init_filters_stat B W m p st :
  In (E_stat p st) (trace (_init_filters B W m)) ->
  p = cache_path (cmd m) /\ st = w_stat W p.
Proof.
  unfold cache_path. filters_cases B W m.
  all: intro H; in_inv H; split; try congruence.
  all: rewrite cf_root_set_dump_filter in *; congruence.
Qed.

Lemma _init_formats_libs_loads W cv m path lib :
  In (E_load_shared_library path lib) (trace (_init_formats_libs W cv m)) ->
  In (CFG_STRING path) cv /\ lib = w_load_shared_library W path.
Proof.
  revert m; induction cv as [|[i|x|p] next IH]; intro m.
  1-3: cbn; intuition discriminate.
  pose proof (fun f => IH {| cmd := set_formats (formats (cmd m) ++ [f]) (cmd m);
                             _log := _log m |}) as IH'.
  run (_init_formats_libs W (CFG_STRING p :: next) m).
  cbn [_init_formats_libs]. unfold list_add.
  exec; ran; use_calls; cbn [In app].
  all: intros [H|H]; [injection H as <- <-; split; [left; reflexivity|congruence]|].
  all: try (exfalso; intuition discriminate).
  destruct H as [H|[H|H]]; try discriminate H.
  specialize (IH' (set_library (Some d) f)).
  match goal with
  | E : _init_formats_libs _ _ _ = _ |- _ => rewrite E in IH'
  end.
  destruct (IH' H) as [I L]. split; [right; exact I|exact L].
Qed.

Lemma _init_formats_loads B W m path lib :
  In (E_load_shared_library path lib) (trace (_init_formats B W m)) ->
  HAVE_LIBDL B = true
  /\ (exists cn,
        find_config_node (cf_root (cmd m)) "global/format_libraries" = Some cn
        /\ In (CFG_STRING path) (v cn))
  /\ lib = w_load_shared_library W path.
Proof.
  run (_init_formats B W m). unfold _init_formats, list_add.
  exec; ran; intro H; in_cases H.
  all: match goal with
       | E : _init_formats_libs ?w ?cv ?m' = (_, _, ?l), H : In _ ?l |- _ =>
           let X := fresh "X" in
           pose proof (_init_formats_libs_loads w cv m' path lib) as X;
           rewrite E in X; destruct (X H) as [I L]
       end.
  all: split; [reflexivity|];
    (split; [eexists; split; [reflexivity|exact I]|exact L]).
Qed.

Lemma _init_filters_cache_file B W m p ok :
  In (E_persistent_filter_create p ok) (trace (_init_filters B W m)) ->
  p = cache_path (cmd m).
Proof.
  unfold cache_path. filters_cases B W m.
  all: intro H; in_inv H; try congruence.
  all: rewrite cf_root_set_dump_filter in *; congruence.
Qed.

Section Footprint.

Variables (B : build) (W : world) (a : nat) (m : machine).

Lemma reached_env s :
  reached B W a m s = true -> s <> env_override ->
  value (run_env B W a m) = true.
Proof.
  unfold reached. intros R N. apply andb_prop in R. destruct R as [_ R].
  destruct s; cbn [steps_before forallb step_ok] in R;
    try (apply andb_prop in R; destruct R as [R _]; exact R).
  congruence.
Qed.

Lemma cf_run_dev_cache :
  cf (cmd (final (run_dev_cache B W a m))) = cf (cmd (final (run_config B W a m))).
Proof.
  unfold run_dev_cache. rewrite _init_dev_cache_final.
  unfold run_process.
  rewrite (proj1 (proj2 (_process_config_frame B W _))).
  unfold run_logging.
  rewrite (proj1 (proj2 (_init_logging_frame B W _))). reflexivity.
Qed.

Lemma cache_path_run_dev_cache :
  value (run_env B W a m) = true ->
  cache_path (cmd (final (run_dev_cache B W a m))) = cache_file B W a m.
Proof.
  intro V. unfold cache_path, cache_file, configuration, cf_root.
  rewrite cf_run_dev_cache, (sys_dir_run_dev_cache B W a m V). reflexivity.
Qed.

Lemma cf_root_pooled :
  cf_root (cmd (pooled B W a m)) = configuration B W a m.
Proof.
  unfold pooled, configuration, cf_root at 1. cbn [cmd cf set_mem].
  unfold run_filters.
  rewrite (proj1 (proj2 (_init_filters_frame B W _))), cf_run_dev_cache.
  reflexivity.
Qed.

End Footprint.

(** X4: the arguments of the calls a construction makes to the world outside
    the process.  [getenv] is called for LVM_SYSTEM_DIR and for nothing else;
    [create_dir] for the system directory in effect, and only when it is not
    empty; [stat] for lvm.conf under that directory and for the cache file;
    [read_config_file] for that lvm.conf; [fopen] for the file log/file
    names, in the mode log/overwrite selects; [persistent_filter_create] for
    the cache file; and [load_shared_library], in a build with HAVE_LIBDL
    only, for strings listed under global/format_libraries.  The statement
    is about the calls [create_toolcontext] and its helpers make themselves:
    what a callee consults on its own, such as the locale environment
    [setlocale] reads or the files a loaded library opens, is not covered. *)
Theorem create_toolcontext_footprint (B : build) (W : world) (a : nat)
        (m : machine) :
  let r := create_toolcontext B W a m in
  (forall var v, In (E_getenv var v) (trace r) ->
                 var = "LVM_SYSTEM_DIR" /\ v = w_getenv W var)
  /\ (forall d ok, In (E_create_dir d ok) (trace r) ->
                   d = system_dir B W /\ d <> "")
  /\ (forall p st, In (E_stat p st) (trace r) ->
                   p = lvm_conf B W \/ p = cache_file B W a m)
  /\ (forall p ok, In (E_read_config_file p ok) (trace r) -> p = lvm_conf B W)
  /\ (forall p md f, In (E_fopen p md f) (trace r) ->
        find_config_str (configuration B W a m) "log/file" None = Some p
        /\ md = open_mode B (configuration B W a m))
  /\ (forall p ok, In (E_persistent_filter_create p ok) (trace r) ->
                   p = cache_file B W a m)
  /\ (forall path lib, In (E_load_shared_library path lib) (trace r) ->
        HAVE_LIBDL B = true
        /\ (exists cn,
              find_config_node (configuration B W a m)
                               "global/format_libraries" = Some cn
              /\ In (CFG_STRING path) (v cn))
        /\ lib = w_load_shared_library W path).
Proof.
  intro r. subst r.
  assert (Ev : forall e, In e (trace (create_toolcontext B W a m)) ->
                         head_event e = false ->
                         exists s, reached B W a m s = true
                                   /\ In e (step_trace B W a m s)
                                   /\ step_event s e = true).
  { intros e H N. destruct (create_toolcontext_event B W a m e H) as [Hh|Hs];
      [congruence|exact Hs]. }
  split; [|split; [|split; [|split; [|split; [|split]]]]].
  - intros var v H. destruct (Ev _ H eq_refl) as [s [_ [I S]]].
    destruct s; try discriminate S. cbn [step_trace] in I.
    exact (_get_env_vars_getenv B W _ _ _ I).
  - intros d ok H. destruct (Ev _ H eq_refl) as [s [R [I S]]].
    destruct s; try discriminate S. cbn [step_trace] in I.
    pose proof (reached_env B W a m _ R ltac:(discriminate)) as V.
    unfold run_dir in I. rewrite (sys_dir_run_env B W a m V) in I.
    destruct (system_dir B W) eqn:E; [destruct I|].
    cbn [is_empty] in I. unfold create_dir in I. revert I. run_bind.
    intros [I|[]]. injection I as <- _. split; [reflexivity|discriminate].
  - intros p st H. destruct (Ev _ H eq_refl) as [s [R [I S]]].
    pose proof (fun N => reached_env B W a m s R N) as V.
    destruct s; try discriminate S; cbn [step_trace] in I.
    + left. destruct (_init_config_files B W (final (run_dir B W a m)))
        as [F _].
      destruct (F p st I) as [-> _].
      rewrite run_dir_final, (sys_dir_run_env B W a m (V ltac:(discriminate))).
      reflexivity.
    + right. destruct (_init_filters_stat B W _ _ _ I) as [-> _].
      apply cache_path_run_dev_cache. apply V. discriminate.
  - intros p ok H. destruct (Ev _ H eq_refl) as [s [R [I S]]].
    pose proof (fun N => reached_env B W a m s R N) as V.
    destruct s; try discriminate S; cbn [step_trace] in I.
    destruct (_init_config_files B W (final (run_dir B W a m))) as [_ F].
    destruct (F p ok I) as [-> _].
    rewrite run_dir_final, (sys_dir_run_env B W a m (V ltac:(discriminate))).
    reflexivity.
  - intros p md f H. destruct (Ev _ H eq_refl) as [s [R [I S]]].
    destruct s; try discriminate S; cbn [step_trace] in I.
    apply in_app_or in I. destruct I as [I|I];
      [|destruct (_process_config_no_fopen B W _ _ _ _ I)].
    pose proof (_init_logging_log_file_aux B W (final (run_config B W a m)))
      as [A _].
    cbn zeta in A. fold (configuration B W a m) in A.
    destruct (find_config_str (configuration B W a m) "log/file" None)
      as [file|]; destruct A as [A _].
    + destruct (proj1 (A p md f) I) as [-> [-> _]]. split; reflexivity.
    + destruct (A p md f I).
  - intros p ok H. destruct (Ev _ H eq_refl) as [s [R [I S]]].
    pose proof (fun N => reached_env B W a m s R N) as V.
    destruct s; try discriminate S; cbn [step_trace] in I.
    rewrite (_init_filters_cache_file B W _ _ _ I).
    apply cache_path_run_dev_cache. apply V. discriminate.
  - intros path lib H. destruct (Ev _ H eq_refl) as [s [R [I S]]].
    destruct s; try discriminate S; cbn [step_trace] in I.
    unfold run_formats in I. apply _init_formats_loads in I.
    rewrite cf_root_pooled in I. exact I.
Qed.

(** ** The configuration file *)

(** X5: [_init_config] with a non-empty system directory whose lvm.conf path
    fits PATH_MAX.  A missing file (ENOENT) is not an error: the function
    succeeds with the empty tree and reads nothing.  Any other [stat] failure
    is fatal.  A file that is there is read, and the context gets the nodes
    read; a failed read is fatal. *)
Theorem _init_config_outcome (B : build) (W : world) (m : machine) :
  let dir := sys_dir (cmd m) in
  let file := (dir ++ "/lvm.conf")%string in
  let r := _init_config B W m in
  w_create_config_tree W = true ->
  dir <> "" ->
  String.length file < PATH_MAX B ->
  In (E_stat file (w_stat W file)) (trace r)
  /\ match w_stat W file with
     | stat_fail errno =>
         (value r = true <-> errno = ENOENT)
         /\ (forall p ok, ~ In (E_read_config_file p ok) (trace r))
         /\ (value r = true ->
             cf (cmd (final r)) = Some {| root := [] |}
             /\ trace r = [E_create_config_tree true;
                           E_stat file (stat_fail ENOENT)])
         /\ (value r = false -> In (E_log_sys_error "stat" file) (trace r))
     | stat_ok _ =>
         match w_read_config_file W file with
         | Some nodes =>
             value r = true
             /\ cf (cmd (final r)) = Some {| root := nodes |}
             /\ In (E_read_config_file file true) (trace r)
         | None =>
             value r = false
             /\ In (E_log_error "Failed to load config file %s" [LStr file])
                   (trace r)
         end
     end.
Proof.
  intros dir file r T D L. subst dir file r.
  apply Nat.ltb_lt in L.
  assert (E : is_empty (sys_dir (cmd m)) = false)
    by (destruct (sys_dir (cmd m)); [congruence|reflexivity]).
  run (_init_config B W m).
  unfold _init_config, create_config_tree, stat, read_config_file, lvm_snprintf.
  exec; ran; use_calls; try congruence.
  all: repeat match goal with
              | H : ?x = _ |- context [match ?x with _ => _ end] => rewrite H
              end.
  all: try match goal with
           | H : (_ =? _)%Z = true |- _ => apply Z.eqb_eq in H; subst
           | H : (_ =? _)%Z = false |- _ => apply Z.eqb_neq in H
           end.
  all: cbn [In]; repeat split; auto; try congruence; try tauto.
  all: intros; intuition discriminate.
Qed.

Lemma _init_config_outcome_witness :
  value (_init_config build_full world_no_conf machine_allocated) = true
  /\ cf (cmd (final (_init_config build_full world_no_conf machine_allocated)))
     = Some {| root := [] |}.
Proof.
  pose proof (_init_config_outcome build_full world_no_conf machine_allocated
                eq_refl ltac:(discriminate) ltac:(vm_compute; lia))
    as [_ [V [_ [C _]]]].
  split; [exact (proj2 V eq_refl)|exact (proj1 (C (proj2 V eq_refl)))].
Defined.

(** X6: [_init_config] hands back the tree it created on each of its own
    failure paths, exactly once, and never when it succeeds; the tree it
    destroys is the one [cmd->cf] still points to when it returns. *)
Theorem _init_config_releases_its_tree (B : build) (W : world) (m : machine) :
  let r := _init_config B W m in
  collect opens (trace r)
  = (if w_create_config_tree W then [H_config_tree] else [])
  /\ collect closes (trace r)
     = (if value r then []
        else if w_create_config_tree W then [H_config_tree] else [])
  /\ (forall t, In (E_destroy_config_tree t) (trace r) ->
                t = cf (cmd (final r)) /\ t <> None).
Proof.
  intro r. subst r. run (_init_config B W m).
  unfold _init_config, create_config_tree, stat, read_config_file, lvm_snprintf.
  exec; ran; (split; [|split]); try reflexivity.
  all: intros t H; in_cases H; split; try reflexivity; discriminate.
Qed.

(** ** Settings processing *)

(** X7: [_process_config] succeeds exactly when the device directory with the
    slash appended fits [dev_dir], the proc directory fits [proc_dir] and the
    units parse to a non-zero factor.  When it succeeds the context holds the
    device directory followed by one slash and the proc directory as
    configured, device-mapper (when compiled in) was told that same device
    directory, and the umask was set to the configured value, which is logged
    only when it differs from the previous one. *)
Theorem _process_config_outcome (B : build) (W : world) (m : machine) :
  let cn := cf_root (cmd m) in
  let dev := configured_dev_dir B cn in
  let proc := configured_proc_dir B cn in
  let um := find_config_int cn "global/umask" (DEFAULT_UMASK B) in
  let r := _process_config B W m in
  (value r = true <->
   String.length dev + 1 < sizeof_dev_dir B
   /\ String.length proc < sizeof_proc_dir B
   /\ fst (w_units_to_bytes W (configured_units B cn)) <> 0%Z)
  /\ (value r = true ->
      dev_dir (cmd (final r)) = (dev ++ "/")%string
      /\ proc_dir (cmd (final r)) = proc
      /\ (forall d, In (E_dm_set_dev_dir d) (trace r)
                    <-> DEVMAPPER_SUPPORT B = true /\ d = (dev ++ "/")%string))
  /\ In (E_umask (mode_t um) (w_umask W)) (trace r)
  /\ (In (E_log_verbose "Set umask to %04o" [LInt um]) (trace r)
      <-> w_umask W <> mode_t um).
Proof.
  intros cn dev proc um r. subst cn dev proc um r.
  unfold configured_dev_dir, configured_proc_dir, configured_units.
  run (_process_config B W m). unfold _process_config, lvm_snprintf.
  exec; ran; use_calls.
  all: repeat match goal with
              | |- context [if ?b then _ else _] => destruct b eqn:?
              end.
  all: repeat match goal with
              | H : (_ <? _)%nat = true |- _ => apply Nat.ltb_lt in H
              | H : (_ <? _)%nat = false |- _ => apply Nat.ltb_ge in H
              | H : (_ =? _)%Z = true |- _ => apply Z.eqb_eq in H
              | H : (_ =? _)%Z = false |- _ => apply Z.eqb_neq in H
              | H : negb _ = true |- _ => apply negb_true_iff in H
              | H : negb _ = false |- _ => apply negb_false_iff in H
              | H : w_units_to_bytes _ _ = _ |- _ => rewrite H in *
              end.
  all: cbn [fst negb app In] in *; rewrite ?length_append in *;
    cbn [String.length] in *.
  all: (split; [|split; [|split]]).
  all: try solve [intuition (subst; first [discriminate | congruence | lia])].
  all: try (intros _; split; [reflexivity|split; [reflexivity|]]; intro d).
  all: try solve [intuition (subst; first [discriminate | congruence | lia])].
Qed.

(** ** What each step leaves in the context when it succeeds *)

Lemma _get_env_vars_cmd B W m :
  value (_get_env_vars B W m) = true ->
  cmd (final (_get_env_vars B W m))
  = match w_getenv W "LVM_SYSTEM_DIR" with
    | Some e => set_sys_dir e (cmd m)
    | None => cmd m
    end.
Proof.
  run (_get_env_vars B W m). unfold _get_env_vars, getenv, lvm_snprintf.
  exec; ran; intro V; try discriminate V; reflexivity.
Qed.

Lemma _init_config_cmd B W m :
  value (_init_config B W m) = true ->
  cmd (final (_init_config B W m))
  = set_cf (Some {| root := config_nodes W (sys_dir (cmd m)) |}) (cmd m).
Proof.
  unfold config_nodes. run (_init_config B W m).
  unfold _init_config, create_config_tree, stat, read_config_file, lvm_snprintf.
  exec; ran; intro V; try discriminate V; use_calls;
    repeat match goal with
           | H : ?x = _ |- context [?x] => rewrite H
           end; reflexivity.
Qed.

Lemma _process_config_cmd B W m :
  value (_process_config B W m) = true ->
  cmd (final (_process_config B W m))
  = set_default_settings
      (process_settings B W (cf_root (cmd m)) (default_settings (cmd m)))
      (set_proc_dir (configured_proc_dir B (cf_root (cmd m)))
         (set_dev_dir (configured_dev_dir B (cf_root (cmd m)) ++ "/")
            (cmd m))).
Proof.
  unfold process_settings, configured_proc_dir, configured_dev_dir.
  run (_process_config B W m). unfold _process_config, lvm_snprintf.
  exec; ran; intro V; try discriminate V; use_calls;
    repeat match goal with
           | H : w_units_to_bytes _ _ = _ |- _ => rewrite H
           end; reflexivity.
Qed.

Lemma _init_filter_components_shape W m f :
  value (_init_filter_components W m) = Some f ->
  f = filter_components (cmd m).
Proof.
  unfold filter_components. run (_init_filter_components W m).
  unfold _init_filter_components, lvm_type_filter_create, regex_filter_create,
    composite_filter_create.
  exec; ran; intro V; try discriminate V; injection V as <-; reflexivity.
Qed.

Lemma _init_filters_cmd B W m :
  let c := cmd m in
  cmd (final (_init_filters B W m))
  = if value (_init_filters B W m)
    then set_filter (Some (filter_chain W c))
           (set_dump_filter
              (write_cache_state c && negb (is_empty (sys_dir c))) c)
    else set_dump_filter false c.
Proof.
  intro c. subst c.
  pose proof (_init_filter_components_shape W
                {| cmd := set_dump_filter false (cmd m); _log := _log m |}) as Sh.
  unfold filter_chain, cache_decisions, write_cache_state, cache_path.
  filters_cases B W m.
  all: rewrite ?Fm; try reflexivity.
  all: rewrite cf_root_set_dump_filter in *.
  all: rewrite (Sh _ eq_refl); unfold filter_components;
    cbn [proc_dir set_dump_filter]; rewrite ?cf_root_set_dump_filter.
  all: repeat match goal with
              | H : ?x = _ |- context [?x] => rewrite H
              end.
  all: destruct (is_empty (sys_dir (cmd m)));
    destruct (find_config_int (cf_root (cmd m)) "devices/write_cache_state" 1 =? 0)%Z;
    reflexivity.
Qed.

Section Constructed.

Variables (B : build) (W : world) (a : nat) (m : machine).

Lemma cmd_run_env :
  value (run_env B W a m) = true ->
  cmd (final (run_env B W a m))
  = set_sys_dir (system_dir B W) (set_args a zero_cmd_context).
Proof.
  intro V. unfold run_env in *. rewrite (_get_env_vars_cmd B W _ V).
  unfold system_dir, allocated. cbn [cmd].
  destruct (w_getenv W "LVM_SYSTEM_DIR"); reflexivity.
Qed.

Lemma cmd_run_config :
  value (run_env B W a m) = true ->
  value (run_config B W a m) = true ->
  cmd (final (run_config B W a m))
  = set_cf (Some {| root := config_nodes W (system_dir B W) |})
      (set_sys_dir (system_dir B W) (set_args a zero_cmd_context)).
Proof.
  intros V1 V3. unfold run_config in *. rewrite (_init_config_cmd B W _ V3).
  rewrite run_dir_final, (cmd_run_env V1). reflexivity.
Qed.

Lemma cmd_run_dev_cache :
  value (run_env B W a m) = true ->
  value (run_config B W a m) = true ->
  value (run_process B W a m) = true ->
  let cn := config_nodes W (system_dir B W) in
  cmd (final (run_dev_cache B W a m))
  = set_default_settings
      (process_settings B W cn (logging_settings B cn zero_config_info))
      (set_proc_dir (configured_proc_dir B cn)
         (set_dev_dir (configured_dev_dir B cn ++ "/")
            (set_cf (Some {| root := cn |})
               (set_sys_dir (system_dir B W) (set_args a zero_cmd_context))))).
Proof.
  intros V1 V3 V4 cn. unfold run_dev_cache. rewrite _init_dev_cache_final.
  unfold run_process in *. rewrite (_process_config_cmd B W _ V4).
  unfold run_logging. rewrite _init_logging_cmd, (cmd_run_config V1 V3).
  reflexivity.
Qed.

(** The context a successful construction returns, field by field. *)
Lemma create_toolcontext_context c :
  value (create_toolcontext B W a m) = Some c ->
  args c = a
  /\ sys_dir c = system_dir B W
  /\ cf c = Some {| root := config_nodes W (system_dir B W) |}
  /\ dev_dir c = (configured_dev_dir B (cf_root c) ++ "/")%string
  /\ proc_dir c = configured_proc_dir B (cf_root c)
  /\ filter c = Some (filter_chain W c)
  /\ dump_filter c = write_cache_state c && negb (is_empty (sys_dir c))
  /\ mem c = Some {| chunk_hint := 4 * 1024 |}.
Proof.
  intro V. destruct (create_toolcontext_inv B W a m c V) as [Hm [A EC]].
  pose proof (A env_override) as V1. pose proof (A config_load) as V3.
  pose proof (A settings_processing) as V4.
  pose proof (A filter_construction) as V6.
  pose proof (A arena_allocation) as V7. pose proof (A format_registry) as V8.
  cbn [step_ok] in V1, V3, V4, V6, V7, V8.
  destruct (_init_formats_effect B W (pooled B W a m) V8)
    as [dyn [txt [pos [_ [_ [E8 _]]]]]].
  fold (run_formats B W a m) in E8.
  pose proof (_init_filters_cmd B W (final (run_dev_cache B W a m))) as E6.
  fold (run_filters B W a m) in E6. cbn zeta in E6. rewrite V6 in E6.
  pose proof (cmd_run_dev_cache V1 V3 V4) as E5. cbn zeta in E5.
  subst c. unfold constructed. rewrite E8. unfold pooled. rewrite V7.
  cbn [cmd]. rewrite E6.
  unfold filter_chain, filter_components, cache_decisions, cache_path,
    write_cache_state, cf_root.
  cbn [args formats fmt_backup cf default_settings current_settings filter
       dump_filter mem sys_dir dev_dir proc_dir
       set_args set_formats set_fmt_backup set_cf set_default_settings
       set_current_settings set_filter set_dump_filter set_mem set_sys_dir
       set_dev_dir set_proc_dir].
  rewrite E5.
  cbn [args formats fmt_backup cf default_settings current_settings filter
       dump_filter mem sys_dir dev_dir proc_dir root
       set_args set_formats set_fmt_backup set_cf set_default_settings
       set_current_settings set_filter set_dump_filter set_mem set_sys_dir
       set_dev_dir set_proc_dir zero_cmd_context].
  repeat split; reflexivity.
Qed.

End Constructed.


Lemma _process_config_success B W m :
  value (_process_config B W m) = true ->
  String.length (configured_dev_dir B (cf_root (cmd m))) + 1 < sizeof_dev_dir B
  /\ String.length (configured_proc_dir B (cf_root (cmd m))) < sizeof_proc_dir B
  /\ fst (w_units_to_bytes W (configured_units B (cf_root (cmd m)))) <> 0%Z.
Proof.
  unfold configured_dev_dir, configured_proc_dir, configured_units.
  run (_process_config B W m). unfold _process_config, lvm_snprintf.
  exec; ran; use_calls; intro V; try discriminate V.
  repeat match goal with
         | H : (_ <? _)%nat = true |- _ => apply Nat.ltb_lt in H
         | H : (_ =? _)%Z = false |- _ => apply Z.eqb_neq in H
         | H : w_units_to_bytes _ _ = _ |- _ => rewrite H in *
         end.
  rewrite ?length_append in *. cbn [String.length fst] in *.
  repeat split; (lia || assumption).
Qed.

Lemma _init_filters_stats_cache B W m :
  value (_init_filters B W m) = true ->
  In (E_stat (cache_path (cmd m)) (w_stat W (cache_path (cmd m))))
     (trace (_init_filters B W m))
  /\ String.length (sys_dir (cmd m)) + 7 < PATH_MAX B.
Proof.
  unfold cache_path. filters_cases B W m.
  all: intro V; try discriminate V.
  all: rewrite cf_root_set_dump_filter in *.
  all: repeat match goal with
              | H : (_ <? _)%nat = true |- _ =>
                  apply Nat.ltb_lt in H; rewrite length_append in H;
                  cbn [String.length] in H
              end.
  all: split; [|assumption].
  all: apply in_or_app; right; cbn [In];
    repeat match goal with
           | H : w_stat _ _ = _ |- _ => rewrite H
           end; tauto.
Qed.

Lemma step_trace_in_create B W a m c s e :
  value (create_toolcontext B W a m) = Some c ->
  In e (step_trace B W a m s) ->
  In e (trace (create_toolcontext B W a m)).
Proof.
  intros V H. destruct (create_toolcontext_inv B W a m c V) as [Hm [A _]].
  destruct (create_toolcontext_succeeds B W a m Hm A) as [_ [T _]].
  rewrite T. unfold trace_through.
  destruct s; cbn [steps_before map List.concat step_trace] in *;
    rewrite ?in_app_iff in *; tauto.
Qed.

(** ** The context a construction returns *)

(** X8: every member of the context [create_toolcontext] returns is set, and
    determined by the caller's argument, the environment and the
    configuration: the argument table is the caller's; the system directory
    is the override or the default; the tree holds the nodes of lvm.conf
    under it; the device directory ends in a slash and, like the proc
    directory, fits its buffer; the filter chain and the arena are there;
    the default and the backup format point into the format list; the unit
    factor is not zero; the current settings are a copy of the defaults. *)
Theorem create_toolcontext_returns_complete_context (B : build) (W : world)
        (a : nat) (m : machine) (c : cmd_context) :
  value (create_toolcontext B W a m) = Some c ->
  args c = a
  /\ sys_dir c = system_dir B W
  /\ String.length (sys_dir c) + 7 < PATH_MAX B
  /\ cf c = Some {| root := config_nodes W (system_dir B W) |}
  /\ dev_dir c = (configured_dev_dir B (cf_root c) ++ "/")%string
  /\ String.length (dev_dir c) < sizeof_dev_dir B
  /\ proc_dir c = configured_proc_dir B (cf_root c)
  /\ String.length (proc_dir c) < sizeof_proc_dir B
  /\ filter c <> None
  /\ mem c = Some {| chunk_hint := 4 * 1024 |}
  /\ (exists pos, fmt (default_settings c) = Some pos
                  /\ pos < List.length (formats c))
  /\ (exists pos, fmt_backup c = Some pos /\ pos < List.length (formats c))
  /\ unit_factor (default_settings c) <> 0%Z
  /\ current_settings c = default_settings c.
Proof.
  intro V.
  destruct (create_toolcontext_context B W a m c V)
    as [Ha [Hs [Hc [Hd [Hp [Hf [_ Hmem]]]]]]].
  destruct (create_toolcontext_result B W a m c V)
    as [dyn [txt [pos [_ [_ [F [Fb [Df [_ [_ [_ [Ds Cs]]]]]]]]]]]].
  destruct (create_toolcontext_inv B W a m c V) as [_ [A _]].
  pose proof (A env_override) as V1. pose proof (A config_load) as V3.
  pose proof (A settings_processing) as V4.
  pose proof (A filter_construction) as V6.
  cbn [step_ok] in V1, V3, V4, V6.
  destruct (_process_config_success B W _ V4) as [Ld [Lp Lu]].
  assert (R : cf_root (cmd (final (run_logging B W a m))) = cf_root c).
  { unfold cf_root, run_logging.
    rewrite (proj1 (proj2 (_init_logging_frame B W _))).
    rewrite (cmd_run_config B W a m V1 V3), Hc. reflexivity. }
  rewrite R in Ld, Lp, Lu.
  destruct (_init_filters_stats_cache B W _ V6) as [_ Lc].
  rewrite (sys_dir_run_dev_cache B W a m V1), <- Hs in Lc.
  repeat split; try assumption.
  - rewrite Hd, length_append. cbn [String.length]. exact Ld.
  - rewrite Hp. exact Lp.
  - rewrite Hf. discriminate.
  - exists pos. split; [rewrite Ds; reflexivity|].
    apply _init_formats_default_first in Df.
    destruct Df as [i [f [-> [N _]]]]. cbn [Nat.add].
    apply nth_error_Some. rewrite N. discriminate.
  - exists (List.length (legacy_formats B W ++ dyn)). split; [exact Fb|].
    rewrite F, !length_app. cbn [List.length]. lia.
  - rewrite Ds. unfold process_settings. cbn [unit_factor set_fmt set_units].
    exact Lu.
Qed.

Lemma create_toolcontext_returns_complete_context_witness :
  exists c,
    value (create_toolcontext build_full (world_ok sample_conf) 0 boot) = Some c
    /\ sys_dir c = "/etc/lvm" /\ dev_dir c = "/dev/"
    /\ cf c = Some {| root := sample_conf |}.
Proof.
  destruct (value (create_toolcontext build_full (world_ok sample_conf) 0 boot))
    as [c|] eqn:V; [|vm_compute in V; discriminate V].
  exists c.
  destruct (create_toolcontext_returns_complete_context
              build_full (world_ok sample_conf) 0 boot c V)
    as [_ [Hs [_ [Hc [Hd _]]]]].
  split; [reflexivity|]. split; [exact Hs|]. split; [|exact Hc].
  rewrite Hd. unfold cf_root. rewrite Hc. reflexivity.
Defined.

(** ** The filter chain *)

(** X9: the filter [_init_filters] installs.  When it succeeds the context's
    filter is the persistent filter over the cache file, wrapped around the
    type filter built from the context's proc directory and devices/types,
    with the regex filter of devices/filter composed in front of it when
    that key is set; its decisions are those loaded from the cache file when
    that file is newer than the configuration and loads, and none otherwise.
    When it fails the context's filter is left as it was.  The context a
    construction returns carries that chain, built from the proc directory
    the settings processing stored. *)
Theorem filter_chain_installed (B : build) (W : world) (a : nat) (m : machine) :
  (let r := _init_filters B W m in
   let c := cmd m in
   (value r = true ->
    filter (cmd (final r))
    = Some (persistent_filter
              (match find_config_node (cf_root c) "devices/filter" with
               | None =>
                   type_filter (proc_dir c)
                               (find_config_node (cf_root c) "devices/types")
               | Some cn =>
                   composite_filter
                     [regex_filter (v cn);
                      type_filter (proc_dir c)
                                  (find_config_node (cf_root c) "devices/types")]
               end)
              (cache_path c) (cache_decisions W c)))
   /\ (value r = false -> filter (cmd (final r)) = filter c))
  /\ (forall c, value (create_toolcontext B W a m) = Some c ->
                filter c = Some (filter_chain W c)
                /\ proc_dir c = configured_proc_dir B (cf_root c)).
Proof.
  split.
  - intros r c. subst r c.
    pose proof (_init_filters_cmd B W m) as E. cbn zeta in E.
    split; intro V; rewrite V in E; rewrite E; reflexivity.
  - intros c V.
    destruct (create_toolcontext_context B W a m c V)
      as [_ [_ [_ [_ [Hp [Hf _]]]]]].
    split; assumption.
Qed.

(** X10: whether the cache is dumped at shutdown.  [_init_filters] leaves the
    dump flag set exactly when it succeeded, devices/write_cache_state is
    not zero (it is on when the key is missing) and the system directory is
    not empty.  The teardown of a constructed context dumps the cache exactly
    under that condition, it dumps the context's own filter, and the dump
    is the first thing it does. *)
Theorem cache_dump_decision (B : build) (W : world) (a : nat) (m : machine) :
  dump_filter (cmd (final (_init_filters B W m)))
  = value (_init_filters B W m) && write_cache_state (cmd m)
    && negb (is_empty (sys_dir (cmd m)))
  /\ (forall c, value (create_toolcontext B W a m) = Some c ->
        let t := trace (destroy_toolcontext B
                          (final (create_toolcontext B W a m))) in
        (forall f, In (E_persistent_filter_dump f) t
                   <-> f = filter c /\ write_cache_state c = true
                       /\ sys_dir c <> "")
        /\ (write_cache_state c = true -> sys_dir c <> "" ->
            hd_error t = Some (E_persistent_filter_dump (filter c)))).
Proof.
  split.
  - pose proof (_init_filters_cmd B W m) as E. cbn zeta in E. rewrite E.
    destruct (value (_init_filters B W m)); reflexivity.
  - intros c V t. subst t.
    destruct (create_toolcontext_context B W a m c V)
      as [_ [_ [_ [_ [_ [_ [Hd _]]]]]]].
    destruct (create_toolcontext_inv B W a m c V) as [Hm [A EC]].
    destruct (create_toolcontext_succeeds B W a m Hm A) as [_ [_ [_ FC]]].
    rewrite destroy_toolcontext_trace, FC, <- EC, Hd.
    assert (Em : negb (is_empty (sys_dir c)) = true <-> sys_dir c <> "").
    { rewrite negb_true_iff. destruct (sys_dir c); split; intro H;
        (reflexivity || discriminate || congruence). }
    split.
    + intro f. destruct (write_cache_state c);
        destruct (negb (is_empty (sys_dir c))) eqn:E; cbn [andb app In].
      * split; [intros [H|H]|intros [-> _]; left; reflexivity].
        -- injection H as <-. repeat split. apply Em. reflexivity.
        -- exfalso. destruct H as [H|[H|H]]; try discriminate H.
           apply in_app_or in H. destruct H as [H|H].
           ++ exact (formats_release_no_dump _ _ _ H).
           ++ do 8 (destruct H as [H|H]; [discriminate H|]).
              destruct (_log _); cbn in H; [destruct H as [H|[]]; discriminate|tauto].
      * split; [|intros [_ [_ N]]; apply Em in N; discriminate N].
        intro H. exfalso. destruct H as [H|[H|H]]; try discriminate H.
        apply in_app_or in H. destruct H as [H|H].
        -- exact (formats_release_no_dump _ _ _ H).
        -- do 8 (destruct H as [H|H]; [discriminate H|]).
           destruct (_log _); cbn in H; [destruct H as [H|[]]; discriminate|tauto].
      * split; [|intros [_ [N _]]; discriminate N].
        intro H. exfalso. destruct H as [H|[H|H]]; try discriminate H.
        apply in_app_or in H. destruct H as [H|H].
        -- exact (formats_release_no_dump _ _ _ H).
        -- do 8 (destruct H as [H|H]; [discriminate H|]).
           destruct (_log _); cbn in H; [destruct H as [H|[]]; discriminate|tauto].
      * split; [|intros [_ [N _]]; discriminate N].
        intro H. exfalso. destruct H as [H|[H|H]]; try discriminate H.
        apply in_app_or in H. destruct H as [H|H].
        -- exact (formats_release_no_dump _ _ _ H).
        -- do 8 (destruct H as [H|H]; [discriminate H|]).
           destruct (_log _); cbn in H; [destruct H as [H|[]]; discriminate|tauto].
    + intros Hw Hn. apply Em in Hn. rewrite Hw, Hn. reflexivity.
Qed.

(** X11: an empty system directory does not switch the persistent filter off.
    The construction still wraps the filter chain in a persistent filter,
    whose file is then .cache in the root directory; it still examines that
    file, and loads it when it is newer than the configuration.  Only the
    dump at shutdown is off. *)
Theorem empty_system_dir_keeps_the_cache_filter (B : build) (W : world)
        (a : nat) (m : machine) (c : cmd_context) :
  w_getenv W "LVM_SYSTEM_DIR" = Some "" ->
  value (create_toolcontext B W a m) = Some c ->
  cache_path c = "/.cache"
  /\ filter c
     = Some (persistent_filter (type_filter (DEFAULT_PROC_DIR B) None)
                               "/.cache" (cache_decisions W c))
  /\ In (E_stat "/.cache" (w_stat W "/.cache"))
        (trace (create_toolcontext B W a m))
  /\ (forall mtime loaded,
        w_stat W "/.cache" = stat_ok mtime ->
        (w_config_file_timestamp W (Some {| root := [] |}) < mtime)%Z ->
        w_persistent_filter_load W "/.cache" = Some loaded ->
        cache_decisions W c = loaded)
  /\ dump_filter c = false.
Proof.
  intros G V.
  assert (SD : system_dir B W = "") by (unfold system_dir; rewrite G; reflexivity).
  destruct (create_toolcontext_context B W a m c V)
    as [_ [Hs [Hc [_ [Hp [Hf [Hd _]]]]]]].
  rewrite SD in Hs, Hc. cbn [config_nodes is_empty] in Hc.
  assert (R : cf_root c = []) by (unfold cf_root; rewrite Hc; reflexivity).
  assert (P : cache_path c = "/.cache")
    by (unfold cache_path; rewrite R, Hs; reflexivity).
  destruct (create_toolcontext_inv B W a m c V) as [_ [A _]].
  pose proof (A env_override) as V1. pose proof (A filter_construction) as V6.
  cbn [step_ok] in V1, V6.
  split; [exact P|]. split; [|split; [|split]].
  - rewrite Hf. unfold filter_chain, filter_components.
    rewrite Hp, P, R. reflexivity.
  - destruct (_init_filters_stats_cache B W _ V6) as [I _].
    rewrite (cache_path_run_dev_cache B W a m V1) in I.
    assert (Q : cache_file B W a m = "/.cache").
    { rewrite <- (cache_path_run_dev_cache B W a m V1).
      unfold cache_path. rewrite (sys_dir_run_dev_cache B W a m V1), SD.
      unfold cf_root. rewrite cf_run_dev_cache.
      destruct (create_toolcontext_result B W a m c V)
        as [_ [_ [_ [_ [_ [_ [_ [_ [_ [Cc _]]]]]]]]]].
      rewrite <- Cc, Hc. reflexivity. }
    rewrite Q in I.
    exact (step_trace_in_create B W a m c filter_construction _ V I).
  - intros mtime loaded S T Ld. unfold cache_decisions.
    rewrite P, S, Hc, Ld.
    apply Z.ltb_lt in T. rewrite Z.gtb_ltb, T. reflexivity.
  - rewrite Hd, Hs. apply andb_false_r.
Qed.

Lemma empty_system_dir_keeps_the_cache_filter_witness :
  exists c,
    value (create_toolcontext build_full world_root_cache 0 boot) = Some c
    /\ filter c
       = Some (persistent_filter (type_filter "/proc" None) "/.cache"
                                 [("/dev/sda1", false)])
    /\ dump_filter c = false.
Proof.
  destruct (value (create_toolcontext build_full world_root_cache 0 boot))
    as [c|] eqn:V; [|vm_compute in V; discriminate V].
  exists c.
  destruct (empty_system_dir_keeps_the_cache_filter
              build_full world_root_cache 0 boot c eq_refl V)
    as [_ [F [_ [L D]]]].
  split; [reflexivity|]. split; [|exact D].
  rewrite F.
  rewrite (L 200%Z [("/dev/sda1", false)] eq_refl eq_refl eq_refl).
  reflexivity.
Defined.

(** X12: a missing configuration file means the built-in defaults.  When
    lvm.conf does not exist under a non-empty system directory that leaves
    room for it, the context a construction returns has an empty
    configuration tree, the built-in settings, the default device and proc
    directories, the type filter alone inside the persistent filter, the
    cache file .cache under the system directory, and the dump flag set. *)
Theorem missing_config_file_means_defaults (B : build) (W : world) (a : nat)
        (m : machine) (c : cmd_context) :
  system_dir B W <> "" ->
  w_stat W (lvm_conf B W) = stat_fail ENOENT ->
  value (create_toolcontext B W a m) = Some c ->
  cf c = Some {| root := [] |}
  /\ default_settings c = built_in_settings B W (fmt (default_settings c))
  /\ dev_dir c = (DEFAULT_DEV_DIR B ++ "/")%string
  /\ proc_dir c = DEFAULT_PROC_DIR B
  /\ filter c
     = Some (persistent_filter (type_filter (DEFAULT_PROC_DIR B) None)
               (system_dir B W ++ "/.cache") (cache_decisions W c))
  /\ dump_filter c = true
  /\ (forall p ok, ~ In (E_read_config_file p ok)
                        (trace (create_toolcontext B W a m))).
Proof.
  intros N S V.
  destruct (create_toolcontext_context B W a m c V)
    as [_ [Hs [Hc [Hd [Hp [Hf [Hdump _]]]]]]].
  assert (E : is_empty (system_dir B W) = false)
    by (destruct (system_dir B W); [congruence|reflexivity]).
  unfold config_nodes in Hc. fold (lvm_conf B W) in Hc. rewrite E, S in Hc.
  assert (R : cf_root c = []) by (unfold cf_root; rewrite Hc; reflexivity).
  destruct (create_toolcontext_result B W a m c V)
    as [_ [_ [pos [_ [_ [_ [_ [_ [_ [_ [_ [Ds _]]]]]]]]]]]].
  rewrite R in Ds.
  split; [exact Hc|]. split; [rewrite Ds; reflexivity|].
  split; [rewrite Hd, R; reflexivity|]. split; [rewrite Hp, R; reflexivity|].
  split; [|split].
  - rewrite Hf. unfold filter_chain, filter_components, cache_path.
    rewrite Hp, R, Hs. reflexivity.
  - rewrite Hdump. unfold write_cache_state. rewrite R, Hs, E. reflexivity.
  - intros p ok H.
    destruct (create_toolcontext_event B W a m _ H) as [Hh|[s [Rs [Is Ss]]]];
      [discriminate Hh|].
    destruct s; try discriminate Ss. cbn [step_trace] in Is.
    destruct (_init_config_files B W (final (run_dir B W a m))) as [_ Fr].
    destruct (Fr p ok Is) as [_ [t St]].
    pose proof (reached_env B W a m _ Rs ltac:(discriminate)) as V1.
    rewrite run_dir_final, (sys_dir_run_env B W a m V1) in St.
    fold (lvm_conf B W) in St. congruence.
Qed.

Lemma missing_config_file_means_defaults_witness :
  exists c,
    value (create_toolcontext build_full world_no_conf 0 boot) = Some c
    /\ cf c = Some {| root := [] |} /\ dev_dir c = "/dev/"
    /\ dump_filter c = true.
Proof.
  destruct (value (create_toolcontext build_full world_no_conf 0 boot))
    as [c|] eqn:V; [|vm_compute in V; discriminate V].
  exists c.
  destruct (missing_config_file_means_defaults
              build_full world_no_conf 0 boot c
              ltac:(discriminate) eq_refl V) as [C [_ [D [_ [_ [F _]]]]]].
  split; [reflexivity|]. split; [exact C|]. split; [exact D|exact F].
Defined.

(** ** The loop over the format libraries *)

Ltac stopped_here :=
  split; [reflexivity|];
  split; [reflexivity|];
  split; [reflexivity|];
  split; [constructor|];
  split; [split; discriminate|];
  split; [reflexivity|];
  split;
  [ repeat split; try reflexivity; try assumption; try (cbn [In]; tauto)
  | let I := fresh "I" in
    intros ? ? I; cbn [In] in I;
    repeat match type of I with
           | _ \/ _ => destruct I as [I|I]
           end;
    try discriminate I; try contradiction;
    injection I as <- <-; (split; [left; reflexivity|congruence]) ].

(** X13: the loop over global/format_libraries.  It works through the entries
    in list order up to the first one that yields no handler, and registers,
    in that order, one handler per entry before it: the handler the init
    function of the library named by the entry returns, owning that library.
    What it has registered stays registered when it stops.  It succeeds
    exactly when no entry stops it.  An entry stops it when it is not a
    string, when its library does not load, when the library has no
    init_format symbol, which is the one case where the loop closes a
    library, or when the init function returns no handler, and then the
    library stays open, owned by no handler.  It loads no library but those
    of the entries it works through. *)
Theorem _init_formats_libs_outcome (W : world) (cv : list config_value)
        (m : machine) :
  let r := _init_formats_libs W cv m in
  exists done stopped dyn rest,
    cv = done ++ stopped
    /\ map (library_handler W) done = map Some dyn
    /\ formats (cmd (final r)) = formats (cmd m) ++ dyn
    /\ Forall (fun f => is_some (library f) = true) dyn
    /\ (value r = true <-> stopped = [])
    /\ collect opens (trace r) = handlers_open dyn ++ rest
    /\ match stopped with
       | [] => rest = [] /\ collect closes (trace r) = []
       | CFG_STRING path :: _ =>
           match w_load_shared_library W path with
           | None => rest = [] /\ collect closes (trace r) = []
           | Some lib =>
               rest = [H_library lib]
               /\ if w_dlsym W lib "init_format"
                  then w_init_format_fn W lib = None
                       /\ collect closes (trace r) = []
                       /\ In (E_init_format_fn lib false) (trace r)
                  else collect closes (trace r) = [H_library lib]
           end
       | _ :: _ =>
           rest = [] /\ collect closes (trace r) = []
           /\ In (E_log_error
                    "Invalid string in config file: global/format_libraries" [])
                 (trace r)
       end
    /\ (forall path lib,
           In (E_load_shared_library path lib) (trace r) ->
           In (CFG_STRING path) (done ++ firstn 1 stopped)
           /\ lib = w_load_shared_library W path).
Proof.
  revert m; induction cv as [|[i|x|path] next IH]; intro m; cbn zeta.
  - exists [], [], [], []. cbn. rewrite app_nil_r.
    repeat split; try constructor; intros; try contradiction.
  - exists [], (CFG_INT i :: next), [], []. cbn. rewrite app_nil_r.
    stopped_here.
  - exists [], (CFG_FLOAT x :: next), [], []. cbn. rewrite app_nil_r.
    stopped_here.
  - pose proof (fun f => IH {| cmd := set_formats (formats (cmd m) ++ [f]) (cmd m);
                               _log := _log m |}) as IH'.
    run (_init_formats_libs W (CFG_STRING path :: next) m).
    cbn [_init_formats_libs]. unfold list_add.
    exec; ran.
    + (* no init_format symbol *)
      exists [], (CFG_STRING path :: next), [], [H_library d].
      cbn [collect opens closes app In handlers_open flat_map map firstn].
      rewrite app_nil_r.
      match goal with
      | H : w_load_shared_library _ _ = _ |- _ => rewrite H
      end.
      match goal with
      | H : negb _ = true |- _ => apply negb_true_iff in H; rewrite H
      end.
      stopped_here.
    + (* the handler is registered and the loop goes on *)
      destruct (IH' (set_library (Some d) f))
        as [done [stopped [dyn [rest [E [Hm [F [Fa [S [O [C N]]]]]]]]]]].
      cbn zeta in F, S, O, C, N. use_calls.
      exists (CFG_STRING path :: done), stopped,
        (set_library (Some d) f :: dyn), rest.
      cbn [collect opens closes app In map library_handler].
      match goal with
      | H : w_load_shared_library _ _ = _ |- _ => rewrite H
      end.
      match goal with
      | H : negb _ = false |- _ => apply negb_false_iff in H; rewrite H
      end.
      match goal with
      | H : w_init_format_fn _ _ = _ |- _ => rewrite H
      end.
      cbn [option_map].
      split; [rewrite E; reflexivity|].
      split; [rewrite Hm; reflexivity|].
      split; [rewrite F, <- app_assoc; reflexivity|].
      split; [constructor; [reflexivity|exact Fa]|].
      split; [exact S|].
      split; [rewrite O; reflexivity|].
      split.
      * destruct stopped as [|[i|x|p] t]; try exact C.
        -- destruct C as [C1 [C2 C3]].
           split; [exact C1|]. split; [exact C2|]. right. right. right. exact C3.
        -- destruct C as [C1 [C2 C3]].
           split; [exact C1|]. split; [exact C2|]. right. right. right. exact C3.
        -- destruct (w_load_shared_library W p); [|exact C].
           destruct C as [C1 C2]. split; [exact C1|].
           destruct (w_dlsym W d0 "init_format"); [|exact C2].
           destruct C2 as [C2 [C3 C4]].
           split; [exact C2|]. split; [exact C3|]. right. right. right. exact C4.
      * intros path' lib' [I|[I|[I|I]]]; try discriminate I.
        -- injection I as <- <-. split; [left; reflexivity|congruence].
        -- destruct (N path' lib' I) as [N1 N2]. split; [right; exact N1|exact N2].
    + (* the init function returns no handler *)
      exists [], (CFG_STRING path :: next), [], [H_library d].
      cbn [collect opens closes app In handlers_open flat_map map firstn].
      rewrite app_nil_r.
      match goal with
      | H : w_load_shared_library _ _ = _ |- _ => rewrite H
      end.
      match goal with
      | H : negb _ = false |- _ => apply negb_false_iff in H; rewrite H
      end.
      stopped_here.
    + (* the library does not load *)
      exists [], (CFG_STRING path :: next), [], [].
      cbn [collect opens closes app In handlers_open flat_map map firstn].
      rewrite app_nil_r.
      match goal with
      | H : w_load_shared_library _ _ = _ |- _ => rewrite H
      end.
      stopped_here.
Qed.

(** ** The locale *)

Lemma bind_emit_run {A} e (k : unit -> M A) m :
  bind (emit e) k m = (let '(v, m2, t2) := k tt m in (v, m2, e :: t2)).
Proof. reflexivity. Qed.

Lemma bind_when_emit_run {A} b e (k : unit -> M A) m :
  bind (when b (emit e)) k m
  = (let '(v, m2, t2) := k tt m in (v, m2, (if b then [e] else []) ++ t2)).
Proof. destruct b; reflexivity. Qed.

Lemma _init_formats_setlocale B W b :
  current_locale (set_w_setlocale b W) = current_locale W ->
  _init_formats B (set_w_setlocale b W) = _init_formats B W.
Proof.
  intro H. unfold _init_formats. rewrite H. reflexivity.
Qed.

Lemma create_toolcontext_setlocale_run B W a m b :
  current_locale (set_w_setlocale b W) = current_locale W ->
  exists v mf rest,
    create_toolcontext B W a m
    = (v, mf, E_setlocale (w_setlocale W)
              :: (if w_setlocale W then []
                  else [E_log_error "setlocale failed" []]) ++ rest)
    /\ create_toolcontext B (set_w_setlocale b W) a m
       = (v, mf, E_setlocale b
                 :: (if b then [] else [E_log_error "setlocale failed" []])
                 ++ rest).
Proof.
  intro L.
  unfold create_toolcontext at 1 2. unfold log_error.
  rewrite (_init_formats_setlocale B W b L).
  rewrite (bind_emit_run (E_setlocale (w_setlocale W))),
    (bind_emit_run (E_setlocale (w_setlocale (set_w_setlocale b W)))),
    !bind_when_emit_run.
  cbn [w_setlocale set_w_setlocale].
  match goal with
  | |- exists _ _ _,
         match (match ?X with _ => _ end) with _ => _ end = _
         /\ match (match ?Y with _ => _ end) with _ => _ end = _ =>
      change Y with X; destruct X as [[v mf] rest]
  end.
  exists v, mf, rest.
  destruct (w_setlocale W), b; cbn [negb app]; split; reflexivity.
Qed.

Lemma run_filters_setlocale B W a m b :
  run_filters B (set_w_setlocale b W) a m = run_filters B W a m.
Proof. reflexivity. Qed.

Lemma step_ok_setlocale B W a m b s :
  s <> format_registry ->
  step_ok B (set_w_setlocale b W) a m s = step_ok B W a m s.
Proof.
  intro N. destruct s; try reflexivity. congruence.
Qed.

(** X14: [setlocale].  A failing [setlocale(LC_ALL, "")] is reported and the
    construction goes on, under the locale of the caller; a successful one
    puts the locale of the environment in force.  This file uses the answer
    twice: for that report and, through the LC_CTYPE left in force, where the
    format registry compares format names.  So, the other collaborators
    answering the same, the steps before the format registry run the same
    whatever [setlocale] answers; and when the environment names the locale
    of the caller, the whole construction returns the same context, leaves
    the same state and makes the same calls after the locale is set, a
    failure only adding the error message.  When the two locales differ the
    answer can decide the outcome: where the environment's locale folds I to
    the dotless i, a configuration that asks for the format MIRROR gets the
    handler called mirror, and a context, only when [setlocale] fails. *)
Theorem setlocale_failure_is_not_fatal (B : build) (W : world) (a : nat)
        (m : machine) :
  (w_setlocale W = false ->
   nth_error (trace (create_toolcontext B W a m)) 1
   = Some (E_log_error "setlocale failed" [])
   /\ current_locale W = w_locale_entry W)
  /\ (w_setlocale W = true -> current_locale W = w_locale_env W)
  /\ (forall b,
        run_filters B (set_w_setlocale b W) a m = run_filters B W a m
        /\ forall s, s <> format_registry ->
                     step_ok B (set_w_setlocale b W) a m s = step_ok B W a m s)
  /\ (w_locale_env W = w_locale_entry W ->
      (forall b,
          value (create_toolcontext B (set_w_setlocale b W) a m)
          = value (create_toolcontext B W a m)
          /\ final (create_toolcontext B (set_w_setlocale b W) a m)
             = final (create_toolcontext B W a m))
      /\ exists rest, forall b,
          trace (create_toolcontext B (set_w_setlocale b W) a m)
          = E_setlocale b
            :: (if b then [] else [E_log_error "setlocale failed" []])
               ++ rest)
  /\ (value (create_toolcontext build_full world_dotless_i 0 boot) = None
      /\ In (E_log_error "_init_formats: Default format (%s) not found"
                         [LStr "MIRROR"])
            (trace (create_toolcontext build_full world_dotless_i 0 boot))
      /\ exists c,
          value (create_toolcontext
                   build_full (set_w_setlocale false world_dotless_i) 0 boot)
          = Some c
          /\ fmt (default_settings c) = Some 1
          /\ nth_error (formats c) 1
             = Some (set_library (Some 7) mirror_format)).
Proof.
  assert (Same : w_locale_env W = w_locale_entry W ->
                 forall b, current_locale (set_w_setlocale b W)
                           = current_locale W).
  { intros E b. unfold current_locale. cbn [w_setlocale w_locale_env
      w_locale_entry set_w_setlocale]. rewrite E.
    destruct b, (w_setlocale W); reflexivity. }
  assert (Head : exists v mf rest,
             create_toolcontext B W a m
             = (v, mf, E_setlocale (w_setlocale W)
                       :: (if w_setlocale W then []
                           else [E_log_error "setlocale failed" []]) ++ rest)).
  { destruct (create_toolcontext_setlocale_run B W a m (w_setlocale W))
      as [v [mf [rest [E1 _]]]].
    - unfold current_locale. cbn [w_setlocale w_locale_env w_locale_entry
        set_w_setlocale]. reflexivity.
    - exists v, mf, rest. exact E1. }
  split; [|split; [|split; [|split]]].
  - intro L. destruct Head as [v [mf [rest E1]]]. split.
    + rewrite E1, L. reflexivity.
    + unfold current_locale. rewrite L. reflexivity.
  - intro L. unfold current_locale. rewrite L. reflexivity.
  - intro b. split; [apply run_filters_setlocale|].
    intros s N. apply step_ok_setlocale, N.
  - intro E. split.
    + intro b.
      destruct (create_toolcontext_setlocale_run B W a m b (Same E b))
        as [v [mf [rest [E1 E2]]]].
      rewrite E1, E2. split; reflexivity.
    + destruct Head as [v [mf [rest E1]]].
      exists rest. intro b.
      destruct (create_toolcontext_setlocale_run B W a m b (Same E b))
        as [v' [mf' [rest' [E1' E2']]]].
      rewrite E2'. cbn [trace snd]. rewrite E1 in E1'.
      injection E1' as _ _ R. apply app_inv_head in R. rewrite R. reflexivity.
  - split; [vm_compute; reflexivity|]. split.
    + vm_compute. intuition.
    + eexists. split; [vm_compute; reflexivity|]. split; reflexivity.
Qed.

(** ** The environment override *)

(** X15: [_get_env_vars].  Without LVM_SYSTEM_DIR the function succeeds and
    leaves the context alone.  With it, the function succeeds exactly when
    the value fits [sys_dir], and the system directory then is that value,
    the empty string included; otherwise it logs an error and fails, and
    [create_toolcontext] frees the context without having created a
    directory or a configuration tree. *)
Theorem _get_env_vars_outcome (B : build) (W : world) (a : nat) (m : machine) :
  (let r := _get_env_vars B W m in
   match w_getenv W "LVM_SYSTEM_DIR" with
   | None =>
       value r = true /\ cmd (final r) = cmd m
       /\ trace r = [E_getenv "LVM_SYSTEM_DIR" None]
   | Some e =>
       (value r = true <-> String.length e < sizeof_sys_dir B)
       /\ (value r = true ->
           sys_dir (cmd (final r)) = e
           /\ trace r = [E_getenv "LVM_SYSTEM_DIR" (Some e)])
       /\ (value r = false ->
           trace r
           = [E_getenv "LVM_SYSTEM_DIR" (Some e);
              E_log_error "LVM_SYSTEM_DIR environment variable is too long." []])
   end)
  /\ (forall e, w_getenv W "LVM_SYSTEM_DIR" = Some e ->
                sizeof_sys_dir B <= String.length e ->
                w_dbg_malloc W = true ->
                value (create_toolcontext B W a m) = None
                /\ trace (create_toolcontext B W a m)
                   = create_head B W
                     ++ [E_getenv "LVM_SYSTEM_DIR" (Some e);
                         E_log_error
                           "LVM_SYSTEM_DIR environment variable is too long." [];
                         E_dbg_free]).
Proof.
  assert (St : forall m',
             let r := _get_env_vars B W m' in
             match w_getenv W "LVM_SYSTEM_DIR" with
             | None =>
                 value r = true /\ cmd (final r) = cmd m'
                 /\ trace r = [E_getenv "LVM_SYSTEM_DIR" None]
             | Some e =>
                 (value r = true <-> String.length e < sizeof_sys_dir B)
                 /\ (value r = true ->
                     sys_dir (cmd (final r)) = e
                     /\ trace r = [E_getenv "LVM_SYSTEM_DIR" (Some e)])
                 /\ (value r = false ->
                     trace r
                     = [E_getenv "LVM_SYSTEM_DIR" (Some e);
                        E_log_error
                          "LVM_SYSTEM_DIR environment variable is too long." []])
             end).
  { intros m' r. subst r. run (_get_env_vars B W m').
    unfold _get_env_vars, getenv, lvm_snprintf.
    exec; ran;
      repeat match goal with
             | H : (_ <? _)%nat = true |- _ => apply Nat.ltb_lt in H
             | H : (_ <? _)%nat = false |- _ => apply Nat.ltb_ge in H
             end;
      repeat split; intros; try reflexivity; try assumption;
      try discriminate; try lia. }
  split; [exact (St m)|].
  intros e G L Hm.
  pose proof (St (allocated B W a m)) as S. cbn zeta in S.
  fold (run_env B W a m) in S. rewrite G in S. destruct S as [S1 [_ S3]].
  assert (V : value (run_env B W a m) = false).
  { destruct (value (run_env B W a m)); [|reflexivity].
    pose proof (proj1 S1 eq_refl). lia. }
  assert (F : fails_at B W a m env_override = true).
  { unfold fails_at. rewrite Hm. cbn [steps_before forallb step_ok andb].
    rewrite V. reflexivity. }
  destruct (create_toolcontext_fails B W a m env_override F) as [N T].
  split; [exact N|]. rewrite T. unfold trace_through.
  cbn [steps_before map List.concat step_trace app].
  rewrite (S3 V), <- app_assoc. reflexivity.
Qed.

(** ** Logging *)

(** X16: what [_init_logging] tells the logging subsystem is what it records
    in the context.  The debug level, the verbosity, the message prefix and
    the command-name flag handed to the [init_*] functions are the values
    stored in the default settings, read from the configuration; syslog is
    shut down unless log/syslog is 1 and opened again with the configured
    value when that is greater than 1; device-mapper is told about the
    logging exactly when it is compiled in. *)
Theorem _init_logging_applies_settings (B : build) (W : world) (m : machine) :
  let r := _init_logging B W m in
  let s := default_settings (cmd (final r)) in
  s = logging_settings B (cf_root (cmd m)) (default_settings (cmd m))
  /\ (forall x, In (E_init_debug x) (trace r) <-> x = debug s)
  /\ (forall x, In (E_init_verbose x) (trace r) <-> x = verbose s)
  /\ (forall x, In (E_init_msg_prefix x) (trace r) <-> x = msg_prefix s)
  /\ (forall x, In (E_init_cmd_name x) (trace r) <-> x = cmd_name s)
  /\ (In E_fin_syslog (trace r) <-> syslog s <> 1%Z)
  /\ (forall x, In (E_init_syslog x) (trace r) <-> x = syslog s /\ (1 < x)%Z)
  /\ (In E_dm_log_init (trace r) <-> DEVMAPPER_SUPPORT B = true).
Proof.
  intros r s. subst r s. rewrite _init_logging_cmd.
  cbn [default_settings set_default_settings].
  unfold logging_settings.
  cbn [debug verbose msg_prefix cmd_name syslog set_test set_cmd_name
       set_msg_prefix set_verbose set_debug set_syslog].
  split; [reflexivity|].
  run (_init_logging B W m). unfold _init_logging, fopen.
  exec; ran.
  all: repeat match goal with
              | |- context [if ?b then _ else _] => destruct b eqn:?
              end.
  all: repeat match goal with
              | H : (_ =? _)%Z = true |- _ => apply Z.eqb_eq in H
              | H : (_ =? _)%Z = false |- _ => apply Z.eqb_neq in H
              | H : (_ >? _)%Z = true |- _ =>
                  rewrite Z.gtb_ltb in H; apply Z.ltb_lt in H
              | H : (_ >? _)%Z = false |- _ =>
                  rewrite Z.gtb_ltb in H; apply Z.ltb_ge in H
              | H : negb _ = true |- _ => apply negb_true_iff in H
              | H : negb _ = false |- _ => apply negb_false_iff in H
              end.
  all: cbn [app In].
  all: repeat split; intros;
    try solve [intuition (subst; first [discriminate | congruence | lia])].
Qed.

(** ** What a failed construction leaves behind *)

Lemma step_trace_in_failed B W a m s s' e :
  fails_at B W a m s = true ->
  In s' (steps_before s) \/ s' = s ->
  In e (step_trace B W a m s') ->
  In e (trace (create_toolcontext B W a m)).
Proof.
  intros F I H. destruct (create_toolcontext_fails B W a m s F) as [_ T].
  rewrite T. apply in_or_app. left. unfold trace_through.
  apply in_or_app. right. apply in_or_app.
  destruct I as [I| ->]; [left|right; exact H].
  apply in_concat. exists (step_trace B W a m s'). split; [|exact H].
  apply in_map. exact I.
Qed.

Lemma fails_at_before B W a m s s' :
  fails_at B W a m s = true -> In s' (steps_before s) ->
  step_ok B W a m s' = true.
Proof.
  unfold fails_at. intros F I.
  apply andb_prop in F. destruct F as [F _].
  apply andb_prop in F. destruct F as [_ F].
  rewrite forallb_forall in F. exact (F s' I).
Qed.

(** X17: what a failed construction leaves allocated.  A failure of the
    environment override, of the directory creation or of the configuration
    load is clean: the function has handed back everything it obtained.
    Every later failure returns NULL while the configuration tree is still
    allocated, and with it whatever the earlier steps obtained: the device
    cache, the filter chain, the arena and the label registry; the failure
    of the arena allocation leaves the context structure allocated too. *)
Theorem failed_construction_leaks (B : build) (W : world) (a : nat)
        (m : machine) (s : fatal_step) :
  fails_at B W a m s = true ->
  let t := trace (create_toolcontext B W a m) in
  (forall h, In h (held_after_failure s) ->
             In h (collect opens t) /\ ~ In h (collect closes t))
  /\ (forall fp, In config_load (steps_before s) ->
                 log_file_opened B W (configuration B W a m) = Some fp ->
                 In (H_log_file fp) (collect opens t)
                 /\ ~ In (H_log_file fp) (collect closes t))
  /\ (held_after_failure s = [] ->
      Permutation (collect opens t) (collect closes t)).
Proof.
  intros F t. subst t.
  destruct (create_toolcontext_fails B W a m s F) as [_ T].
  assert (Hm : w_dbg_malloc W = true).
  { unfold fails_at in F. destruct (w_dbg_malloc W); [reflexivity|discriminate]. }
  (* no teardown call, and the tree is destroyed by a failing load only *)
  assert (Cl : forall h, In h (collect closes (trace (create_toolcontext B W a m))) ->
                 h = H_context
                 \/ (h = H_config_tree /\ value (run_config B W a m) = false)
                 \/ exists lib, h = H_library lib).
  { intros h I. apply collect_In in I. destruct I as [e [I C]].
    destruct (create_toolcontext_event B W a m e I) as [Hh|[s' [_ [Is Hs]]]].
    - destruct e; try discriminate Hh; try discriminate C.
      injection C as <-. left. reflexivity.
    - destruct s', e; try discriminate Hs; try discriminate C;
        injection C as <-.
      + right. left. split; [reflexivity|].
        cbn [step_trace] in Is.
        destruct (_init_config_handles B W (final (run_dir B W a m))) as [_ Cc].
        fold (run_config B W a m) in Cc. cbn zeta in Cc.
        destruct (value (run_config B W a m)); [|reflexivity].
        assert (X : In H_config_tree (collect closes (trace (run_config B W a m)))).
        { apply collect_In. eexists. split; [exact Is|reflexivity]. }
        rewrite Cc in X. destruct X.
      + right. right. eexists. reflexivity. }
  assert (Op : forall s' e h,
             In s' (steps_before s) -> In e (step_trace B W a m s') ->
             opens e = Some h ->
             In h (collect opens (trace (create_toolcontext B W a m)))).
  { intros s' e h I Ie O. apply collect_In. exists e. split; [|exact O].
    exact (step_trace_in_failed B W a m s s' e F (or_introl I) Ie). }
  assert (Tree : In config_load (steps_before s) ->
                 In H_config_tree
                    (collect opens (trace (create_toolcontext B W a m)))
                 /\ ~ In H_config_tree
                        (collect closes (trace (create_toolcontext B W a m)))).
  { intro I. pose proof (fails_at_before B W a m s _ F I) as V.
    cbn [step_ok] in V. split.
    - destruct (_init_config_handles B W (final (run_dir B W a m))) as [Oc _].
      fold (run_config B W a m) in Oc. cbn zeta in Oc.
      assert (T3 : w_create_config_tree W = true).
      { destruct (w_create_config_tree W) eqn:E; [reflexivity|].
        unfold run_config, _init_config, create_config_tree in V.
        rewrite E in V. discriminate V. }
      rewrite T3 in Oc.
      assert (X : In H_config_tree (collect opens (trace (run_config B W a m))))
        by (rewrite Oc; left; reflexivity).
      apply collect_In in X. destruct X as [e [Ie O]].
      exact (Op config_load e _ I Ie O).
    - intro X. destruct (Cl _ X) as [X'|[[_ X']|[lib X']]];
        try discriminate X'. congruence. }
  assert (Dev : In device_cache_init (steps_before s) ->
                In H_dev_cache
                   (collect opens (trace (create_toolcontext B W a m)))
                /\ ~ In H_dev_cache
                       (collect closes (trace (create_toolcontext B W a m)))).
  { intro I. pose proof (fails_at_before B W a m s _ F I) as V.
    cbn [step_ok] in V. split.
    - destruct (_init_dev_cache_handles W (final (run_process B W a m))) as [Oc _].
      fold (run_dev_cache B W a m) in Oc.
      assert (T5 : w_dev_cache_init W = true).
      { destruct (w_dev_cache_init W) eqn:E; [reflexivity|].
        unfold run_dev_cache, _init_dev_cache in V.
        rewrite E in V. discriminate V. }
      rewrite T5 in Oc.
      assert (X : In H_dev_cache (collect opens (trace (run_dev_cache B W a m))))
        by (rewrite Oc; left; reflexivity).
      apply collect_In in X. destruct X as [e [Ie O]].
      exact (Op device_cache_init e _ I Ie O).
    - intro X. destruct (Cl _ X) as [X'|[[X' _]|[lib X']]]; discriminate X'. }
  assert (Fil : In filter_construction (steps_before s) ->
                In H_filter
                   (collect opens (trace (create_toolcontext B W a m)))
                /\ ~ In H_filter
                       (collect closes (trace (create_toolcontext B W a m)))).
  { intro I. pose proof (fails_at_before B W a m s _ F I) as V.
    cbn [step_ok] in V. split.
    - destruct (_init_filters_handles B W (final (run_dev_cache B W a m)))
        as [Oc _].
      fold (run_filters B W a m) in Oc. cbn zeta in Oc. rewrite V in Oc.
      assert (X : In H_filter (collect opens (trace (run_filters B W a m))))
        by (rewrite Oc; left; reflexivity).
      apply collect_In in X. destruct X as [e [Ie O]].
      exact (Op filter_construction e _ I Ie O).
    - intro X. destruct (Cl _ X) as [X'|[[X' _]|[lib X']]]; discriminate X'. }
  split; [|split].
  - intros h I.
    destruct s; cbn [held_after_failure In] in I;
      repeat (destruct I as [<-|I]); try destruct I;
      try (apply Tree; cbn [steps_before In]; tauto);
      try (apply Dev; cbn [steps_before In]; tauto);
      try (apply Fil; cbn [steps_before In]; tauto).
    + (* the context, when the arena cannot be allocated *)
      split.
      * apply collect_In. exists (E_dbg_malloc true). split; [|reflexivity].
        rewrite T. apply in_or_app. left. unfold trace_through, create_head.
        rewrite Hm, !in_app_iff. cbn [In]. tauto.
      * intro X. apply collect_In in X. destruct X as [e [Ie C]].
        destruct e; try discriminate C. clear C.
        rewrite T in Ie. apply in_app_or in Ie.
        destruct Ie as [Ie|[Ie|[]]]; [|discriminate Ie].
        unfold trace_through in Ie. apply in_app_or in Ie.
        destruct Ie as [Ie|Ie].
        -- unfold create_head in Ie. destruct (w_setlocale W); cbn in Ie;
             intuition discriminate.
        -- assert (X : exists s', In E_dbg_free (step_trace B W a m s')).
           { apply in_app_or in Ie. destruct Ie as [Ie|Ie];
               [|eexists; exact Ie].
             apply in_concat in Ie. destruct Ie as [l [Il Ie]].
             apply in_map_iff in Il. destruct Il as [s' [<- _]].
             exists s'. exact Ie. }
           destruct X as [s' X].
           pose proof (step_trace_events B W a m s') as Ev.
           rewrite forallb_forall in Ev. specialize (Ev _ X).
           destruct s'; discriminate Ev.
    + (* the arena and the label registry, when the formats fail *)
      split.
      * apply collect_In. exists (E_pool_create (4 * 1024) true).
        split; [|reflexivity].
        apply (step_trace_in_failed B W a m format_registry arena_allocation
                 _ F); [left; cbn [steps_before In]; tauto|].
        cbn [step_trace].
        pose proof (fails_at_before B W a m format_registry arena_allocation F
                      ltac:(cbn [steps_before In]; tauto)) as V.
        cbn [step_ok] in V. rewrite V. left. reflexivity.
      * intro X. destruct (Cl _ X) as [X'|[[X' _]|[lib X']]]; discriminate X'.
    + split.
      * apply collect_In. exists E_label_init. split; [|reflexivity].
        apply (step_trace_in_failed B W a m format_registry format_registry
                 _ F); [right; reflexivity|].
        cbn [step_trace]. unfold run_formats.
        run (_init_formats B W (pooled B W a m)). unfold _init_formats.
        rewrite bind_emit_run.
        match goal with
        | |- match ?X with _ => _ end = _ -> _ => destruct X as [[? ?] ?]
        end.
        ran. left. reflexivity.
      * intro X. destruct (Cl _ X) as [X'|[[X' _]|[lib X']]]; discriminate X'.
  - intros fp I L. split.
    + destruct (_init_logging_handles B W (final (run_config B W a m)))
        as [Oc _].
      fold (run_logging B W a m) in Oc. cbn zeta in Oc.
      fold (configuration B W a m) in Oc. rewrite L in Oc.
      assert (X : In (H_log_file fp)
                     (collect opens (trace (run_logging B W a m))))
        by (rewrite Oc; left; reflexivity).
      apply collect_In in X. destruct X as [e [Ie O]].
      apply collect_In. exists e. split; [|exact O].
      apply (step_trace_in_failed B W a m s settings_processing e F).
      * destruct s; cbn [steps_before In] in I |- *;
          intuition (try discriminate; auto).
      * cbn [step_trace]. apply in_or_app. left. exact Ie.
    + intro X. destruct (Cl _ X) as [X'|[[X' _]|[lib X']]]; discriminate X'.
  - intro E. rewrite T. unfold trace_through, create_head.
    destruct s; cbn [held_after_failure] in E; try discriminate E;
      cbn [steps_before map List.concat step_trace];
      rewrite !collect_app.
    + destruct (_get_env_vars_handles B W (allocated B W a m)) as [O1 C1].
      fold (run_env B W a m) in O1, C1. rewrite O1, C1, Hm.
      destruct (w_setlocale W); cbn; reflexivity.
    + destruct (_get_env_vars_handles B W (allocated B W a m)) as [O1 C1].
      fold (run_env B W a m) in O1, C1.
      destruct (run_dir_handles B W a m) as [O2 C2].
      rewrite O1, C1, O2, C2, Hm.
      destruct (w_setlocale W); cbn; reflexivity.
    + destruct (_get_env_vars_handles B W (allocated B W a m)) as [O1 C1].
      fold (run_env B W a m) in O1, C1.
      destruct (run_dir_handles B W a m) as [O2 C2].
      destruct (_init_config_handles B W (final (run_dir B W a m))) as [O3 C3].
      fold (run_config B W a m) in O3, C3. cbn zeta in O3, C3.
      assert (V : value (run_config B W a m) = false).
      { unfold fails_at in F. apply andb_prop in F. destruct F as [_ F].
        cbn [step_ok] in F. apply negb_true_iff in F. exact F. }
      rewrite V in C3.
      rewrite O1, C1, O2, C2, O3, C3, Hm.
      destruct (w_setlocale W), (w_create_config_tree W); cbn;
        try reflexivity; apply perm_swap.
Qed.

Lemma failed_construction_leaks_witness :
  In H_config_tree
     (collect opens (trace (create_toolcontext build_full world_bad_units 0 boot)))
  /\ ~ In H_config_tree
         (collect closes
            (trace (create_toolcontext build_full world_bad_units 0 boot))).
Proof.
  exact (proj1 (failed_construction_leaks build_full world_bad_units 0 boot
                  settings_processing eq_refl)
               H_config_tree (or_introl eq_refl)).
Defined.

(** ** The table of command-line arguments *)

Lemma distinct_NoDup l : distinct l = true -> NoDup l.
Proof.
  induction l as [|s l IH]; intro H; [constructor|].
  cbn [distinct] in H. apply andb_prop in H. destruct H as [N D].
  constructor; [|exact (IH D)].
  intro I. apply negb_true_iff in N.
  assert (E : existsb (String.eqb s) l = true).
  { apply existsb_exists. exists s. split; [exact I|apply String.eqb_refl]. }
  congruence.
Qed.

(** X18: the layout of args.h.  No enumerator is declared twice.  The table is
    the arguments that have a long option only, then the arguments that have
    a short option, then the sentinel ARG_COUNT, which is therefore the
    number of arguments, 66.  An argument without a short option always has
    a long one.  Two arguments never share a long option, except uuid_ARG
    and uuidstr_ARG, which are both spelled uuid. *)
Theorem args_h_layout :
  NoDup (map arg_id args_h)
  /\ (exists long_only lettered,
        args_h = long_only ++ lettered ++ [arg "ARG_COUNT" "-"%char "" None]
        /\ Forall (fun d => short_arg d = zero /\ long_arg d <> "") long_only
        /\ Forall (fun d => short_arg d <> zero) lettered
        /\ List.length (long_only ++ lettered) = 66)
  /\ (forall d1 d2, In d1 args_h -> In d2 args_h ->
                    long_arg d1 = long_arg d2 ->
                    arg_id d1 = arg_id d2 \/ long_arg d1 = "uuid"
                    \/ long_arg d1 = "")
  /\ args_named "uuid" = ["uuid_ARG"; "uuidstr_ARG"]
  /\ args_named "" = ["help2_ARG"; "ARG_COUNT"].
Proof.
  split; [apply distinct_NoDup; vm_compute; reflexivity|].
  split.
  - exists (firstn 11 args_h), (firstn 55 (skipn 11 args_h)).
    split; [vm_compute; reflexivity|].
    split; [|split; [|vm_compute; reflexivity]].
    + cbn [firstn args_h].
      repeat (constructor; [split; [reflexivity|discriminate]|]).
      constructor.
    + cbn [firstn skipn args_h].
      repeat (constructor; [discriminate|]). constructor.
  - split; [|split; reflexivity].
    assert (C : long_options_clash_only_on ["uuid"; ""] = true)
      by (vm_compute; reflexivity).
    unfold long_options_clash_only_on in C. rewrite forallb_forall in C.
    intros d1 d2 I1 I2 E. specialize (C d1 I1).
    rewrite forallb_forall in C. specialize (C d2 I2).
    rewrite E, String.eqb_refl in C. cbn [negb orb existsb] in C.
    apply orb_prop in C. destruct C as [C|C].
    + left. apply String.eqb_eq. exact C.
    + rewrite orb_false_r in C. apply orb_prop in C.
      destruct C as [C|C]; apply String.eqb_eq in C; rewrite <- E in C; auto.
Qed.

(** ** The teardown of a constructed context *)

Lemma formats_release_In b fmts e :
  In e (formats_release b fmts)
  <-> exists f, In f fmts
                /\ (e = E_format_destroy f
                    \/ (b = true
                        /\ exists lib, library f = Some lib
                                       /\ e = E_dlclose lib)).
Proof.
  induction fmts as [|f l IH]; cbn [formats_release In].
  - split; [intros []|intros [f [[] _]]].
  - rewrite in_app_iff, IH. split.
    + intros [<-|[H|[g [I H]]]].
      * exists f. split; [left; reflexivity|left; reflexivity].
      * exists f. split; [left; reflexivity|]. right.
        destruct (library f) as [lib|]; [|destruct H].
        destruct b; [|destruct H]. destruct H as [<-|[]].
        split; [reflexivity|]. exists lib. split; reflexivity.
      * exists g. split; [right; exact I|exact H].
    + intros [g [[<-|I] H]].
      * destruct H as [->|[-> [lib [L ->]]]]; [left; reflexivity|].
        right. left. rewrite L. left. reflexivity.
      * right. right. exists g. split; assumption.
Qed.

Lemma destroy_toolcontext_In B m e :
  In e (trace (destroy_toolcontext B m))
  <-> (dump_filter (cmd m) = true
       /\ e = E_persistent_filter_dump (filter (cmd m)))
      \/ In e [E_cache_destroy; E_label_exit]
      \/ (exists f, In f (formats (cmd m))
                    /\ (e = E_format_destroy f
                        \/ (HAVE_LIBDL B = true
                            /\ exists lib, library f = Some lib
                                           /\ e = E_dlclose lib)))
      \/ In e [E_filter_destroy (filter (cmd m)); E_pool_destroy (mem (cmd m));
               E_dev_cache_exit; E_destroy_config_tree (cf (cmd m));
               E_dbg_free; E_dump_memory; E_fin_log; E_fin_syslog]
      \/ (exists fp, _log m = Some fp /\ e = E_fclose fp).
Proof.
  rewrite destroy_toolcontext_trace, !in_app_iff, formats_release_In.
  assert (D : In e (if dump_filter (cmd m)
                    then [E_persistent_filter_dump (filter (cmd m))] else [])
              <-> dump_filter (cmd m) = true
                  /\ e = E_persistent_filter_dump (filter (cmd m))).
  { destruct (dump_filter (cmd m)); cbn [In]; split.
    - intros [<-|[]]. split; reflexivity.
    - intros [_ ->]. left. reflexivity.
    - intros [].
    - intros [X _]. discriminate X. }
  assert (L : In e (match _log m with
                    | Some fp => [E_fclose fp]
                    | None => []
                    end)
              <-> exists fp, _log m = Some fp /\ e = E_fclose fp).
  { destruct (_log m) as [fp|]; cbn [In]; split.
    - intros [<-|[]]. exists fp. split; reflexivity.
    - intros [fp' [X ->]]. injection X as ->. left. reflexivity.
    - intros [].
    - intros [fp' [X _]]. discriminate X. }
  rewrite D, L. reflexivity.
Qed.

(** Every way an event can be in the trace of a teardown; the ways that do
    not fit the event's constructor are discarded. *)
Ltac teardown_cases H :=
  apply destroy_toolcontext_In in H;
  cbn [In] in H;
  repeat match type of H with
         | _ \/ _ => destruct H as [H|H]
         | _ /\ _ => let H' := fresh in destruct H as [H' H]
         | exists _, _ => let x := fresh in destruct H as [x H]
         | False => destruct H
         end;
  try discriminate H.

(** X19: the teardown of a context that [create_toolcontext] returned never
    hands a null pointer to a destructor.  The filter it destroys, and the
    one it dumps when it dumps, is the filter chain the construction
    installed; the arena it destroys is the arena of 4096 bytes the
    construction created; the tree it destroys is the configuration tree of
    the context; the format handlers it destroys are exactly those of the
    format list, and the libraries it closes exactly those the handlers
    own, in a build that can load libraries. *)
Theorem teardown_of_a_constructed_context (B : build) (W : world) (a : nat)
        (m : machine) (c : cmd_context) :
  value (create_toolcontext B W a m) = Some c ->
  let t := trace (destroy_toolcontext B (final (create_toolcontext B W a m))) in
  In (E_filter_destroy (Some (filter_chain W c))) t
  /\ (forall f, In (E_filter_destroy f) t \/ In (E_persistent_filter_dump f) t ->
                f = Some (filter_chain W c))
  /\ (forall p, In (E_pool_destroy p) t <-> p = Some {| chunk_hint := 4 * 1024 |})
  /\ (forall tr, In (E_destroy_config_tree tr) t
                 <-> tr = Some {| root := config_nodes W (system_dir B W) |})
  /\ (forall f, In (E_format_destroy f) t <-> In f (formats c))
  /\ (forall lib, In (E_dlclose lib) t
                  <-> HAVE_LIBDL B = true
                      /\ exists f, In f (formats c) /\ library f = Some lib).
Proof.
  intros V t. subst t.
  destruct (create_toolcontext_context B W a m c V)
    as [_ [_ [Hc [_ [_ [Hf [_ Hmem]]]]]]].
  destruct (create_toolcontext_inv B W a m c V) as [Hm [A EC]].
  destruct (create_toolcontext_succeeds B W a m Hm A) as [_ [_ [_ FC]]].
  assert (Fc : cmd (final (create_toolcontext B W a m)) = c)
    by (rewrite FC, EC; reflexivity).
  split; [|split; [|split; [|split; [|split]]]].
  - apply destroy_toolcontext_In. rewrite Fc, Hf. cbn [In]. tauto.
  - intros f [H|H]; teardown_cases H; rewrite Fc, Hf in H;
      injection H as <-; reflexivity.
  - intro p. split.
    + intro H. teardown_cases H. rewrite Fc, Hmem in H.
      injection H as <-. reflexivity.
    + intros ->. apply destroy_toolcontext_In. rewrite Fc, Hmem.
      cbn [In]. tauto.
  - intro tr. split.
    + intro H. teardown_cases H. rewrite Fc, Hc in H.
      injection H as <-. reflexivity.
    + intros ->. apply destroy_toolcontext_In. rewrite Fc, Hc.
      cbn [In]. tauto.
  - intro f. split.
    + intro H. teardown_cases H. rewrite Fc in *.
      injection H as ->. assumption.
    + intro I. apply destroy_toolcontext_In. rewrite Fc.
      right. right. left. exists f. split; [exact I|left; reflexivity].
  - intro lib. split.
    + intro H. teardown_cases H. rewrite Fc in *.
      injection H as ->. split; [assumption|]. eexists. split; eassumption.
    + intros [L [g [I Lg]]]. apply destroy_toolcontext_In. rewrite Fc.
      right. right. left. exists g. split; [exact I|]. right.
      split; [exact L|]. exists lib. split; [exact Lg|reflexivity].
Qed.

Lemma teardown_of_a_constructed_context_witness :
  In (E_dlclose 7) (trace (destroy_toolcontext build_full machine_ok))
  /\ In (E_pool_destroy (Some {| chunk_hint := 4 * 1024 |}))
        (trace (destroy_toolcontext build_full machine_ok)).
Proof.
  destruct (value (create_toolcontext build_full (world_ok sample_conf) 0 boot))
    as [c|] eqn:V; [|vm_compute in V; discriminate V].
  destruct (teardown_of_a_constructed_context
              build_full (world_ok sample_conf) 0 boot c V)
    as [_ [_ [P [_ [_ L]]]]].
  split.
  - apply L. split; [reflexivity|].
    exists (set_library (Some 7) pool_format). split; [|reflexivity].
    vm_compute in V. injection V as <-. cbn. tauto.
  - apply P. reflexivity.
Defined.

(** ** Runs of the properties above *)

Lemma stale_log_file_is_closed_again_witness :
  In (E_fclose 3) (trace (destroy_toolcontext build_full machine_ok))
  /\ In (E_fclose 3)
        (trace (destroy_toolcontext build_full
                  (final (create_toolcontext build_full (world_ok conf_no_log)
                            0 machine_torn_down)))).
Proof.
  destruct (value (create_toolcontext build_full (world_ok conf_no_log) 0
                     machine_torn_down)) as [c|] eqn:V;
    [|vm_compute in V; discriminate V].
  assert (N : find_config_str (cf_root c) "log/file" None = None).
  { vm_compute in V. injection V as <-. reflexivity. }
  destruct (stale_log_file_is_closed_again
              build_full (world_ok conf_no_log) 0 machine_ok 3 c
              eq_refl V N) as [C1 [_ [_ [_ C2]]]].
  split; [exact C1|exact C2].
Defined.

Lemma _get_env_vars_outcome_witness :
  value (create_toolcontext build_full world_long_override 0 boot) = None
  /\ collect opens (trace (create_toolcontext build_full world_long_override 0 boot))
     = [H_context]
  /\ collect closes (trace (create_toolcontext build_full world_long_override 0 boot))
     = [H_context].
Proof.
  destruct (proj2 (_get_env_vars_outcome build_full world_long_override 0 boot)
                  _ eq_refl ltac:(vm_compute; lia) eq_refl) as [V T].
  split; [exact V|]. rewrite T. split; reflexivity.
Defined.
